(** * Regional pricing widget (src/regional-pricing.js)

    A shallow embedding of the price calculator, the session cache, the
    display updater and the page-load routine [init], followed by the
    properties established about them.

    JavaScript numbers are IEEE-754 binary64 values; they are embedded as
    Rocq's primitive floats, whose arithmetic is the same round-to-nearest
    binary64 arithmetic.  Timestamps ([Date.now()]) are whole numbers of
    milliseconds far below 2^53, where binary64 arithmetic is exact; they
    are embedded as [Z].  Texts are embedded as [string], holding the
    bytes of their UTF-8 encoding.  A conversion that can throw returns an
    [option], [None] being the [TypeError]. *)

From Stdlib Require Import ZArith String Ascii List Lia.
From Stdlib Require Import Floats.PrimFloat Floats.FloatOps Floats.SpecFloat.
From Stdlib Require Numbers.Cyclic.Int63.Uint63.
From Stdlib Require Import DecimalString DecimalZ DecimalN DecimalPos.
From Stdlib Require QArith Qround.
From stdpp Require Import base option list strings gmap.

Set Warnings "-inexact-float,-register-all".
Set Default Proof Using "Type".
Local Open Scope string_scope.

(** ** Strings *)

(** The one-character string holding a double quote (code 34). *)
Definition dq : string := String (ascii_of_nat 34) EmptyString.

(** [s.startsWith(p)]. *)
Fixpoint startsWith (p s : string) : bool :=
  match p with
  | EmptyString => true
  | String a p' =>
      match s with
      | EmptyString => false
      | String b s' => if Ascii.eqb a b then startsWith p' s' else false
      end
  end.

(** [s.includes(p)]: [p] occurs somewhere in [s]. *)
Fixpoint includes (p s : string) : bool :=
  startsWith p s ||
  match s with
  | EmptyString => false
  | String _ s' => includes p s'
  end.

(** [s.replace(/p/g, r)] for a pattern [p] that is a literal text without
    capture groups: matches are found left to right and do not overlap.
    [skip] counts the characters of the current match still to be dropped.
    The replacement [r] is inserted as it is, which is what [replace] does
    with a text that holds none of the substitution escapes of a pattern
    without groups (see [literalReplacement]).  In this program [r] is a
    price text: a dollar sign followed by a digit, a minus sign, [N] or
    [I]. *)
Fixpoint replace_from (p r s : string) (skip : nat) : string :=
  match s with
  | EmptyString => EmptyString
  | String c s' =>
      match skip with
      | S k => replace_from p r s' k
      | O =>
          if startsWith p s && negb (String.eqb p EmptyString)
          then r ++ replace_from p r s' (String.length p - 1)
          else String c (replace_from p r s' 0)
      end
  end.

Definition replaceAll (p r s : string) : string := replace_from p r s 0.

(** A replacement text that [replace] inserts as it is: it holds none of
    the escapes for a dollar sign, the match, the text before it and the
    text after it.  (A dollar sign before a digit or [<] refers to a
    group, and stands for itself where the pattern has none.) *)
Definition literalReplacement (r : string) : bool :=
  negb (includes "$$" r || includes "$&" r || includes "$`" r || includes "$'" r).

(** [count] copies of [fill], one after the other. *)
Fixpoint repeat_string (fill : string) (count : nat) : string :=
  match count with
  | O => EmptyString
  | S k => fill ++ repeat_string fill k
  end.

(** The first [n] characters of [s]. *)
Fixpoint take_string (n : nat) (s : string) : string :=
  match n, s with
  | S k, String c s' => String c (take_string k s')
  | _, _ => EmptyString
  end.

(** [s.padStart(targetLength, padString)]. *)
Definition padStart (targetLength : nat) (padString s : string) : string :=
  let missing := (targetLength - String.length s)%nat in
  if String.eqb padString EmptyString then s
  else take_string missing (repeat_string padString missing) ++ s.

(** Decimal text of a whole number, as [Number::toString] prints one. *)
Definition Z_toString (z : Z) : string := NilZero.string_of_int (Z.to_int z).

(** ** Numbers *)

(** The float that holds the whole number [z]; exact for [|z| <= 2^53]. *)
Definition float_of_Z (z : Z) : float :=
  if (z <? 0)%Z
  then PrimFloat.opp (PrimFloat.of_uint63 (Uint63.of_Z (Z.abs z)))
  else PrimFloat.of_uint63 (Uint63.of_Z z).

(** The mantissa of a finite float, with its sign. *)
Definition signed_mantissa (s : bool) (m : positive) : Z :=
  if s then Z.neg m else Z.pos m.

(** [Math.floor]: a float [m * 2^e] with [e >= 0] is whole already;
    otherwise the mantissa is shifted right, which rounds down. *)
Definition Math_floor (x : float) : float :=
  match Prim2SF x with
  | S754_finite s m e =>
      if (0 <=? e)%Z then x
      else float_of_Z (Z.shiftr (signed_mantissa s m) (- e))
  | _ => x
  end.

(** [Math.round]: the nearest whole number, ties towards +infinity, computed
    exactly as floor((2 m + 2^k) / 2^(k+1)) for x = m / 2^k; a result of
    zero keeps the sign of [x]. *)
Definition Math_round (x : float) : float :=
  match Prim2SF x with
  | S754_finite s m e =>
      if (0 <=? e)%Z then x
      else
        let k := (- e)%Z in
        let q := Z.shiftr (2 * signed_mantissa s m + 2 ^ k) (k + 1) in
        if (q =? 0)%Z then (if s then (-0)%float else 0%float)
        else float_of_Z q
  | _ => x
  end.

(** The whole number a finite float [m * 2^e] denotes, when it is one and
    does not exceed 2^53: up to there every whole number is a float, and
    [Number::toString] prints all of its digits. *)
Definition whole_value (m : positive) (e : Z) : option Z :=
  if (0 <=? e)%Z then
    let n := (Z.pos m * 2 ^ e)%Z in
    if (n <=? 2 ^ 53)%Z then Some n else None
  else
    let d := (2 ^ (- e))%Z in
    if (Z.pos m mod d =? 0)%Z then Some (Z.pos m / d)%Z else None.

(** [Number::toString] (radix 10).  [other] prints the numbers that are
    not whole or exceed 2^53 (shortest round-trip digits, exponent form);
    it is supplied by the runtime. *)
Definition Number_toString_with (other : float -> string) (x : float) : string :=
  match Prim2SF x with
  | S754_nan => "NaN"
  | S754_infinity false => "Infinity"
  | S754_infinity true => "-Infinity"
  | S754_zero _ => "0"
  | S754_finite s m e =>
      match whole_value m e with
      | Some n => (if s then "-" else "") ++ Z_toString n
      | None => other x
      end
  end.

(** The value of a decimal digit character. *)
Definition digit_of_char (c : ascii) : option Z :=
  let n := Z.of_nat (nat_of_ascii c) in
  if (48 <=? n)%Z && (n <=? 57)%Z then Some (n - 48)%Z else None.

(** The number spelled by the longest run of digits at the start of [s];
    [acc] is what has been read so far, [None] when nothing has. *)
Fixpoint digits_value (s : string) (acc : option Z) : option Z :=
  match s with
  | EmptyString => acc
  | String c s' =>
      match digit_of_char c with
      | Some d => digits_value s' (Some (10 * default 0%Z acc + d)%Z)
      | None => acc
      end
  end.

(** A text is held as the bytes of its UTF-8 encoding, which is what a
    string literal denotes.  The white space and line terminators that
    [parseInt] strips are, within ASCII, tab, line feed, vertical tab, form
    feed, carriage return and space; beyond ASCII, the code points U+00A0,
    U+1680, U+2000 to U+200A, U+2028, U+2029, U+202F, U+205F, U+3000 and
    U+FEFF, of two or three bytes each. *)
Definition is_whitespace (c : ascii) : bool :=
  let n := nat_of_ascii c in
  (Nat.leb 9 n && Nat.leb n 13) || Nat.eqb n 32.

(** The first byte of a white space character of more than one byte. *)
Definition is_whitespace_lead (c : ascii) : bool :=
  let n := nat_of_ascii c in
  Nat.eqb n 194 || Nat.eqb n 225 || Nat.eqb n 226 || Nat.eqb n 227 || Nat.eqb n 239.

(** U+00A0 is C2 A0. *)
Definition is_whitespace2 (a b : ascii) : bool :=
  Nat.eqb (nat_of_ascii a) 194 && Nat.eqb (nat_of_ascii b) 160.

(** U+1680 is E1 9A 80; U+2000 to U+200A are E2 80 80 to E2 80 8A; U+2028,
    U+2029 and U+202F are E2 80 A8, E2 80 A9 and E2 80 AF; U+205F is
    E2 81 9F; U+3000 is E3 80 80; U+FEFF is EF BB BF. *)
Definition is_whitespace3 (a b c : ascii) : bool :=
  let x := nat_of_ascii a in
  let y := nat_of_ascii b in
  let z := nat_of_ascii c in
  (Nat.eqb x 225 && Nat.eqb y 154 && Nat.eqb z 128)
  || (Nat.eqb x 226 && Nat.eqb y 128
      && ((Nat.leb 128 z && Nat.leb z 138) || Nat.eqb z 168 || Nat.eqb z 169
          || Nat.eqb z 175))
  || (Nat.eqb x 226 && Nat.eqb y 129 && Nat.eqb z 159)
  || (Nat.eqb x 227 && Nat.eqb y 128 && Nat.eqb z 128)
  || (Nat.eqb x 239 && Nat.eqb y 187 && Nat.eqb z 191).

Fixpoint skip_whitespace (s : string) : string :=
  match s with
  | EmptyString => s
  | String a s1 =>
      if is_whitespace a then skip_whitespace s1
      else if is_whitespace_lead a then
        match s1 with
        | EmptyString => s
        | String b s2 =>
            if is_whitespace2 a b then skip_whitespace s2
            else match s2 with
                 | EmptyString => s
                 | String c s3 =>
                     if is_whitespace3 a b c then skip_whitespace s3 else s
                 end
        end
      else s
  end.

(** [parseInt(s, 10)]: leading white space, an optional sign, then the
    longest run of digits; [None] is [NaN]. *)
Definition parseInt (s : string) : option Z :=
  match skip_whitespace s with
  | String "-" rest => Z.opp <$> digits_value rest None
  | String "+" rest => digits_value rest None
  | trimmed => digits_value trimmed None
  end.

(** ** Values *)

(** JavaScript values as this program meets them: [undefined], and what
    [JSON.parse] produces.  An object is the list of its own properties in
    enumeration order, with distinct keys. *)
Inductive value : Type :=
  | VUndefined
  | VNull
  | VBool (b : bool)
  | VNum (n : float)
  | VStr (s : string)
  | VArr (items : list value)
  | VObj (fields : list (string * value)).

(** What the program asks of its runtime and is not spelled out here. *)
Class Runtime : Type := {
  (** [JSON.parse]; [None] is a thrown [SyntaxError]. *)
  JSON_parse : string -> option value;
  (** [JSON.stringify]. *)
  JSON_stringify : value -> string;
  (** [Number::toString] on numbers that are not whole or exceed 2^53. *)
  Number_toString_other : float -> string;
  (** [parseFloat] on a string. *)
  parseFloat_string : string -> float;
  (** [Number(s)] for a string [s]. *)
  StringToNumber : string -> float
}.

(** [ToBoolean]. *)
Definition truthy (v : value) : bool :=
  match v with
  | VUndefined | VNull => false
  | VBool b => b
  | VNum n =>
      match Prim2SF n with
      | S754_zero _ | S754_nan => false
      | _ => true
      end
  | VStr s => negb (String.eqb s EmptyString)
  | VArr _ | VObj _ => true
  end.

(** [a || b]. *)
Definition js_or (a b : value) : value := if truthy a then a else b.

(** Own property lookup in a property list. *)
Fixpoint fields_get (k : string) (fields : list (string * value)) : option value :=
  match fields with
  | [] => None
  | (k', v) :: rest => if String.eqb k k' then Some v else fields_get k rest
  end.

(** Assignment to a property whose name is not an array index: an existing
    property keeps its place, a new one goes last. *)
Fixpoint fields_set (k : string) (v : value) (fields : list (string * value))
  : list (string * value) :=
  match fields with
  | [] => [(k, v)]
  | (k', v') :: rest =>
      if String.eqb k k' then (k, v) :: rest else (k', v') :: fields_set k v rest
  end.

(** [v.k] for the property names this program reads ([offers], [name],
    [isVpn], [discountPercentage], ...): none of them is defined on a
    number, boolean, string or array, so only an object can hold one.
    [None] is the [TypeError] of reading a property of [null] or
    [undefined]. *)
Definition get_prop (v : value) (k : string) : option value :=
  match v with
  | VUndefined | VNull => None
  | VObj fields => Some (default VUndefined (fields_get k fields))
  | _ => Some VUndefined
  end.

Section WithRuntime.
Context {rt : Runtime}.

Definition Number_toString : float -> string :=
  Number_toString_with Number_toString_other.

(** [ToString]; [None] is a thrown [TypeError].  The same conversion
    serves where the program concatenates a value to a text and where it
    uses one as a property key.

    An object is converted by the [toString] it has.  A parsed object that
    has no property of that name inherits the method of [Object.prototype]
    and prints as [[object Object]].  One that has such a property has a
    value there that cannot be called; [valueOf] is tried next, which is
    either its own property, again not callable, or the inherited method,
    which returns the object itself: no primitive is found and the
    conversion throws.  An array prints its elements joined by commas,
    where [null] and [undefined] print as nothing; the conversion of an
    element may throw in turn. *)
Fixpoint ToString (v : value) : option string :=
  match v with
  | VUndefined => Some "undefined"
  | VNull => Some "null"
  | VBool true => Some "true"
  | VBool false => Some "false"
  | VNum n => Some (Number_toString n)
  | VStr s => Some s
  | VArr items =>
      let element (x : value) : option string :=
        match x with
        | VUndefined | VNull => Some ""
        | _ => ToString x
        end in
      (fix join (l : list value) : option string :=
         match l with
         | [] => Some ""
         | [x] => element x
         | x :: rest =>
             first ← element x; others ← join rest; Some (first ++ "," ++ others)
         end) items
  | VObj fields =>
      match fields_get "toString" fields with
      | Some _ => None
      | None => Some "[object Object]"
      end
  end.

(** ** Configuration (lines 15-19) *)

Definition BASE_PRICE_MONTHLY : float := 19.
Definition ANNUAL_DISCOUNT : float := 0.8.
Definition CACHE_DURATION_MS : Z := 60 * 60 * 1000.
Definition PD_IDENTIFIER : string := "ac2b5915-53b6-4f30-a157-847f446ae825".
Definition PARITY_DEALS_API : string :=
  "https://api.paritydeals.com/api/v1/deals/discount/?pd_identifier=" ++ PD_IDENTIFIER.

(** ** Price calculator (lines 53-97) *)

Record PriceQuote : Type := {
  monthly : float;
  monthlyCents : string;
  annual : float;
  annualCents : string;
  discountPercent : float
}.

Definition calculatePrices (discountPercent : float) : PriceQuote :=
  let multiplier := (1 - (discountPercent / 100))%float in
  let monthlyRaw := (BASE_PRICE_MONTHLY * multiplier)%float in
  let annualRaw := (monthlyRaw * 12 * ANNUAL_DISCOUNT)%float in
  let monthlyInt := Math_floor monthlyRaw in
  let monthlyCents := Math_round ((monthlyRaw - monthlyInt) * 100)%float in
  let annualInt := Math_floor annualRaw in
  let annualCents := Math_round ((annualRaw - annualInt) * 100)%float in
  {| monthly := monthlyInt;
     monthlyCents := padStart 2 "0" (Number_toString monthlyCents);
     annual := annualInt;
     annualCents := padStart 2 "0" (Number_toString annualCents);
     discountPercent := discountPercent |}.

Definition formatPriceWithCents (integer : float) (cents : string) : string :=
  if String.eqb cents "00" then Number_toString integer
  else Number_toString integer ++ "<span class=" ++ dq ++ "cents" ++ dq ++ ">"
       ++ cents ++ "</span>".

Definition formatPriceText (integer : float) (cents : string) : string :=
  if String.eqb cents "00" then "$" ++ Number_toString integer
  else "$" ++ Number_toString integer ++ "." ++ cents.

(** ** The page (the parts of the DOM the script reads and writes) *)

(** [.price-annual-option strong] inside the PLUS card. *)
Record AnnualStrong : Type := {
  as_perYear : option string;  (* textContent of its first [data-t] descendant *)
  as_innerHTML : string
}.

(** [.pricing-card-extended.featured] (pricing.html). *)
Record PlusCard : Type := {
  pc_amount : option string;               (* innerHTML of [.price-large .amount] *)
  pc_annualStrong : option AnnualStrong
}.

(** [.pricing-card.featured:not(.pricing-card-extended)] (home page). *)
Record HomeCard : Type := {
  hc_amount : option string;               (* innerHTML of [.price .amount] *)
  hc_annualSpan : option (option string)   (* [.price-annual], then the
                                              innerHTML of its [span:first-child] *)
}.

Inductive BannerPlace : Type := AfterPricingHero | FirstInPricingSection.

Record Banner : Type := {
  b_place : BannerPlace;
  b_className : string;
  b_innerHTML : string
}.

Record Document : Type := {
  plusCard : option PlusCard;
  homePlusCard : option HomeCard;
  pricingHero : bool;            (* an element of class [pricing-hero] *)
  otherPricing : bool;           (* any further element whose class mentions "pricing" *)
  tableCells : list string;      (* textContent of each [.comparison-table] td and th *)
  schemaScripts : list string;   (* textContent of each ld+json script *)
  hideStyle : option string;     (* textContent of [#regional-pricing-hide] *)
  keyframesStyle : option string;(* textContent of [#regional-pricing-styles] *)
  banners : list Banner          (* elements of class [regional-pricing-banner] *)
}.

Definition set_cards (pc : option PlusCard) (hc : option HomeCard) (d : Document) : Document :=
  {| plusCard := pc; homePlusCard := hc; pricingHero := pricingHero d;
     otherPricing := otherPricing d; tableCells := tableCells d;
     schemaScripts := schemaScripts d; hideStyle := hideStyle d;
     keyframesStyle := keyframesStyle d; banners := banners d |}.

Definition set_tableCells (cells : list string) (d : Document) : Document :=
  {| plusCard := plusCard d; homePlusCard := homePlusCard d; pricingHero := pricingHero d;
     otherPricing := otherPricing d; tableCells := cells;
     schemaScripts := schemaScripts d; hideStyle := hideStyle d;
     keyframesStyle := keyframesStyle d; banners := banners d |}.

Definition set_schemaScripts (scripts : list string) (d : Document) : Document :=
  {| plusCard := plusCard d; homePlusCard := homePlusCard d; pricingHero := pricingHero d;
     otherPricing := otherPricing d; tableCells := tableCells d;
     schemaScripts := scripts; hideStyle := hideStyle d;
     keyframesStyle := keyframesStyle d; banners := banners d |}.

Definition set_hideStyle (text : option string) (d : Document) : Document :=
  {| plusCard := plusCard d; homePlusCard := homePlusCard d; pricingHero := pricingHero d;
     otherPricing := otherPricing d; tableCells := tableCells d;
     schemaScripts := schemaScripts d; hideStyle := text;
     keyframesStyle := keyframesStyle d; banners := banners d |}.

Definition set_keyframesStyle (text : option string) (d : Document) : Document :=
  {| plusCard := plusCard d; homePlusCard := homePlusCard d; pricingHero := pricingHero d;
     otherPricing := otherPricing d; tableCells := tableCells d;
     schemaScripts := schemaScripts d; hideStyle := hideStyle d;
     keyframesStyle := text; banners := banners d |}.

Definition set_banners (bs : list Banner) (d : Document) : Document :=
  {| plusCard := plusCard d; homePlusCard := homePlusCard d; pricingHero := pricingHero d;
     otherPricing := otherPricing d; tableCells := tableCells d;
     schemaScripts := schemaScripts d; hideStyle := hideStyle d;
     keyframesStyle := keyframesStyle d; banners := bs |}.

(** [document.querySelector('.pricing-card, .pricing-card-extended,
    [class*="pricing"]')] finds something. *)
Definition hasPricingContent (d : Document) : bool :=
  bool_decide (is_Some (plusCard d)) || bool_decide (is_Some (homePlusCard d))
  || pricingHero d || otherPricing d || negb (bool_decide (banners d = [])).

(** ** Structured data (lines 165-189) *)

(** The condition [name && name.includes(needle)].  A string is searched
    for the text, an array for an element equal to it; any other truthy
    value has no [includes] method and the call throws ([None]). *)
Definition name_includes (name : value) (needle : string) : option bool :=
  if negb (truthy name) then Some false
  else match name with
       | VStr s => Some (includes needle s)
       | VArr items =>
           Some (existsb (fun x => match x with
                                   | VStr t => String.eqb t needle
                                   | _ => false
                                   end) items)
       | _ => None
       end.

(** [offer.price = text] in strict mode. *)
Definition set_price (offer : value) (text : string) : option value :=
  match offer with
  | VObj fields => Some (VObj (fields_set "price" (VStr text) fields))
  | VArr items => Some (VArr items)
  | _ => None
  end.

(** The body of [schema.offers.forEach]: the patched offer and whether it
    was modified; [None] is a thrown [TypeError]. *)
Definition patchOffer (prices : PriceQuote) (offer : value) : option (value * bool) :=
  name ← get_prop offer "name";
  isMonthly ← name_includes name "Monthly";
  if isMonthly : bool then
    offer' ← set_price offer (Number_toString (monthly prices));
    Some (offer', true)
  else
    isYearly ← name_includes name "Yearly";
    if isYearly : bool then
      offer' ← set_price offer (Number_toString (annual prices));
      Some (offer', true)
    else Some (offer, false).

Fixpoint patchOffers (prices : PriceQuote) (offers : list value)
  : option (list value * bool) :=
  match offers with
  | [] => Some ([], false)
  | offer :: rest =>
      '(offer', m1) ← patchOffer prices offer;
      '(rest', m2) ← patchOffers prices rest;
      Some (offer' :: rest', m1 || m2)
  end.

(** The body of the [try] for one script; [None] is an exception, which
    the [catch] ignores, leaving the script as it was. *)
Definition patchSchemaText (prices : PriceQuote) (text : string) : option string :=
  schema ← JSON_parse text;
  offers ← get_prop schema "offers";
  match schema, offers with
  | VObj fields, VArr items =>
      '(items', modified) ← patchOffers prices items;
      if modified : bool
      then Some (JSON_stringify (VObj (fields_set "offers" (VArr items') fields)))
      else Some text
  | _, _ => Some text
  end.

Definition updateSchemaOrg (prices : PriceQuote) (d : Document) : Document :=
  set_schemaScripts
    (map (fun text => default text (patchSchemaText prices text)) (schemaScripts d)) d.

(** ** Display updater (lines 104-159) *)

(** The callback of the comparison-table loop, on a cell's text. *)
Definition updateCell (monthlyPriceText annualPriceText text : string) : string :=
  let text1 :=
    if includes "$19" text then replaceAll "$19" monthlyPriceText text else text in
  if includes "$182" text1 then replaceAll "$182" annualPriceText text1 else text1.

Definition updatePriceDisplay (prices : PriceQuote) (data : value) (d : Document)
  : Document :=
  let annualPriceText := formatPriceText (annual prices) (annualCents prices) in
  let monthlyPriceText := formatPriceText (monthly prices) (monthlyCents prices) in
  let amount := formatPriceWithCents (monthly prices) (monthlyCents prices) in
  let plus :=
    (fun card =>
       {| pc_amount := (fun _ : string => amount) <$> pc_amount card;
          pc_annualStrong :=
            (fun strong =>
               let perYearText := default "/year" (as_perYear strong) in
               {| as_perYear := None;
                  as_innerHTML :=
                    annualPriceText ++ "<span>" ++ perYearText ++ "</span>" |})
            <$> pc_annualStrong card |}) <$> plusCard d in
  let home :=
    (fun card =>
       {| hc_amount := (fun _ : string => amount) <$> hc_amount card;
          hc_annualSpan :=
            (fun annualDiv : option string =>
               (fun _ : string => "or <strong>" ++ annualPriceText ++ "/year</strong>")
               <$> annualDiv) <$> hc_annualSpan card |}) <$> homePlusCard d in
  let d1 := set_cards plus home d in
  let d2 := set_tableCells
              (map (updateCell monthlyPriceText annualPriceText) (tableCells d1)) d1 in
  updateSchemaOrg prices d2.

(** ** Visibility (lines 284-306) *)

Definition PRICE_SELECTORS : string :=
  ".price-large .amount, .price .amount, .price-annual-option strong, .annual-price, .price-annual".

Definition HIDDEN_RULE : string := PRICE_SELECTORS ++ " { opacity: 0; }".
Definition VISIBLE_RULE : string :=
  PRICE_SELECTORS ++ " { opacity: 1; transition: opacity 0.2s ease-in; }".

Definition hidePrices (d : Document) : Document :=
  match hideStyle d with
  | Some _ => d
  | None => set_hideStyle (Some HIDDEN_RULE) d
  end.

Definition showPrices (d : Document) : Document :=
  match hideStyle d with
  | Some _ => set_hideStyle (Some VISIBLE_RULE) d
  | None => d
  end.

(** ** The world around the script *)

(** A thrown exception: the name of the error and its message. *)
Record Exn : Type := { exn_name : string; exn_message : string }.

(** How [fetch] settles: rejected (network failure), or fulfilled with a
    response of some HTTP status whose body text can be read or not. *)
Inductive FetchOutcome : Type :=
  | FetchRejected (message : string)
  | FetchResponse (status : Z) (body : option string).

(** The network as one page load sees it: the outcome of the request and
    the time it takes, in milliseconds. *)
Record Network : Type := { outcome : FetchOutcome; latency : Z }.

Record World : Type := {
  now : Z;                                       (* Date.now() *)
  sessionStorage : option (gmap string string);  (* None: access throws *)
  requests : list string;                        (* URLs fetched, latest first *)
  console : list string;                         (* first argument of each
                                                    console call, latest first *)
  document : Document
}.

Inductive Completion (A : Type) : Type :=
  | Normal (a : A)
  | Throw (e : Exn).
#[global] Arguments Normal {A} a.
#[global] Arguments Throw {A} e.

(** Computations that read and write the world and may throw. *)
Definition M (A : Type) : Type := World -> Completion A * World.

#[export] Instance M_ret : MRet M := fun A a w => (Normal a, w).
#[export] Instance M_bind : MBind M := fun A B f m w =>
  match m w with
  | (Normal a, w') => f a w'
  | (Throw e, w') => (Throw e, w')
  end.

Definition throw {A : Type} (e : Exn) : M A := fun w => (Throw e, w).

(** [try { m } catch (e) { handler e }]. *)
Definition try_catch {A : Type} (m : M A) (handler : Exn -> M A) : M A := fun w =>
  match m w with
  | (Normal a, w') => (Normal a, w')
  | (Throw e, w') => handler e w'
  end.

Definition gets {A : Type} (f : World -> A) : M A := fun w => (Normal (f w), w).
Definition modify (f : World -> World) : M unit := fun w => (Normal tt, f w).

Definition with_document (f : Document -> Document) : M unit :=
  modify (fun w => {| now := now w; sessionStorage := sessionStorage w;
                      requests := requests w; console := console w;
                      document := f (document w) |}).

Definition console_write (line : string) : M unit :=
  modify (fun w => {| now := now w; sessionStorage := sessionStorage w;
                      requests := requests w; console := line :: console w;
                      document := document w |}).

Definition Date_now : M Z := gets now.

(** [sessionStorage.getItem(key)]; reaching [sessionStorage] throws where
    storage is disabled. *)
Definition getItem (key : string) : M (option string) := fun w =>
  match sessionStorage w with
  | Some store => (Normal (store !! key), w)
  | None => (Throw {| exn_name := "SecurityError"; exn_message := "" |}, w)
  end.

(** [sessionStorage.setItem(key, text)]. *)
Definition setItem (key text : string) : M unit := fun w =>
  match sessionStorage w with
  | Some store =>
      (Normal tt, {| now := now w; sessionStorage := Some (<[key := text]> store);
                     requests := requests w; console := console w;
                     document := document w |})
  | None => (Throw {| exn_name := "SecurityError"; exn_message := "" |}, w)
  end.

Record Response : Type := { status : Z; body : option string }.

(** [response.ok]. *)
Definition response_ok (r : Response) : bool :=
  (200 <=? status r)%Z && (status r <=? 299)%Z.

(** [await fetch(url, ...)]: the request is issued, time passes, and the
    promise settles as the network decides. *)
Definition fetch (net : Network) (url : string) : M Response := fun w =>
  let w' := {| now := now w + latency net; sessionStorage := sessionStorage w;
               requests := url :: requests w; console := console w;
               document := document w |} in
  match outcome net with
  | FetchRejected message =>
      (Throw {| exn_name := "TypeError"; exn_message := message |}, w')
  | FetchResponse st text => (Normal {| status := st; body := text |}, w')
  end.

(** [await response.json()]. *)
Definition response_json (r : Response) : M value :=
  match body r with
  | None => throw {| exn_name := "TypeError"; exn_message := "body" |}
  | Some text =>
      match JSON_parse text with
      | Some v => mret v
      | None => throw {| exn_name := "SyntaxError"; exn_message := "JSON" |}
      end
  end.

(** [v.k], throwing on [null] and [undefined]. *)
Definition prop (v : value) (k : string) : M value :=
  match get_prop v k with
  | Some x => mret x
  | None => throw {| exn_name := "TypeError"; exn_message := k |}
  end.

(** ** Discount fetcher (lines 29-46) *)

Definition fetchParityDealsDiscount (net : Network) : M value :=
  try_catch
    (response ← fetch net PARITY_DEALS_API;
     if negb (response_ok response) then
       console_write "[RegionalPricing] ParityDeals API returned:";;
       mret VNull
     else response_json response)
    (fun error =>
       console_write "[RegionalPricing] Failed to fetch from ParityDeals:";;
       mret VNull).

(** [parseFloat(v)]: the argument is converted to a string first;
    [None] is the [TypeError] of that conversion. *)
Definition parseFloat (v : value) : option float := parseFloat_string <$> ToString v.

(** [ToNumber], as [Math.round] applies it to its argument.  An object or
    array is first converted to a primitive: [valueOf] gives the object
    itself, so the text of [ToString] is what is read, and its
    [TypeError] is raised here too. *)
Definition ToNumber (v : value) : option float :=
  match v with
  | VUndefined => Some nan
  | VNull => Some 0%float
  | VBool b => Some (if b then 1 else 0)%float
  | VNum n => Some n
  | VStr s => Some (StringToNumber s)
  | VArr _ | VObj _ => StringToNumber <$> ToString v
  end.

(** The [TypeError] of a conversion to a primitive that finds none. *)
Definition CANNOT_CONVERT : Exn :=
  {| exn_name := "TypeError";
     exn_message := "Cannot convert object to primitive value" |}.

(** The result of a conversion, or its [TypeError]. *)
Definition converted {A : Type} (result : option A) : M A :=
  match result with
  | Some a => mret a
  | None => throw CANNOT_CONVERT
  end.

(** ** Caching (lines 250-278) *)

Definition cacheDiscountData (data : value) : M unit :=
  try_catch
    (setItem "parity_deals_discount" (JSON_stringify data);;
     t ← Date_now;
     setItem "parity_deals_timestamp" (Z_toString t))
    (fun e => mret tt).

Definition nonempty (s : string) : bool := negb (String.eqb s EmptyString).

Definition getCachedDiscountData : M value :=
  try_catch
    (data ← getItem "parity_deals_discount";
     timestamp ← getItem "parity_deals_timestamp";
     match data, timestamp with
     | Some text, Some stamp =>
         if nonempty text && nonempty stamp then
           t ← Date_now;
           match parseInt stamp with
           | Some t0 =>
               if (t - t0 <? CACHE_DURATION_MS)%Z then
                 match JSON_parse text with
                 | Some v => mret v
                 | None => throw {| exn_name := "SyntaxError"; exn_message := "JSON" |}
                 end
               else mret VNull
           | None => mret VNull
           end
         else mret VNull
     | _, _ => mret VNull
     end)
    (fun e => mret VNull).

(** ** Banner (lines 196-240) *)

Definition KEYFRAMES : string :=
  "@keyframes slideIn { from { opacity: 0; transform: translateY(-10px); } to { opacity: 1; transform: translateY(0); } }".

(** Lines 204-205: the markup of the banner, built from left to right;
    [None] is the [TypeError] of a value that cannot be converted. *)
Definition bannerHtml (data : value) : option string :=
  countryFlag ← get_prop data "countryFlag";
  flag ← ToString (js_or countryFlag (VStr ""));
  messageText ← get_prop data "messageText";
  text ← (if truthy messageText then ToString messageText
          else
            percentage ← get_prop data "discountPercentage";
            rounded ← Math_round <$> ToNumber percentage;
            country ← get_prop data "country";
            name ← ToString country;
            Some (Number_toString rounded ++ "% OFF for " ++ name));
  Some ("<span class=" ++ dq ++ "country-flag" ++ dq ++ ">" ++ flag ++ "</span> "
        ++ "<span class=" ++ dq ++ "discount-text" ++ dq ++ ">" ++ text ++ "</span>").

Definition showRegionalBanner (data : value) (prices : PriceQuote) : M unit :=
  percentage ← prop data "discountPercentage";
  if negb (truthy percentage) then mret tt
  else
    discount ← converted (parseFloat percentage);
    if PrimFloat.eqb discount 0 then mret tt
    else
      html ← converted (bannerHtml data);
      with_document (fun d =>
        let d1 := match keyframesStyle d with
                  | Some _ => d
                  | None => set_keyframesStyle (Some KEYFRAMES) d
                  end in
        if pricingHero d1 then
          set_banners ({| b_place := AfterPricingHero;
                          b_className := "regional-pricing-banner";
                          b_innerHTML := html |} :: banners d1) d1
        else if hasPricingContent d1 then
          set_banners ({| b_place := FirstInPricingSection;
                          b_className := "regional-pricing-banner";
                          b_innerHTML := html |} :: banners d1) d1
        else d1).

(** ** Page load (lines 312-367) *)

(** Lines 348-361: the percentage the prices are computed from. *)
Definition determineDiscount (data : value) : M float :=
  isVpn ← prop data "isVpn";
  isProxy ← prop data "isProxy";
  isTor ← prop data "isTor";
  if truthy isVpn || truthy isProxy || truthy isTor then
    console_write "[RegionalPricing] VPN/Proxy detected, using default prices";;
    mret 0%float
  else
    percentage ← prop data "discountPercentage";
    discountPercent ← converted (parseFloat (js_or percentage (VNum 0)));
    (if PrimFloat.eqb discountPercent 0
     then console_write "[RegionalPricing] No discount for"
     else console_write "[RegionalPricing] Applying");;
    mret discountPercent.

(** Lines 322-330: the cached response, or else a fetched one, which is
    cached when there is one. *)
Definition resolveDiscountData (net : Network) : M value :=
  cached ← getCachedDiscountData;
  if negb (truthy cached) then
    fetched ← fetchParityDealsDiscount net;
    (if truthy fetched then cacheDiscountData fetched else mret tt);;
    mret fetched
  else mret cached.

Definition init (net : Network) : M unit :=
  hasContent ← gets (fun w => hasPricingContent (document w));
  if negb hasContent then mret tt
  else
    with_document hidePrices;;
    data ← resolveDiscountData net;
    if negb (truthy data) then
      console_write "[RegionalPricing] No discount data available, using default prices";;
      with_document showPrices
    else
      console_write "[RegionalPricing] API response:";;
      discountPercent ← determineDiscount data;
      let prices := calculatePrices discountPercent in
      with_document (updatePriceDisplay prices data);;
      with_document showPrices.
End WithRuntime.

(** ** A sample runtime and sample pages

    The examples below run the program on concrete pages.  They use a
    runtime that agrees with a browser on the few texts the examples need:
    decimal literals without exponent, and the JSON documents of a given
    corpus, printed without white space. *)

(** The digits at the start of [s] as a number, how many there were, and
    the rest of [s]. *)
Fixpoint read_digits (s : string) (acc : Z) (count : nat) : Z * nat * string :=
  match s with
  | EmptyString => (acc, count, s)
  | String c s' =>
      match digit_of_char c with
      | Some d => read_digits s' (10 * acc + d)%Z (S count)
      | None => (acc, count, s)
      end
  end.

(** A decimal literal [digits[.digits]] at the start of [s] and what
    follows it.  The value is one correctly rounded division of two whole
    numbers, which is the nearest float for literals of up to 15 digits. *)
Definition read_decimal (s : string) : option (float * string) :=
  let '(whole, n1, rest1) := read_digits s 0 0 in
  let '(all, n2, rest2) :=
    match rest1 with
    | String "." after => read_digits after whole 0
    | _ => (whole, O, rest1)
    end in
  if Nat.eqb (n1 + n2) 0 then None
  else Some ((float_of_Z all / float_of_Z (10 ^ Z.of_nat n2))%float, rest2).

Definition read_signed_decimal (s : string) : option (float * string) :=
  match s with
  | String "-" rest =>
      match read_decimal rest with
      | Some (x, rest') => Some ((- x)%float, rest')
      | None => None
      end
  | String "+" rest => read_decimal rest
  | _ => read_decimal s
  end.

Definition sample_parseFloat (s : string) : float :=
  match read_signed_decimal (skip_whitespace s) with
  | Some (x, _) => x
  | None => nan
  end.

Definition sample_StringToNumber (s : string) : float :=
  match skip_whitespace s with
  | EmptyString => 0%float
  | trimmed =>
      match read_signed_decimal trimmed with
      | Some (x, rest) =>
          match skip_whitespace rest with
          | EmptyString => x
          | _ => nan
          end
      | None => nan
      end
  end.

(** Numbers that are not whole do not occur in the sample documents. *)
Definition sample_toString_other (x : float) : string := "NaN".

(** [JSON.stringify] for documents whose strings need no escape. *)
Fixpoint sample_stringify (v : value) : string :=
  match v with
  | VUndefined | VNull => "null"
  | VBool true => "true"
  | VBool false => "false"
  | VNum n =>
      match Prim2SF n with
      | S754_nan | S754_infinity _ => "null"
      | _ => Number_toString_with sample_toString_other n
      end
  | VStr s => dq ++ s ++ dq
  | VArr items =>
      "[" ++ (fix join (l : list value) : string :=
                match l with
                | [] => ""
                | [x] => sample_stringify x
                | x :: rest => sample_stringify x ++ "," ++ join rest
                end) items ++ "]"
  | VObj fields =>
      "{" ++ (fix join (l : list (string * value)) : string :=
                match l with
                | [] => ""
                | [(k, x)] => dq ++ k ++ dq ++ ":" ++ sample_stringify x
                | (k, x) :: rest =>
                    dq ++ k ++ dq ++ ":" ++ sample_stringify x ++ "," ++ join rest
                end) fields ++ "}"
  end.

(** [JSON.parse] on the texts of the corpus; any other text is malformed. *)
Definition sample_parse (corpus : list value) (text : string) : option value :=
  find (fun v => String.eqb (sample_stringify v) text) corpus.

Definition sample_runtime (corpus : list value) : Runtime :=
  {| JSON_parse := sample_parse corpus;
     JSON_stringify := sample_stringify;
     Number_toString_other := sample_toString_other;
     parseFloat_string := sample_parseFloat;
     StringToNumber := sample_StringToNumber |}.

(** A response for a visitor with a 50% discount, and the same response
    for a visitor behind a VPN. *)
Definition india : value :=
  VObj [("country", VStr "India"); ("countryCode", VStr "IN");
        ("discountPercentage", VStr "50"); ("isVpn", VBool false);
        ("isProxy", VBool false); ("isTor", VBool false)].

Definition india_vpn : value :=
  VObj [("country", VStr "India"); ("countryCode", VStr "IN");
        ("discountPercentage", VStr "50"); ("isVpn", VBool true);
        ("isProxy", VBool false); ("isTor", VBool false)].

(** A product description with one offer named after both billing periods. *)
Definition both_offer : value :=
  VObj [("@type", VStr "Offer"); ("name", VStr "PLUS Monthly or Yearly");
        ("price", VStr "19")].

Definition product_schema : value :=
  VObj [("@type", VStr "Product"); ("offers", VArr [both_offer])].

Definition browser : Runtime := sample_runtime [india; india_vpn; product_schema].

(** The pricing page as served: base prices, nothing hidden yet. *)
Definition pricing_page : Document :=
  {| plusCard := Some {| pc_amount := Some "19";
                         pc_annualStrong :=
                           Some {| as_perYear := Some "/year";
                                   as_innerHTML := "$182<span data-t>/year</span>" |} |};
     homePlusCard := None;
     pricingHero := true;
     otherPricing := true;
     tableCells := ["Free"; "$19/mo"; "$182/yr"];
     schemaScripts := [sample_stringify product_schema];
     hideStyle := None;
     keyframesStyle := None;
     banners := [] |}.

Definition first_visit : World :=
  {| now := 1700000000000; sessionStorage := Some ∅; requests := [];
     console := []; document := pricing_page |}.

Definition serves (v : value) : Network :=
  {| outcome := FetchResponse 200 (Some (sample_stringify v)); latency := 120 |}.

Definition offline : Network :=
  {| outcome := FetchRejected "Failed to fetch"; latency := 30 |}.

(** A later load of the same page, [elapsed] milliseconds after the 50%
    response was cached on the first visit. *)
Definition return_visit (elapsed : Z) : World :=
  {| now := now first_visit + elapsed;
     sessionStorage :=
       sessionStorage (cacheDiscountData (rt := browser) india first_visit).2;
     requests := []; console := []; document := pricing_page |}.

(** ** Reference definitions used in the statements *)

(** The whole number a float holds, if it holds one (up to 2^53). *)
Definition float_whole (x : float) : option Z :=
  match Prim2SF x with
  | S754_zero _ => Some 0%Z
  | S754_finite s m e => (if s then Z.opp else id) <$> whole_value m e
  | _ => None
  end.

(** The prices of the specification, in exact rational arithmetic:
    monthly = base x (1 - pct/100) and annual = monthly x 12 x 0.8. *)
Definition exact_monthly (pct : Z) : QArith_base.Q :=
  QArith_base.Qmult (QArith_base.inject_Z 19)
    (QArith_base.Qminus (QArith_base.inject_Z 1) (QArith_base.Qmake pct 100)).

Definition exact_annual (pct : Z) : QArith_base.Q :=
  QArith_base.Qmult
    (QArith_base.Qmult (exact_monthly pct) (QArith_base.inject_Z 12))
    (QArith_base.Qmake 8 10).

(** The integer part of an exact price: its floor. *)
Definition exact_units (price : QArith_base.Q) : Z := Qround.Qfloor price.

(** The cents of an exact price: the remainder above the floor, times 100,
    rounded to the nearest whole number (halves up), on two digits. *)
Definition exact_cents (price : QArith_base.Q) : string :=
  padStart 2 "0"
    (Z_toString
       (Qround.Qfloor
          (QArith_base.Qplus
             (QArith_base.Qmult
                (QArith_base.Qminus price (QArith_base.inject_Z (Qround.Qfloor price)))
                (QArith_base.inject_Z 100))
             (QArith_base.Qmake 1 2)))).

(** Some of the three flags of a response is set. *)
Definition flagged (data : value) : bool :=
  truthy (default VUndefined (get_prop data "isVpn"))
  || truthy (default VUndefined (get_prop data "isProxy"))
  || truthy (default VUndefined (get_prop data "isTor")).

(** The percentage lines 348-361 arrive at for a response: 0 when a flag
    is set, else what [parseFloat] reads from the reported percentage, or
    from 0 when that is missing or falsy; [None] when the percentage cannot
    be converted to a string. *)
Definition discountOf `{Runtime} (data : value) : option float :=
  if flagged data then Some 0%float
  else parseFloat (js_or (default VUndefined (get_prop data "discountPercentage"))
                         (VNum 0)).

(** How a page load that resolved [data] ends, and the page it leaves
    when it started on the page [d]. *)
Definition loadCompletion `{Runtime} (data : value) : Completion unit :=
  if truthy data then
    match discountOf data with
    | Some _ => Normal tt
    | None => Throw CANNOT_CONVERT
    end
  else Normal tt.

Definition loadedPage `{Runtime} (data : value) (d : Document) : Document :=
  if truthy data then
    match discountOf data with
    | Some pct =>
        showPrices (updatePriceDisplay (calculatePrices pct) data (hidePrices d))
    | None => hidePrices d
    end
  else showPrices (hidePrices d).

(** The world once [init] has hidden the prices. *)
Definition hidden (w : World) : World := (with_document hidePrices w).2.

(** A string of exactly two decimal digits. *)
Definition two_digits (s : string) : Prop :=
  match s with
  | String a (String b EmptyString) =>
      is_Some (digit_of_char a) /\ is_Some (digit_of_char b)
  | _ => False
  end.

(** What the quote of a whole percentage must be. *)
Definition quote_matches_exact `{Runtime} (pct : Z) : Prop :=
  let q := calculatePrices (float_of_Z pct) in
  float_whole (monthly q) = Some (exact_units (exact_monthly pct))
  /\ monthlyCents q = exact_cents (exact_monthly pct)
  /\ float_whole (annual q) = Some (exact_units (exact_annual pct))
  /\ annualCents q = exact_cents (exact_annual pct)
  /\ String.length (monthlyCents q) = 2%nat
  /\ String.length (annualCents q) = 2%nat.

#[export] Instance quote_matches_exact_dec `{Runtime} pct : Decision (quote_matches_exact pct).
Proof. unfold quote_matches_exact. apply _. Defined.

(** A displayed price in cents: the integer part and the cents string read
    together, when both are whole numbers. *)
Definition price_in_cents (units : float) (cents : string) : option Z :=
  u ← float_whole units; c ← parseInt cents; Some (100 * u + c)%Z.

(** The quote of [q] is not dearer than the quote of [p], and neither
    exceeds the base prices 19.00 and 182.40. *)
Definition not_dearer `{Runtime} (p q : Z) : bool :=
  let a := calculatePrices (float_of_Z p) in
  let b := calculatePrices (float_of_Z q) in
  match price_in_cents (monthly a) (monthlyCents a),
        price_in_cents (monthly b) (monthlyCents b),
        price_in_cents (annual a) (annualCents a),
        price_in_cents (annual b) (annualCents b) with
  | Some ma, Some mb, Some ya, Some yb =>
      (0 <=? mb)%Z && (mb <=? ma)%Z && (ma <=? 1900)%Z
      && (0 <=? yb)%Z && (yb <=? ya)%Z && (ya <=? 18240)%Z
  | _, _, _, _ => false
  end.

(** The page loaded again [elapsed] milliseconds after the first visit
    fetched and cached the 50% response (the fetch took 120 ms). *)
Definition second_visit (elapsed : Z) : World :=
  {| now := now first_visit + 120 + elapsed;
     sessionStorage :=
       sessionStorage (init (rt := browser) (serves india) first_visit).2;
     requests := []; console := []; document := pricing_page |}.

(** A visit with session storage disabled. *)
Definition private_visit : World :=
  {| now := 1700000000000; sessionStorage := None; requests := [];
     console := []; document := pricing_page |}.

(** A response without any percentage. *)
Definition no_percentage : value :=
  VObj [("country", VStr "Norway"); ("countryCode", VStr "NO")].

(** A visit whose storage holds a response but a time stamp that is not a
    number. *)
Definition tampered_visit : World :=
  {| now := 1700000000000;
     sessionStorage :=
       Some (<["parity_deals_timestamp" := "yesterday"]>
               (<["parity_deals_discount" := sample_stringify india]> ∅));
     requests := []; console := []; document := pricing_page |}.

(** An offer whose name, if it has one, is a text. *)
Definition textNamed (offer : value) : Prop :=
  match offer with
  | VObj fields =>
      match fields_get "name" fields with
      | None | Some (VStr _) => True
      | Some _ => False
      end
  | _ => False
  end.

(** Whether an offer is named after a billing period. *)
Definition billed (offer : value) : bool :=
  match offer with
  | VObj fields =>
      match fields_get "name" fields with
      | Some (VStr name) => includes "Monthly" name || includes "Yearly" name
      | _ => false
      end
  | _ => false
  end.

(** What the patch is to make of an offer with the properties [fields]:
    the integer part of the monthly price when the name mentions Monthly,
    else the integer part of the annual price when it mentions Yearly. *)
Definition pricedOffer `{Runtime} (prices : PriceQuote) (fields : list (string * value))
  : value :=
  match fields_get "name" fields with
  | Some (VStr name) =>
      if includes "Monthly" name
      then VObj (fields_set "price" (VStr (Number_toString (monthly prices))) fields)
      else if includes "Yearly" name
      then VObj (fields_set "price" (VStr (Number_toString (annual prices))) fields)
      else VObj fields
  | _ => VObj fields
  end.

(** The pricing page with a comparison table that mentions larger
    amounts. *)
Definition table_page : Document :=
  set_tableCells ["up to $190"; "$19.99 or $19"; "$1820"] pricing_page.

(** An offer that the structured-data patch passes over: an object without
    a name, with a falsy name, or with a name text that mentions neither
    billing period. *)
Definition passed_over (offer : value) : Prop :=
  match offer with
  | VObj fields =>
      match fields_get "name" fields with
      | None => True
      | Some (VStr n) => includes "Monthly" n = false /\ includes "Yearly" n = false
      | Some name => truthy name = false
      end
  | _ => False
  end.

(** The price elements of the two cards, where they exist. *)
Definition plusAmount (d : Document) : option string :=
  card ← plusCard d; pc_amount card.
Definition plusAnnualStrong (d : Document) : option AnnualStrong :=
  card ← plusCard d; pc_annualStrong card.
Definition homeAmount (d : Document) : option string :=
  card ← homePlusCard d; hc_amount card.
Definition homeAnnualSpan (d : Document) : option string :=
  card ← homePlusCard d; annualDiv ← hc_annualSpan card; annualDiv.

(** A product whose second offer is null. *)
Definition broken_schema : value :=
  VObj [("@type", VStr "Product"); ("offers", VArr [both_offer; VNull])].

(** The 50% response with every flag set and a message of its own. *)
Definition india_flagged_message : value :=
  VObj [("country", VStr "India"); ("discountPercentage", VStr "50");
        ("messageText", VStr "Special price for India");
        ("isVpn", VBool true); ("isProxy", VBool true); ("isTor", VBool true)].

Definition india_message : value :=
  VObj [("country", VStr "India"); ("discountPercentage", VStr "50");
        ("messageText", VStr "Special price for India")].

(** A response whose percentage is an object with a property named
    [toString], and the runtime of the examples with it added. *)
Definition unconvertible : value :=
  VObj [("country", VStr "India");
        ("discountPercentage", VObj [("toString", VNum 1)])].

Definition browser3 : Runtime :=
  sample_runtime [india; india_vpn; product_schema; unconvertible].

(** The runtime of the examples with the broken product added. *)
Definition browser2 : Runtime :=
  sample_runtime [india; india_vpn; product_schema; broken_schema].

(** * Post-build schema patcher (lines 400-559)

    The script that replaces the JSON-LD blocks of the translated pages.
    Texts are sequences of characters; positions and lengths count
    characters.  Console output is not part of the model. *)

Definition newline : string := String (ascii_of_nat 10) EmptyString.

Definition OPEN_TAG : string :=
  "<script type=" ++ dq ++ "application/ld+json" ++ dq ++ ">".

Definition CLOSE_TAG : string := "</script>".

(** [s] without its first [n] characters. *)
Fixpoint drop_string (n : nat) (s : string) : string :=
  match n, s with
  | S k, String _ s' => drop_string k s'
  | _, _ => s
  end.

(** [s.substring(0, n)] and [s.substring(n)]. *)
Definition splice (s : string) (start len : nat) (new : string) : string :=
  take_string start s ++ new ++ drop_string (start + len) s.

(** The position of the first occurrence of [p] in [s]. *)
Fixpoint index_of (p s : string) : option nat :=
  if startsWith p s then Some 0%nat
  else match s with
       | EmptyString => None
       | String _ s' => S <$> index_of p s'
       end.

(** [s.endsWith(suffix)]. *)
Definition endsWith (suffix s : string) : bool :=
  String.eqb (drop_string (String.length s - String.length suffix) s) suffix.

Record Block : Type := {
  fullMatch : string;
  content : string;
  index : nat
}.

(** The [while] loop of [extractJsonLdBlocks]: each round is one
    [regex.exec], which searches the text from [lastIndex] on ([rest] is
    the text from there) for the leftmost opening tag that is followed by
    a closing tag, with the shortest content in between.  The loop ends
    when there is no further match; [fuel] bounds the number of rounds. *)
Fixpoint exec_loop (fuel : nat) (rest : string) (lastIndex : nat) : list Block :=
  match fuel with
  | O => []
  | S fuel' =>
      match index_of OPEN_TAG rest with
      | None => []
      | Some i =>
          let inner := drop_string (i + String.length OPEN_TAG) rest in
          match index_of CLOSE_TAG inner with
          | None => []
          | Some j =>
              let text := take_string j inner in
              {| fullMatch := OPEN_TAG ++ text ++ CLOSE_TAG;
                 content := text;
                 index := lastIndex + i |}
              :: exec_loop fuel' (drop_string (j + String.length CLOSE_TAG) inner)
                   (lastIndex + i + String.length OPEN_TAG + j
                    + String.length CLOSE_TAG)
          end
      end
  end.

(** Every match takes more than one character, so as many rounds as the
    text has characters are enough. *)
Definition extractJsonLdBlocks (html : string) : list Block :=
  exec_loop (String.length html) html 0.

(** What a lookup in [schemaMap] can yield besides a schema: a method
    inherited from [Object.prototype], or [Object.prototype] itself. *)
Inductive Replacement : Type :=
  | RValue (v : value)
  | RFunction
  | RObjectPrototype.

(** [schemaMap]: its own properties, and the object that assigning to
    [__proto__] made its prototype, if that happened. *)
Record SchemaMap : Type := {
  own : list (string * value);
  proto : option (list (string * value))
}.

Definition OBJECT_PROTOTYPE_METHODS : list string :=
  ["constructor"; "hasOwnProperty"; "isPrototypeOf"; "propertyIsEnumerable";
   "toLocaleString"; "toString"; "valueOf"; "__defineGetter__";
   "__defineSetter__"; "__lookupGetter__"; "__lookupSetter__"].

(** [schemaMap[key] = schema] for an object [schema] with the properties
    [fields].  The key [__proto__] reaches the setter of
    [Object.prototype], which makes [schema] the prototype, unless a data
    property of that name is found first. *)
Definition schemaMap_set (key : string) (fields : list (string * value))
  (m : SchemaMap) : SchemaMap :=
  let shadowed :=
    bool_decide (is_Some (fields_get key (own m)))
    || bool_decide (is_Some (proto m ≫= fields_get key)) in
  if String.eqb key "__proto__" && negb shadowed
  then {| own := own m; proto := Some fields |}
  else {| own := fields_set key (VObj fields) (own m); proto := proto m |}.

(** [schemaMap[key]]; [None] is [undefined]. *)
Definition schemaMap_get (key : string) (m : SchemaMap) : option Replacement :=
  match fields_get key (own m) with
  | Some v => Some (RValue v)
  | None =>
      match proto m ≫= fields_get key with
      | Some v => Some (RValue v)
      | None =>
          if String.eqb key "__proto__" then
            Some (match proto m with
                  | Some fields => RValue (VObj fields)
                  | None => RObjectPrototype
                  end)
          else if bool_decide (key ∈ OBJECT_PROTOTYPE_METHODS) then Some RFunction
          else None
      end
  end.

Definition replacement_truthy (r : Replacement) : bool :=
  match r with
  | RValue v => truthy v
  | RFunction | RObjectPrototype => true
  end.

Section Patcher.
Context {rt : Runtime}.
(** [JSON.stringify(v, null, 4)]. *)
Variable JSON_stringify_pretty : value -> string.

Definition getSchemaType (jsonStr : string) : value :=
  match JSON_parse jsonStr with
  | Some parsed => default VNull (get_prop parsed "@type")
  | None => VNull
  end.

(** The [schemas.forEach] of [patchFile]: the last schema with a graph,
    and the schemas by type.  [None] is a [TypeError]: of a schema that is
    null, or of a type that cannot be converted to a property key. *)
Fixpoint buildMaps (schemas : list value) (graphSchema : option value)
  (schemaMap : SchemaMap) : option (option value * SchemaMap) :=
  match schemas with
  | [] => Some (graphSchema, schemaMap)
  | schema :: rest =>
      graph ← get_prop schema "@graph";
      if truthy graph then buildMaps rest (Some schema) schemaMap
      else
        type ← get_prop schema "@type";
        if truthy type then
          key ← ToString type;
          match schema with
          | VObj fields =>
              buildMaps rest graphSchema (schemaMap_set key fields schemaMap)
          | _ => buildMaps rest graphSchema schemaMap
          end
        else buildMaps rest graphSchema schemaMap
  end.

(** The choice of a replacement for one block.  [None] is a [TypeError]
    (a block whose content is the JSON text null, or whose type cannot be
    converted to a property key); [Some None] is a block that is kept: its
    content is not JSON, or nothing matches it. *)
Definition replacementFor (graphSchema : option value) (schemaMap : SchemaMap)
  (block : Block) : option (option Replacement) :=
  match JSON_parse (content block) with
  | None => Some None
  | Some parsed =>
      graph ← get_prop parsed "@graph";
      match graphSchema with
      | Some schema =>
          if truthy graph then Some (Some (RValue schema))
          else
            type ← get_prop parsed "@type";
            if truthy type then
              key ← ToString type;
              match schemaMap_get key schemaMap with
              | Some r => Some (if replacement_truthy r then Some r else None)
              | None => Some None
              end
            else Some None
      | None =>
          type ← get_prop parsed "@type";
          if truthy type then
            key ← ToString type;
            match schemaMap_get key schemaMap with
            | Some r => Some (if replacement_truthy r then Some r else None)
            | None => Some None
            end
          else Some None
      end
  end.

(** The new block for a replacement; [None] is the [TypeError] of calling
    [split] on the [undefined] that a function is printed as. *)
Definition newBlockFor (r : Replacement) : option string :=
  json ← match r with
         | RValue v => Some (JSON_stringify_pretty v)
         | RObjectPrototype => Some "{}"
         | RFunction => None
         end;
  let indented :=
    newline ++ "    " ++ replaceAll newline (newline ++ "    ") json
    ++ newline ++ "    " in
  Some (OPEN_TAG ++ indented ++ CLOSE_TAG).

(** What becomes of one block: its new text, or nothing when it is kept. *)
Definition blockOutcome (graphSchema : option value) (schemaMap : SchemaMap)
  (block : Block) : option (option string) :=
  choice ← replacementFor graphSchema schemaMap block;
  match choice with
  | Some r => newBlock ← newBlockFor r; Some (Some newBlock)
  | None => Some None
  end.

(** The [for] loop of [patchFile], over the blocks from the last to the
    first. *)
Fixpoint patchLoop (graphSchema : option value) (schemaMap : SchemaMap)
  (backwards : list Block) (html : string) (patched : bool)
  : option (string * bool) :=
  match backwards with
  | [] => Some (html, patched)
  | block :: earlier =>
      outcome ← blockOutcome graphSchema schemaMap block;
      match outcome with
      | Some newBlock =>
          patchLoop graphSchema schemaMap earlier
            (splice html (index block) (String.length (fullMatch block)) newBlock)
            true
      | None => patchLoop graphSchema schemaMap earlier html patched
      end
  end.

(** [patchFile] on the text of the page: the new text and [patched];
    [None] is an exception that leaves [patchFile]. *)
Definition patchHtml (html : string) (schemas : list value) : option (string * bool) :=
  let blocks := extractJsonLdBlocks html in
  '(graphSchema, schemaMap) ← buildMaps schemas None {| own := []; proto := None |};
  patchLoop graphSchema schemaMap (rev blocks) html false.

(** What is at a path. *)
Inductive FsEntry : Type :=
  | RegularFile (text : string)
  | Directory.

(** [patchFile]: the value returned and the files afterwards; [None] is
    an exception (reading a directory, or one of [patchHtml]). *)
Definition patchFile (htmlPath : string) (schemas : list value)
  (files : gmap string FsEntry) : option (bool * gmap string FsEntry) :=
  match files !! htmlPath with
  | None => Some (false, files)
  | Some Directory => None
  | Some (RegularFile html) =>
      '(html', patched) ← patchHtml html schemas;
      Some (patched,
            if patched : bool then <[htmlPath := RegularFile html']> files else files)
  end.
End Patcher.

(** A directory as [readdirSync] and [statSync] show it: the names in the
    order they are listed, each a file or a directory. *)
Inductive FsNode : Type :=
  | FsFile
  | FsDir (entries : list (string * FsNode)).

(** [prefix ? prefix + '/' + entry : entry]. *)
Definition relPathOf (prefix entry : string) : string :=
  if nonempty prefix then prefix ++ "/" ++ entry else entry.

(** The body of the loop of [getSchemaFiles] for the entry [entry], found
    at [relPath]: a directory is searched in turn, with [relPath] as the
    prefix; a file is listed when its name ends in [.json]. *)
Fixpoint schemaFilesAt (node : FsNode) (entry relPath : string) : list string :=
  match node with
  | FsFile => if endsWith ".json" entry then [relPath] else []
  | FsDir sub =>
      (fix loop (entries : list (string * FsNode)) : list string :=
         match entries with
         | [] => []
         | (e, n) :: rest =>
             (schemaFilesAt n e (relPathOf relPath e) ++ loop rest)%list
         end) sub
  end.

(** [getSchemaFiles(dir, prefix)] on the entries of [dir]. *)
Definition getSchemaFiles (entries : list (string * FsNode)) (prefix : string)
  : list string :=
  flat_map (fun '(e, n) => schemaFilesAt n e (relPathOf prefix e)) entries.

(** [schemaFile.replace(/\.json$/, '.html')]. *)
Definition htmlRelOf (schemaFile : string) : string :=
  if endsWith ".json" schemaFile
  then take_string (String.length schemaFile - 5) schemaFile ++ ".html"
  else schemaFile.

(** The page put together again in one pass from left to right: the text
    between the blocks as it is, and [out block] in the place of each
    block.  [offset] is the position in the page at which [s] starts. *)
Fixpoint rebuild (s : string) (offset : nat) (blocks : list Block)
  (out : Block -> string) : string :=
  match blocks with
  | [] => s
  | block :: later =>
      let gap := (index block - offset)%nat in
      let len := String.length (fullMatch block) in
      take_string gap s ++ out block
      ++ rebuild (drop_string (gap + len) s) (index block + len) later out
  end.

(** The blocks lie in [s] one after the other, each at its index, with
    its full text there. *)
Fixpoint laid_out (s : string) (offset : nat) (blocks : list Block) : Prop :=
  match blocks with
  | [] => True
  | block :: later =>
      let gap := (index block - offset)%nat in
      let len := String.length (fullMatch block) in
      (offset <= index block)%nat
      /\ (gap + len <= String.length s)%nat
      /\ take_string len (drop_string gap s) = fullMatch block
      /\ laid_out (drop_string (gap + len) s) (index block + len) later
  end.

(** [JSON.stringify(v, null, 4)] for the sample documents. *)
Fixpoint sample_pretty_at (indent : string) (v : value) : string :=
  match v with
  | VArr [] => "[]"
  | VObj [] => "{}"
  | VArr items =>
      "[" ++ newline ++
      (fix join (l : list value) : string :=
         match l with
         | [] => ""
         | [x] => indent ++ "    " ++ sample_pretty_at (indent ++ "    ") x
         | x :: rest =>
             indent ++ "    " ++ sample_pretty_at (indent ++ "    ") x
             ++ "," ++ newline ++ join rest
         end) items ++ newline ++ indent ++ "]"
  | VObj fields =>
      "{" ++ newline ++
      (fix join (l : list (string * value)) : string :=
         match l with
         | [] => ""
         | [(k, x)] =>
             indent ++ "    " ++ dq ++ k ++ dq ++ ": "
             ++ sample_pretty_at (indent ++ "    ") x
         | (k, x) :: rest =>
             indent ++ "    " ++ dq ++ k ++ dq ++ ": "
             ++ sample_pretty_at (indent ++ "    ") x ++ "," ++ newline ++ join rest
         end) fields ++ newline ++ indent ++ "}"
  | _ => sample_stringify v
  end.

Definition sample_pretty : value -> string := sample_pretty_at "".

(** An English product description, its French translation, and a page
    that carries the English one next to a block that is not JSON. *)
Definition product_en : value :=
  VObj [("@type", VStr "Product"); ("name", VStr "Odoo for Gmail")].

Definition product_fr : value :=
  VObj [("@type", VStr "Product"); ("name", VStr "Odoo pour Gmail")].

Definition page_fr : string :=
  "<head>" ++ OPEN_TAG ++ sample_stringify product_en ++ CLOSE_TAG
  ++ "<title>Tarifs</title>" ++ OPEN_TAG ++ "to do" ++ CLOSE_TAG ++ "</head>".

Definition page_null : string :=
  "<head>" ++ OPEN_TAG ++ "null" ++ CLOSE_TAG ++ "</head>".

Definition builder : Runtime := sample_runtime [product_en; product_fr; VNull].




(** The schemas of one language: a page at the top, an article in a
    folder, and a file that is not a schema. *)
Definition schemas_fr : list (string * FsNode) :=
  [("index.json", FsFile);
   ("blog", FsDir [("article.json", FsFile); ("notes.txt", FsFile)]);
   ("README.md", FsFile)].

(** The text that stands for a block in the patched page, and whether
    the block was replaced. *)
Definition blockText `{Runtime} (pretty : value -> string)
  (graphSchema : option value) (schemaMap : SchemaMap) (block : Block) : string :=
  match blockOutcome pretty graphSchema schemaMap block with
  | Some (Some newBlock) => newBlock
  | _ => fullMatch block
  end.

Definition blockReplaced `{Runtime} (pretty : value -> string)
  (graphSchema : option value) (schemaMap : SchemaMap) (block : Block) : bool :=
  match blockOutcome pretty graphSchema schemaMap block with
  | Some (Some _) => true
  | _ => false
  end.

Definition blockFails `{Runtime} (pretty : value -> string)
  (graphSchema : option value) (schemaMap : SchemaMap) (block : Block) : bool :=
  match blockOutcome pretty graphSchema schemaMap block with
  | None => true
  | Some _ => false
  end.

(** The French page after patching: the first block holds the French
    product, indented; the block that is not JSON is as before. *)
Definition page_fr_patched : string :=
  "<head>" ++ OPEN_TAG ++ newline ++ "    "
  ++ replaceAll newline (newline ++ "    ") (sample_pretty product_fr)
  ++ newline ++ "    " ++ CLOSE_TAG
  ++ "<title>Tarifs</title>" ++ OPEN_TAG ++ "to do" ++ CLOSE_TAG ++ "</head>".

(** The files of a build: the French page, and a folder. *)
Definition dist_files : gmap string FsEntry :=
  <["dist/fr/index.html" := RegularFile page_fr]>
    (<["dist/fr/blog" := Directory]> ∅).

(** A page without any pricing content. *)
Definition privacy_page : Document :=
  {| plusCard := None; homePlusCard := None; pricingHero := false;
     otherPricing := false; tableCells := []; schemaScripts := [];
     hideStyle := None; keyframesStyle := None; banners := [] |}.

Definition privacy_visit : World :=
  {| now := 1700000000000; sessionStorage := Some ∅; requests := [];
     console := []; document := privacy_page |}.

(** An exact price as it should be displayed: a dollar sign (or none),
    the units, and the two-digit cents unless they are 00, after a point
    or inside the superscript markup. *)
Definition exact_text (price : QArith_base.Q) : string :=
  "$" ++ Z_toString (exact_units price)
  ++ (if String.eqb (exact_cents price) "00" then "" else "." ++ exact_cents price).

Definition exact_markup (price : QArith_base.Q) : string :=
  Z_toString (exact_units price)
  ++ (if String.eqb (exact_cents price) "00" then ""
      else "<span class=" ++ dq ++ "cents" ++ dq ++ ">" ++ exact_cents price
           ++ "</span>").

Definition texts_match_exact `{Runtime} (pct : Z) : Prop :=
  let q := calculatePrices (float_of_Z pct) in
  formatPriceText (monthly q) (monthlyCents q) = exact_text (exact_monthly pct)
  /\ formatPriceText (annual q) (annualCents q) = exact_text (exact_annual pct)
  /\ formatPriceWithCents (monthly q) (monthlyCents q)
     = exact_markup (exact_monthly pct).

#[export] Instance texts_match_exact_dec `{Runtime} pct : Decision (texts_match_exact pct).
Proof. unfold texts_match_exact. apply _. Defined.

(** * Properties *)

(** ** Price calculator *)

Section PriceCalculator.
Context {rt : Runtime}.

(** On every whole percentage from 0 to 100 the quote agrees with the
    exact prices: integer parts are the floors, cents are the rounded
    remainders, and both cents strings have two characters. *)
Lemma calculatePrices_whole_percent (pct : Z) :
  (0 <= pct <= 100)%Z -> quote_matches_exact pct.
Proof.
  intros Hpct.
  assert (Hall : forallb (fun n => bool_decide (quote_matches_exact (Z.of_nat n)))
                   (seq 0 101) = true) by (vm_compute; reflexivity).
  rewrite forallb_forall in Hall.
  specialize (Hall (Z.to_nat pct)).
  rewrite Z2Nat.id in Hall by lia.
  apply (bool_decide_eq_true_1 (quote_matches_exact pct)), Hall, in_seq. lia.
Qed.

(** C2 (as the code has it): for base price 19 and a 50% discount the
    monthly price is 9 with cents 50, and the annual price is computed from
    the unrounded monthly price 9.5, giving floor(9.5 x 9.6) = 91 with
    cents 20. *)
Theorem calculatePrices_50 :
  calculatePrices 50 =
  {| monthly := 9; monthlyCents := "50"; annual := 91; annualCents := "20";
     discountPercent := 50 |}.
Proof. vm_compute. reflexivity. Qed.

(** C1: at 50.11 percent the annual price is 90.99936; its integer part
    is 90 and its remainder rounds to 100 cents, which is printed on three
    characters instead of being carried into the integer part, so that the
    price reads 90.100. *)
Theorem calculatePrices_annual_cents_overflow :
  let q := calculatePrices 50.11 in
  float_whole (annual q) = Some 90%Z /\ annualCents q = "100"
  /\ ~ two_digits (annualCents q)
  /\ formatPriceText (annual q) (annualCents q) = "$90.100".
Proof.
  cbv zeta. split; [vm_compute; reflexivity|].
  assert (Hc : annualCents (calculatePrices 50.11) = "100")
    by (vm_compute; reflexivity).
  rewrite Hc. split; [reflexivity|]. split; [simpl; tauto|].
  vm_compute. reflexivity.
Qed.

(** C8: at 5.28 percent the monthly price is 17.9968; its integer part is
    17 and its cents string is the three characters 100, so that the price
    reads 17.100. *)
Theorem calculatePrices_monthly_cents_overflow :
  let q := calculatePrices 5.28 in
  float_whole (monthly q) = Some 17%Z /\ monthlyCents q = "100"
  /\ ~ two_digits (monthlyCents q)
  /\ formatPriceText (monthly q) (monthlyCents q) = "$17.100".
Proof.
  cbv zeta. split; [vm_compute; reflexivity|].
  assert (Hc : monthlyCents (calculatePrices 5.28) = "100")
    by (vm_compute; reflexivity).
  rewrite Hc. split; [reflexivity|]. split; [simpl; tauto|].
  vm_compute. reflexivity.
Qed.
End PriceCalculator.

(** C2 (as stated) fails: with a 50% discount the annual price is not 86. *)
Lemma calculatePrices_50_annual_not_86 :
  ~ (float_whole (monthly (calculatePrices (rt := browser) 50)) = Some 9%Z
     /\ float_whole (annual (calculatePrices (rt := browser) 50)) = Some 86%Z).
Proof. vm_compute. intros [_ H]. discriminate H. Qed.

(** ** Text replacement in comparison tables *)

Lemma append_cons (c : ascii) (a b : string) : String c a ++ b = String c (a ++ b).
Proof. reflexivity. Qed.

Lemma append_assoc (a b c : string) : (a ++ b) ++ c = a ++ (b ++ c).
Proof. induction a as [|x a IH]; [reflexivity|]. rewrite !append_cons. by rewrite IH. Qed.

Lemma startsWith_length (p s : string) :
  startsWith p s = true -> (String.length p <= String.length s)%nat.
Proof.
  revert s. induction p as [|a p IH]; intros s H; simpl; [lia|].
  destruct s as [|b s]; [discriminate H|]. simpl in *.
  destruct (Ascii.eqb a b); [|discriminate H]. apply IH in H. lia.
Qed.

Lemma startsWith_self (p s : string) : startsWith p (p ++ s) = true.
Proof.
  induction p as [|a p IH]; [reflexivity|].
  rewrite append_cons. simpl. by rewrite Ascii.eqb_refl.
Qed.

(** A text that does not contain the pattern is left as it is. *)
Lemma replaceAll_absent (p r s : string) :
  includes p s = false -> replaceAll p r s = s.
Proof.
  unfold replaceAll. induction s as [|c s IH]; intros H; [reflexivity|].
  simpl in H. apply orb_false_iff in H as [Hhere Hlater].
  cbn [replace_from]. rewrite Hhere. cbn [andb]. f_equal. apply IH.
  destruct s; simpl in *; [|exact Hlater].
  by destruct p.
Qed.

Section Replace.
(** A pattern whose first character does not occur again in it, so that
    two occurrences never overlap. *)
Variables (first : ascii) (more : string).
Hypothesis first_once : includes (String first EmptyString) more = false.
Local Abbreviation pattern := (String first more).

Lemma includes_head_absent (c : ascii) (s : string) :
  includes (String first EmptyString) (String c s) = false ->
  Ascii.eqb first c = false /\ includes (String first EmptyString) s = false.
Proof.
  simpl. destruct (Ascii.eqb first c); simpl; [discriminate|].
  intros H. split; [reflexivity|]. by destruct s.
Qed.

(** A part of the pattern that avoids its first character cannot run into
    a following occurrence of the pattern. *)
Lemma startsWith_before_occurrence (part a rest : string) :
  includes (String first EmptyString) part = false ->
  startsWith part (a ++ String first rest) = startsWith part a.
Proof.
  revert a. induction part as [|d part IH]; intros a Hpart; [reflexivity|].
  apply includes_head_absent in Hpart as [Hd Hrest].
  destruct a as [|c a].
  - simpl. rewrite Ascii.eqb_sym in Hd. by rewrite Hd.
  - rewrite append_cons. simpl. destruct (Ascii.eqb d c); [by apply IH|reflexivity].
Qed.

Lemma replace_from_skip (r x s : string) :
  replace_from pattern r (x ++ s) (String.length x) = replace_from pattern r s 0.
Proof using Type.
  induction x as [|c x IH]; [by destruct s|]. rewrite append_cons. exact IH.
Qed.

Lemma replace_from_before_occurrence (r a rest : string) (skip : nat) :
  (skip <= String.length a)%nat ->
  replace_from pattern r (a ++ String first rest) skip =
  replace_from pattern r a skip ++ replace_from pattern r (String first rest) 0.
Proof using first_once.
  remember (replace_from pattern r (String first rest) 0) as tail eqn:Htail.
  revert skip. induction a as [|c a IH]; intros skip Hskip.
  - simpl in Hskip. replace skip with 0%nat by lia. by subst tail.
  - rewrite append_cons. destruct skip as [|k].
    + cbn [replace_from].
      assert (Hsame : startsWith pattern (String c (a ++ String first rest))
                      = startsWith pattern (String c a)).
      { simpl. destruct (Ascii.eqb first c); [|reflexivity].
        by apply startsWith_before_occurrence. }
      rewrite Hsame. destruct (startsWith pattern (String c a)) eqn:Hmatch; cbn [andb negb].
      * apply startsWith_length in Hmatch. simpl in Hmatch.
        replace (String.length (String first more) - 1)%nat
          with (String.length more) by (simpl; lia).
        cbn [String.eqb negb]. rewrite IH by lia. by rewrite append_assoc.
      * rewrite append_cons. f_equal. apply IH. lia.
    + cbn [replace_from]. apply IH. simpl in Hskip. lia.
Qed.

(** Every occurrence of the pattern is replaced: the text splits at the
    occurrence, whatever comes before and after it. *)
Lemma replaceAll_occurrence (r a b : string) :
  replaceAll pattern r (a ++ pattern ++ b) =
  replaceAll pattern r a ++ r ++ replaceAll pattern r b.
Proof using first_once.
  unfold replaceAll. rewrite append_cons.
  rewrite replace_from_before_occurrence by lia. f_equal.
  cbn [replace_from].
  pose proof (startsWith_self (String first more) b) as Hself.
  rewrite append_cons in Hself. rewrite Hself. cbn [andb String.eqb negb].
  replace (String.length (String first more) - 1)%nat
    with (String.length more) by (simpl; lia).
  f_equal. apply replace_from_skip.
Qed.
End Replace.

(** The callback of the table loop replaces every occurrence of the text
    [$19] by the monthly price text and then every occurrence of [$182] by
    the annual price text, wherever it stands and whatever follows it. *)
Lemma updateCell_replaces_every_occurrence (monthlyPriceText annualPriceText : string) :
  (forall text,
     updateCell monthlyPriceText annualPriceText text =
     replaceAll "$182" annualPriceText (replaceAll "$19" monthlyPriceText text))
  /\ (forall before after,
        replaceAll "$19" monthlyPriceText (before ++ "$19" ++ after) =
        replaceAll "$19" monthlyPriceText before ++ monthlyPriceText
        ++ replaceAll "$19" monthlyPriceText after)
  /\ (forall before after,
        replaceAll "$182" annualPriceText (before ++ "$182" ++ after) =
        replaceAll "$182" annualPriceText before ++ annualPriceText
        ++ replaceAll "$182" annualPriceText after).
Proof.
  split; [|split].
  - intros text. unfold updateCell.
    destruct (includes "$19" text) eqn:H19;
      [|rewrite (replaceAll_absent "$19" _ text H19)];
      match goal with
      | |- context [includes "$182" ?t] =>
          destruct (includes "$182" t) eqn:H182;
            [reflexivity|by rewrite (replaceAll_absent "$182" _ t H182)]
      end.
  - intros before after. exact (replaceAll_occurrence "$" "19" eq_refl _ before after).
  - intros before after. exact (replaceAll_occurrence "$" "182" eq_refl _ before after).
Qed.

(** C10: [updatePriceDisplay] rewrites every cell of the comparison
    tables: every occurrence of the text [$19] becomes the monthly price
    text, and then every occurrence of [$182] becomes the annual price
    text.  An occurrence is replaced wherever it stands and whatever
    follows it: a further digit as in [$190], a decimal part as in
    [$19.99].  The price texts are taken to be free of substitution
    escapes, as those of [calculatePrices] are. *)
Theorem updatePriceDisplay_replaces_every_occurrence
  {rt : Runtime} (prices : PriceQuote) (data : value) (d : Document) (i : nat) :
  let monthlyPriceText := formatPriceText (monthly prices) (monthlyCents prices) in
  let annualPriceText := formatPriceText (annual prices) (annualCents prices) in
  let cells' := tableCells (updatePriceDisplay prices data d) in
  literalReplacement monthlyPriceText = true ->
  literalReplacement annualPriceText = true ->
  (forall text,
     tableCells d !! i = Some text ->
     cells' !! i = Some (replaceAll "$182" annualPriceText
                           (replaceAll "$19" monthlyPriceText text)))
  /\ (forall before after,
        tableCells d !! i = Some (before ++ "$19" ++ after) ->
        cells' !! i = Some (replaceAll "$182" annualPriceText
                              (replaceAll "$19" monthlyPriceText before
                               ++ monthlyPriceText
                               ++ replaceAll "$19" monthlyPriceText after)))
  /\ (forall text before after,
        tableCells d !! i = Some text ->
        replaceAll "$19" monthlyPriceText text = before ++ "$182" ++ after ->
        cells' !! i = Some (replaceAll "$182" annualPriceText before
                            ++ annualPriceText
                            ++ replaceAll "$182" annualPriceText after)).
Proof.
  cbv zeta. intros _ _.
  set (monthlyPriceText := formatPriceText (monthly prices) (monthlyCents prices)).
  set (annualPriceText := formatPriceText (annual prices) (annualCents prices)).
  destruct (updateCell_replaces_every_occurrence monthlyPriceText annualPriceText)
    as (Hcell & Hmonthly & Hannual).
  assert (Hcells : forall text,
            tableCells d !! i = Some text ->
            tableCells (updatePriceDisplay prices data d) !! i
            = Some (replaceAll "$182" annualPriceText
                      (replaceAll "$19" monthlyPriceText text))).
  { intros text Hi. unfold updatePriceDisplay, updateSchemaOrg.
    cbn [tableCells set_schemaScripts set_tableCells set_cards].
    rewrite list_lookup_fmap, Hi. cbn. by rewrite <- Hcell. }
  split; [exact Hcells|]. split.
  - intros before after Hi. by rewrite (Hcells _ Hi), Hmonthly.
  - intros text before after Hi Hfirst. by rewrite (Hcells _ Hi), Hfirst, Hannual.
Qed.

(** With the prices of a 50% discount, [$190] becomes [$9.500], [$19.99]
    becomes [$9.50.99] and [$1820] becomes [$91.200]. *)
Lemma updatePriceDisplay_embedded_examples :
  tableCells (updatePriceDisplay (rt := browser) (calculatePrices (rt := browser) 50)
                india table_page)
  = ["up to $9.500"; "$9.50.99 or $9.50"; "$91.200"].
Proof.
  apply list_eq. intros [|[|[|i]]].
  - rewrite (proj1 (proj2 (updatePriceDisplay_replaces_every_occurrence (rt := browser)
                             (calculatePrices (rt := browser) 50) india table_page 0
                             eq_refl eq_refl))
               "up to " "0" eq_refl).
    vm_compute. reflexivity.
  - rewrite (proj1 (proj2 (updatePriceDisplay_replaces_every_occurrence (rt := browser)
                             (calculatePrices (rt := browser) 50) india table_page 1
                             eq_refl eq_refl))
               "" ".99 or $19" eq_refl).
    vm_compute. reflexivity.
  - rewrite (proj2 (proj2 (updatePriceDisplay_replaces_every_occurrence (rt := browser)
                             (calculatePrices (rt := browser) 50) india table_page 2
                             eq_refl eq_refl))
               "$1820" "" "0" eq_refl eq_refl).
    vm_compute. reflexivity.
  - reflexivity.
Defined.

(** The price texts of every whole percentage from 0 to 100 are inserted
    as they are. *)
Lemma formatPriceText_literal {rt : Runtime} (pct : Z) :
  (0 <= pct <= 100)%Z ->
  let q := calculatePrices (float_of_Z pct) in
  literalReplacement (formatPriceText (monthly q) (monthlyCents q)) = true
  /\ literalReplacement (formatPriceText (annual q) (annualCents q)) = true.
Proof.
  intros Hpct.
  assert (Hall : forallb (fun n =>
                    let q := calculatePrices (float_of_Z (Z.of_nat n)) in
                    literalReplacement (formatPriceText (monthly q) (monthlyCents q))
                    && literalReplacement (formatPriceText (annual q) (annualCents q)))
                   (seq 0 101) = true) by (vm_compute; reflexivity).
  rewrite forallb_forall in Hall.
  specialize (Hall (Z.to_nat pct)).
  rewrite Z2Nat.id in Hall by lia.
  apply andb_prop, Hall, in_seq. lia.
Qed.

(** ** Running the page-load code *)

Section Running.
Context {rt : Runtime}.

Lemma bind_normal {A B : Type} (m : M A) (f : A -> M B) (w w' : World) (a : A) :
  m w = (Normal a, w') -> (m ≫= f) w = f a w'.
Proof. intros H. unfold mbind, M_bind. by rewrite H. Qed.

(** A truthy value has every property (possibly [undefined]). *)
Lemma prop_truthy (v : value) (k : string) (w : World) :
  truthy v = true ->
  prop v k w = (Normal (default VUndefined (get_prop v k)), w)
  /\ is_Some (get_prop v k).
Proof.
  intros Hv. unfold prop. destruct v; try discriminate Hv; simpl; eauto.
Qed.

(** The fetcher always completes normally; it issues one request and
    leaves storage and page alone. *)
Lemma fetchParityDealsDiscount_run (net : Network) (w : World) :
  exists v w',
    fetchParityDealsDiscount net w = (Normal v, w')
    /\ now w' = (now w + latency net)%Z
    /\ sessionStorage w' = sessionStorage w
    /\ requests w' = PARITY_DEALS_API :: requests w
    /\ document w' = document w
    /\ v = match outcome net with
           | FetchResponse st (Some text) =>
               if (200 <=? st)%Z && (st <=? 299)%Z
               then default VNull (JSON_parse text) else VNull
           | _ => VNull
           end.
Proof.
  unfold fetchParityDealsDiscount, try_catch, mbind, M_bind, fetch, response_json,
    response_ok, throw, mret, M_ret.
  destruct (outcome net) as [msg|st [text|]]; simpl.
  - eauto 10.
  - destruct ((200 <=? st)%Z && (st <=? 299)%Z); simpl; [|eauto 10].
    destruct (JSON_parse text); simpl; eauto 10.
  - destruct ((200 <=? st)%Z && (st <=? 299)%Z); simpl; eauto 10.
Qed.

(** Reading the cache always completes normally and changes nothing. *)
Lemma getCachedDiscountData_run (w : World) :
  exists v, getCachedDiscountData w = (Normal v, w).
Proof.
  unfold getCachedDiscountData, try_catch, mbind, M_bind, getItem, Date_now, gets,
    throw, mret, M_ret.
  destruct (sessionStorage w) as [store|] eqn:Hs; simpl; [|eauto].
  rewrite ?Hs.
  destruct (store !! "parity_deals_discount") as [text|]; simpl; rewrite ?Hs;
    destruct (store !! "parity_deals_timestamp") as [stamp|]; simpl; eauto.
  destruct (nonempty text && nonempty stamp); simpl; [|eauto].
  destruct (parseInt stamp) as [t0|]; simpl; [|eauto].
  destruct (now w - t0 <? CACHE_DURATION_MS)%Z; simpl; [|eauto].
  destruct (JSON_parse text); simpl; eauto.
Qed.

(** Writing the cache always completes normally; it touches storage only. *)
Lemma cacheDiscountData_run (data : value) (w : World) :
  exists w',
    cacheDiscountData data w = (Normal tt, w')
    /\ now w' = now w /\ requests w' = requests w /\ document w' = document w
    /\ sessionStorage w' =
       (fun store => <["parity_deals_timestamp" := Z_toString (now w)]>
                       (<["parity_deals_discount" := JSON_stringify data]> store))
       <$> sessionStorage w.
Proof.
  unfold cacheDiscountData, try_catch, mbind, M_bind, setItem, Date_now, gets.
  destruct (sessionStorage w) as [store|] eqn:Hs; simpl.
  - eauto 10.
  - exists w. by rewrite Hs.
Qed.

(** Resolving the discount data always completes normally, leaves the page
    alone, and issues a request exactly when the cache has nothing. *)
Lemma resolveDiscountData_run (net : Network) (w : World) :
  exists v w',
    resolveDiscountData net w = (Normal v, w')
    /\ document w' = document w
    /\ (forall c, getCachedDiscountData w = (Normal c, w) ->
        if truthy c then v = c /\ w' = w
        else requests w' = PARITY_DEALS_API :: requests w).
Proof.
  unfold resolveDiscountData.
  destruct (getCachedDiscountData_run w) as [c Hc].
  rewrite (bind_normal _ _ _ _ _ Hc).
  destruct (truthy c) eqn:Htc; simpl.
  - exists c, w. split; [reflexivity|]. split; [reflexivity|]. intros c' Hc'.
    rewrite Hc in Hc'. injection Hc' as <-. by rewrite Htc.
  - destruct (fetchParityDealsDiscount_run net w)
      as (v & w1 & Hf & _ & _ & Hreq & Hdoc & _).
    rewrite (bind_normal _ _ _ _ _ Hf).
    destruct (truthy v).
    + destruct (cacheDiscountData_run v w1) as (w2 & Hw & _ & Hreq2 & Hdoc2 & _).
      rewrite (bind_normal _ _ _ _ _ Hw). exists v, w2.
      split; [reflexivity|]. split; [congruence|].
      intros c' Hc'. rewrite Hc in Hc'. injection Hc' as <-.
      rewrite Htc. congruence.
    + exists v, w1. split; [reflexivity|]. split; [done|].
      intros c' Hc'. rewrite Hc in Hc'. injection Hc' as <-. by rewrite Htc.
Qed.

(** Determining the percentage only writes to the console.  On a truthy
    response it gives 0 when a flag is set; otherwise it gives what
    [parseFloat] reads, and throws when the percentage cannot be converted
    to a string. *)
Lemma determineDiscount_run (data : value) (w : World) :
  truthy data = true ->
  exists w',
    determineDiscount data w
    = (match discountOf data with
       | Some pct => Normal pct
       | None => Throw CANNOT_CONVERT
       end, w')
    /\ document w' = document w /\ requests w' = requests w
    /\ sessionStorage w' = sessionStorage w.
Proof.
  intros Hd. unfold determineDiscount, discountOf, flagged.
  rewrite (bind_normal _ _ _ _ _ (proj1 (prop_truthy data "isVpn" w Hd))).
  rewrite (bind_normal _ _ _ _ _ (proj1 (prop_truthy data "isProxy" w Hd))).
  rewrite (bind_normal _ _ _ _ _ (proj1 (prop_truthy data "isTor" w Hd))).
  match goal with |- context [if ?c then _ else _] => destruct c end.
  - eexists. split; [reflexivity|]. done.
  - rewrite (bind_normal _ _ _ _ _ (proj1 (prop_truthy data "discountPercentage" w Hd))).
    destruct (parseFloat _) as [pct|].
    + rewrite (bind_normal _ _ w w pct) by reflexivity.
      destruct (PrimFloat.eqb pct 0); (eexists; split; [reflexivity|]; done).
    + eexists. split; [reflexivity|]. done.
Qed.
End Running.

(** ** Timestamps survive the trip through storage *)

Lemma digits_value_cons (c : ascii) (s : string) (acc : option Z) (k : Z) :
  digit_of_char c = Some k ->
  digits_value (String c s) acc = digits_value s (Some (10 * default 0%Z acc + k)%Z).
Proof. intros H. simpl. by rewrite H. Qed.

Lemma digits_value_acc (d : Decimal.uint) (a : positive) :
  digits_value (NilEmpty.string_of_uint d) (Some (Z.pos a))
  = Some (Z.pos (Pos.of_uint_acc d a)).
Proof.
  revert a. induction d; intros a; cbn [NilEmpty.string_of_uint Pos.of_uint_acc];
    try reflexivity;
    (match goal with
     | |- context [digits_value (String ?c _) _] =>
         let k := eval vm_compute in (digit_of_char c) in
         match k with
         | Some ?k' => rewrite (digits_value_cons c _ _ k' eq_refl)
         end
     end); rewrite <- IHd; do 2 f_equal; cbn [default]; unfold id; lia.
Qed.

Lemma digits_value_start (d : Decimal.uint) (acc : option Z) :
  default 0%Z acc = 0%Z ->
  digits_value (NilEmpty.string_of_uint d) acc
  = match d with
    | Decimal.Nil => acc
    | _ => Some (Z.of_N (Pos.of_uint d))
    end.
Proof.
  revert acc. induction d; intros acc Hacc;
    cbn [NilEmpty.string_of_uint Pos.of_uint]; try reflexivity;
    (match goal with
     | |- context [digits_value (String ?c _) _] =>
         let k := eval vm_compute in (digit_of_char c) in
         match k with
         | Some ?k' => rewrite (digits_value_cons c _ _ k' eq_refl)
         end
     end); rewrite Hacc.
  1: { rewrite (IHd (Some (10 * 0 + 0)%Z) eq_refl). by destruct d. }
  all: match goal with
       | |- context [Some (10 * 0 + ?k)%Z] =>
           change (10 * 0 + k)%Z with k
       end; rewrite digits_value_acc; reflexivity.
Qed.

Lemma string_of_uint_head (d : Decimal.uint) :
  d <> Decimal.Nil ->
  exists c rest, NilEmpty.string_of_uint d = String c rest
                 /\ is_Some (digit_of_char c).
Proof. destruct d; intros H; try done; simpl; eauto. Qed.

Lemma parseInt_digit_head (c : ascii) (rest : string) :
  is_Some (digit_of_char c) ->
  parseInt (String c rest) = digits_value (String c rest) None.
Proof.
  intros [k Hk].
  destruct c as [[] [] [] [] [] [] [] []]; try discriminate Hk; reflexivity.
Qed.

Lemma parseInt_uint (d : Decimal.uint) :
  d <> Decimal.Nil ->
  parseInt (NilEmpty.string_of_uint d) = Some (Z.of_N (Pos.of_uint d)).
Proof.
  intros Hd. destruct (string_of_uint_head d Hd) as (c & rest & Heq & Hc).
  rewrite Heq, (parseInt_digit_head c rest Hc), <- Heq.
  rewrite (digits_value_start d None eq_refl). by destruct d.
Qed.

Lemma parseInt_minus (s : string) :
  parseInt (String "-" s) = Z.opp <$> digits_value s None.
Proof. reflexivity. Qed.

(** [parseInt] reads back the decimal text of any whole number. *)
Lemma parseInt_Z_toString (z : Z) : parseInt (Z_toString z) = Some z.
Proof.
  unfold Z_toString. destruct z as [|p|p]; [reflexivity| |].
  - pose proof (DecimalPos.Unsigned.to_uint_nonnil p) as Hnn.
    cbn [Z.to_int NilZero.string_of_int].
    replace (NilZero.string_of_uint (Pos.to_uint p))
      with (NilEmpty.string_of_uint (Pos.to_uint p))
      by (unfold NilZero.string_of_uint; by destruct (Pos.to_uint p)).
    rewrite (parseInt_uint _ Hnn), DecimalPos.Unsigned.of_to. reflexivity.
  - pose proof (DecimalPos.Unsigned.to_uint_nonnil p) as Hnn.
    cbn [Z.to_int NilZero.string_of_int].
    replace (NilZero.string_of_uint (Pos.to_uint p))
      with (NilEmpty.string_of_uint (Pos.to_uint p))
      by (unfold NilZero.string_of_uint; by destruct (Pos.to_uint p)).
    rewrite parseInt_minus.
    rewrite (digits_value_start _ None eq_refl), DecimalPos.Unsigned.of_to.
    by destruct (Pos.to_uint p).
Qed.

(** White space beyond ASCII is skipped as well: a no-break space (C2 A0),
    a byte order mark (EF BB BF) or a line separator (E2 80 A8) in front of
    the digits does not keep [parseInt] from reading them, while a letter
    does. *)
Lemma parseInt_skips_white_space :
  parseInt (String (ascii_of_nat 194) (String (ascii_of_nat 160) "1700000000000"))
  = Some 1700000000000%Z
  /\ parseInt (String (ascii_of_nat 239)
                (String (ascii_of_nat 187) (String (ascii_of_nat 191) " 42")))
     = Some 42%Z
  /\ parseInt (String (ascii_of_nat 226)
                (String (ascii_of_nat 128) (String (ascii_of_nat 168) "-7 days")))
     = Some (-7)%Z
  /\ parseInt "x42" = None.
Proof. repeat split; vm_compute; reflexivity. Qed.

Lemma Z_toString_nonempty (z : Z) : nonempty (Z_toString z) = true.
Proof.
  unfold Z_toString. destruct z as [|p|p]; [reflexivity| |];
    cbn [Z.to_int NilZero.string_of_int]; [|reflexivity].
  pose proof (DecimalPos.Unsigned.to_uint_nonnil p).
  unfold NilZero.string_of_uint. by destruct (Pos.to_uint p).
Qed.

(** ** The page through a page load *)

Section PageLoad.
Context {rt : Runtime}.

Lemma hideStyle_hidePrices (d : Document) : is_Some (hideStyle (hidePrices d)).
Proof. unfold hidePrices. destruct (hideStyle d) eqn:H; simpl; rewrite ?H; eauto. Qed.

Lemma showPrices_hidePrices (d : Document) :
  showPrices (hidePrices d) = set_hideStyle (Some VISIBLE_RULE) d.
Proof.
  unfold showPrices, hidePrices.
  destruct (hideStyle d) eqn:H; simpl; rewrite ?H; reflexivity.
Qed.

Lemma hideStyle_updatePriceDisplay (q : PriceQuote) (data : value) (d : Document) :
  hideStyle (updatePriceDisplay q data d) = hideStyle d.
Proof. reflexivity. Qed.

Lemma banners_updatePriceDisplay (q : PriceQuote) (data : value) (d : Document) :
  banners (updatePriceDisplay q data d) = banners d.
Proof. reflexivity. Qed.

Lemma banners_hidePrices (d : Document) : banners (hidePrices d) = banners d.
Proof. unfold hidePrices. by destruct (hideStyle d). Qed.

Lemma banners_showPrices (d : Document) : banners (showPrices d) = banners d.
Proof. unfold showPrices. by destruct (hideStyle d). Qed.

Lemma hideStyle_showPrices (d : Document) :
  is_Some (hideStyle d) -> hideStyle (showPrices d) = Some VISIBLE_RULE.
Proof. intros [t Ht]. unfold showPrices. by rewrite Ht. Qed.

(** A response with a flag set yields the percentage 0. *)
Lemma determineDiscount_flagged (data : value) (w : World) :
  truthy data = true -> flagged data = true ->
  (determineDiscount data w).1 = Normal 0%float.
Proof.
  intros Hd Hf. unfold determineDiscount.
  rewrite (bind_normal _ _ _ _ _ (proj1 (prop_truthy data "isVpn" w Hd))).
  rewrite (bind_normal _ _ _ _ _ (proj1 (prop_truthy data "isProxy" w Hd))).
  rewrite (bind_normal _ _ _ _ _ (proj1 (prop_truthy data "isTor" w Hd))).
  unfold flagged in Hf. rewrite Hf. reflexivity.
Qed.

(** The shape of every page load on a page with pricing content: the
    response is resolved, and the load ends as [loadCompletion] says, on
    the page [loadedPage] describes. *)
Lemma init_run (net : Network) (w : World) :
  hasPricingContent (document w) = true ->
  exists data w1 w',
    resolveDiscountData net (hidden w) = (Normal data, w1)
    /\ init net w = (loadCompletion data, w')
    /\ requests w' = requests w1
    /\ sessionStorage w' = sessionStorage w1
    /\ document w' = loadedPage data (document w).
Proof.
  intros Hc.
  destruct (resolveDiscountData_run net (hidden w)) as (data & w1 & Hr & Hdoc & _).
  exists data, w1. unfold init, loadCompletion, loadedPage.
  rewrite (bind_normal _ _ w w (hasPricingContent (document w))) by reflexivity.
  rewrite Hc. cbn [negb].
  rewrite (bind_normal _ _ w (hidden w) tt) by reflexivity.
  rewrite (bind_normal _ _ _ _ _ Hr).
  destruct (truthy data) eqn:Ht; cbn [negb].
  - set (w1' := (console_write "[RegionalPricing] API response:" w1).2).
    rewrite (bind_normal _ _ w1 w1' tt) by reflexivity.
    destruct (determineDiscount_run data w1' Ht) as (w2 & Hdd & Hd2 & Hr2 & Hs2).
    destruct (discountOf data) as [pct|].
    + rewrite (bind_normal _ _ _ _ _ Hdd).
      eexists. split; [exact Hr|]. split; [reflexivity|].
      split; [simpl; rewrite Hr2; reflexivity|].
      split; [simpl; rewrite Hs2; reflexivity|].
      simpl. rewrite Hd2. subst w1'. simpl. by rewrite Hdoc.
    + unfold mbind, M_bind at 1. rewrite Hdd.
      eexists. split; [exact Hr|]. split; [reflexivity|].
      split; [rewrite Hr2; reflexivity|].
      split; [rewrite Hs2; reflexivity|].
      rewrite Hd2. subst w1'. simpl. by rewrite Hdoc.
  - eexists. split; [exact Hr|]. split; [reflexivity|]. split; [reflexivity|].
    split; [reflexivity|]. simpl. by rewrite Hdoc.
Qed.
End PageLoad.

(** ** Discount fetcher *)

(** C6: the fetcher never throws; it returns the parsed body when the
    request is fulfilled with a success status and a well-formed body, and
    null on a network failure, another status, an unreadable or a malformed
    body. *)
Theorem fetchParityDealsDiscount_parsed_or_null
  {rt : Runtime} (net : Network) (w : World) :
  exists w',
    fetchParityDealsDiscount net w =
    (Normal match outcome net with
            | FetchResponse st (Some text) =>
                if (200 <=? st)%Z && (st <=? 299)%Z
                then match JSON_parse text with
                     | Some v => v
                     | None => VNull
                     end
                else VNull
            | _ => VNull
            end, w').
Proof.
  destruct (fetchParityDealsDiscount_run net w) as (v & w' & Hrun & _ & _ & _ & _ & Hv).
  exists w'. rewrite Hrun, Hv. reflexivity.
Qed.

(** ** Cache *)

Section Cache.
Context {rt : Runtime}.

(** What a cache read returns when an entry with a decimal time stamp is
    in storage. *)
Lemma getCachedDiscountData_stored
  (w : World) (store : gmap string string) (text : string) (t0 : Z) :
  sessionStorage w = Some store ->
  store !! "parity_deals_discount" = Some text ->
  store !! "parity_deals_timestamp" = Some (Z_toString t0) ->
  nonempty text = true ->
  getCachedDiscountData w =
  (Normal (if (now w - t0 <? CACHE_DURATION_MS)%Z
           then default VNull (JSON_parse text) else VNull), w).
Proof.
  intros Hs Hd Ht Hne.
  unfold getCachedDiscountData, try_catch, mbind, M_bind, getItem, Date_now, gets,
    throw, mret, M_ret.
  rewrite Hs. simpl. rewrite Hd. simpl. rewrite Hs, Ht. simpl.
  rewrite Hne, Z_toString_nonempty, parseInt_Z_toString. simpl.
  destruct (now w - t0 <? CACHE_DURATION_MS)%Z; simpl; [|reflexivity].
  by destruct (JSON_parse text).
Qed.

(** C3: an entry stored by [cacheDiscountData] at time [now w0] is returned
    by a later cache read, and [init] then issues no request, when less
    than one hour has passed; from one hour on the read returns null and
    [init] issues a new request. *)
Theorem cache_valid_strictly_under_one_hour
  (net : Network) (data : value) (w0 w : World) :
  truthy data = true ->
  JSON_parse (JSON_stringify data) = Some data ->
  nonempty (JSON_stringify data) = true ->
  is_Some (sessionStorage w0) ->
  sessionStorage w = sessionStorage (cacheDiscountData data w0).2 ->
  hasPricingContent (document w) = true ->
  ((now w - now w0 < CACHE_DURATION_MS)%Z ->
     getCachedDiscountData w = (Normal data, w)
     /\ requests (init net w).2 = requests w)
  /\ ((CACHE_DURATION_MS <= now w - now w0)%Z ->
      getCachedDiscountData w = (Normal VNull, w)
      /\ requests (init net w).2 = PARITY_DEALS_API :: requests w).
Proof.
  intros Htruthy Hrt Hne [store0 Hs0] Hs Hcontent.
  destruct (cacheDiscountData_run data w0) as (w0' & Hrun & _ & _ & _ & Hstored).
  rewrite Hrun in Hs. simpl in Hs. rewrite Hstored, Hs0 in Hs. simpl in Hs.
  assert (Hread : forall w1, sessionStorage w1 = sessionStorage w -> now w1 = now w ->
            getCachedDiscountData w1 =
            (Normal (if (now w - now w0 <? CACHE_DURATION_MS)%Z
                     then data else VNull), w1)).
  { intros w1 Hs1 Hn1. rewrite Hs in Hs1.
    rewrite (getCachedDiscountData_stored w1 _ (JSON_stringify data) (now w0) Hs1);
      [by rewrite Hn1, Hrt| |by rewrite lookup_insert_eq|exact Hne].
    rewrite lookup_insert_ne by done. by rewrite lookup_insert_eq. }
  destruct (init_run net w Hcontent) as (v & w1 & w' & Hres & Hinit & Hreq & _).
  destruct (resolveDiscountData_run net (hidden w)) as (v' & w1' & Hres' & _ & Hcases).
  rewrite Hres in Hres'. injection Hres' as <- <-.
  specialize (Hcases _ (Hread (hidden w) eq_refl eq_refl)).
  rewrite Hinit. cbn [snd]. rewrite Hreq.
  split; intros Hage.
  - rewrite (Hread w eq_refl eq_refl).
    apply Z.ltb_lt in Hage. rewrite Hage in *. rewrite Htruthy in Hcases.
    destruct Hcases as [_ ->]. done.
  - rewrite (Hread w eq_refl eq_refl).
    apply Z.ltb_ge in Hage. rewrite Hage in *. simpl in Hcases. done.
Qed.
End Cache.

(** One second before the hour the cached response is reused without a
    request; at exactly one hour the cache read gives null and one request
    goes out. *)
Lemma cache_one_hour_boundary :
  (getCachedDiscountData (rt := browser) (return_visit 3599000)
     = (Normal india, return_visit 3599000)
   /\ requests (init (rt := browser) offline (return_visit 3599000)).2 = [])
  /\ (getCachedDiscountData (rt := browser) (return_visit 3600000)
      = (Normal VNull, return_visit 3600000)
      /\ requests (init (rt := browser) offline (return_visit 3600000)).2
         = [PARITY_DEALS_API]).
Proof.
  split.
  - refine (proj1 (cache_valid_strictly_under_one_hour (rt := browser)
                     offline india first_visit (return_visit 3599000)
                     eq_refl _ eq_refl _ eq_refl eq_refl) _).
    + vm_compute. reflexivity.
    + eexists. reflexivity.
    + vm_compute. reflexivity.
  - refine (proj2 (cache_valid_strictly_under_one_hour (rt := browser)
                     offline india first_visit (return_visit 3600000)
                     eq_refl _ eq_refl _ eq_refl eq_refl) _).
    + vm_compute. reflexivity.
    + eexists. reflexivity.
    + vm_compute. discriminate.
Defined.

(** ** Page load *)

Section Init.
Context {rt : Runtime}.

(** C4: when the response that [init] resolved (from the cache or from the
    network) has one of its flags set, the percentage is 0 whatever the
    response reports, and the page is rendered with the prices of 0. *)
Theorem init_flagged_uses_zero_discount (net : Network) (w : World) (data : value) :
  hasPricingContent (document w) = true ->
  (resolveDiscountData net (hidden w)).1 = Normal data ->
  truthy data = true ->
  flagged data = true ->
  (forall w0, (determineDiscount data w0).1 = Normal 0%float)
  /\ (init net w).1 = Normal tt
  /\ document (init net w).2 =
     showPrices (updatePriceDisplay (calculatePrices 0) data (hidePrices (document w))).
Proof.
  intros Hcontent Hres Htruthy Hflag.
  split; [intros w0; by apply determineDiscount_flagged|].
  destruct (init_run net w Hcontent) as (v & w1 & w' & Hres' & Hinit & _ & _ & Hdoc).
  rewrite Hres' in Hres. injection Hres as ->.
  unfold loadCompletion in Hinit. unfold loadedPage in Hdoc.
  unfold discountOf in Hinit, Hdoc. rewrite Htruthy, Hflag in Hinit, Hdoc.
  rewrite Hinit. done.
Qed.

(** A page load on a page with pricing content ends in one of two ways.
    When it completes normally the prices are revealed; when no discount
    data could be resolved (network failure, bad status, malformed body)
    it does complete normally, and the page is as it was served apart from
    the revealing style rule.  Otherwise it ends with the [TypeError] of a
    percentage that cannot be converted, and then the page is left as
    [hidePrices] made it: nothing updated, and the revealing rule not
    written. *)
Theorem init_reveals_when_it_completes (net : Network) (w : World) :
  hasPricingContent (document w) = true ->
  exists data,
    (resolveDiscountData net (hidden w)).1 = Normal data
    /\ (truthy data = false ->
        (init net w).1 = Normal tt
        /\ document (init net w).2 = set_hideStyle (Some VISIBLE_RULE) (document w))
    /\ ((init net w).1 = Normal tt ->
        hideStyle (document (init net w).2) = Some VISIBLE_RULE)
    /\ ((init net w).1 <> Normal tt ->
        (init net w).1 = Throw CANNOT_CONVERT
        /\ truthy data = true /\ discountOf data = None
        /\ document (init net w).2 = hidePrices (document w)).
Proof.
  intros Hcontent.
  destruct (init_run net w Hcontent) as (v & w1 & w' & Hres & Hinit & _ & _ & Hdoc).
  exists v. rewrite Hres, Hinit. cbn [fst snd]. rewrite Hdoc.
  unfold loadCompletion, loadedPage.
  split; [reflexivity|]. split; [|split].
  - intros ->. split; [reflexivity|]. apply showPrices_hidePrices.
  - destruct (truthy v).
    + destruct (discountOf v); [intros _|discriminate].
      apply hideStyle_showPrices. rewrite hideStyle_updatePriceDisplay.
      apply hideStyle_hidePrices.
    + intros _. apply hideStyle_showPrices, hideStyle_hidePrices.
  - destruct (truthy v); [|done]. by destruct (discountOf v).
Qed.

(** C5 (as the code has it): neither the display update nor the page load
    as a whole inserts a banner, whatever the discount and the flags;
    [showRegionalBanner] is not called. *)
Theorem init_inserts_no_banner (net : Network) (w : World) :
  (forall prices data, banners (updatePriceDisplay prices data (document w))
                       = banners (document w))
  /\ banners (document (init net w).2) = banners (document w).
Proof.
  split; [intros prices data; apply banners_updatePriceDisplay|].
  destruct (hasPricingContent (document w)) eqn:Hcontent.
  - destruct (init_run net w Hcontent) as (v & w1 & w' & _ & Hinit & _ & _ & Hdoc).
    rewrite Hinit. cbn [snd]. rewrite Hdoc. unfold loadedPage.
    destruct (truthy v); [destruct (discountOf v)|].
    + by rewrite banners_showPrices, banners_updatePriceDisplay, banners_hidePrices.
    + apply banners_hidePrices.
    + by rewrite banners_showPrices, banners_hidePrices.
  - unfold init.
    rewrite (bind_normal _ _ w w (hasPricingContent (document w))) by reflexivity.
    by rewrite Hcontent.
Qed.
End Init.

(** A visitor behind a VPN whose response reports 50% is shown the base
    prices 19 and 182.40. *)
Lemma init_vpn_visitor_base_prices :
  (forall w0, (determineDiscount (rt := browser) india_vpn w0).1 = Normal 0%float)
  /\ (init (rt := browser) (serves india_vpn) first_visit).1 = Normal tt
  /\ tableCells (document (init (rt := browser) (serves india_vpn) first_visit).2)
     = ["Free"; "$19/mo"; "$182.40/yr"].
Proof.
  destruct (init_flagged_uses_zero_discount (rt := browser)
              (serves india_vpn) first_visit india_vpn)
    as (Hzero & Hnormal & Hdoc);
    [reflexivity | vm_compute; reflexivity | reflexivity | reflexivity |].
  split; [exact Hzero|]. split; [exact Hnormal|].
  rewrite Hdoc. vm_compute. reflexivity.
Defined.

(** Without network and without cache the page ends visible and otherwise
    as served. *)
Lemma init_offline_reveals_base_prices :
  (init (rt := browser) offline first_visit).1 = Normal tt
  /\ document (init (rt := browser) offline first_visit).2
     = set_hideStyle (Some VISIBLE_RULE) pricing_page.
Proof.
  destruct (init_reveals_when_it_completes (rt := browser) offline first_visit eq_refl)
    as (data & Hres & Hnull & _).
  apply Hnull.
  assert (Hdata : data = VNull) by (vm_compute in Hres; congruence).
  by rewrite Hdata.
Defined.

(** C7 (the defect): the service answers with a percentage that is an
    object with a property named [toString].  The response is truthy and
    unflagged, so line 355 hands the percentage to [parseFloat], whose
    conversion throws.  The prices were hidden on line 320; [init] ends
    with the [TypeError], [showPrices] is not reached, and the page keeps
    the hiding rule, with no price updated. *)
Theorem init_unconvertible_percentage_stays_hidden :
  JSON_parse (Runtime := browser3)
    ("{" ++ dq ++ "country" ++ dq ++ ":" ++ dq ++ "India" ++ dq ++ ","
     ++ dq ++ "discountPercentage" ++ dq ++ ":{" ++ dq ++ "toString" ++ dq ++ ":1}}")
  = Some unconvertible
  /\ hasPricingContent (document first_visit) = true
  /\ (init (rt := browser3) (serves unconvertible) first_visit).1
     = Throw CANNOT_CONVERT
  /\ document (init (rt := browser3) (serves unconvertible) first_visit).2
     = set_hideStyle (Some HIDDEN_RULE) pricing_page
  /\ hideStyle (document (init (rt := browser3) (serves unconvertible) first_visit).2)
     <> Some VISIBLE_RULE.
Proof.
  split; [vm_compute; reflexivity|]. split; [reflexivity|].
  split; [vm_compute; reflexivity|]. split; [vm_compute; reflexivity|].
  vm_compute. discriminate.
Qed.

(** C5 (as stated) fails: for an unflagged visitor with a 50% discount the
    page load applies the discount and inserts no banner. *)
Lemma init_discount_without_banner :
  flagged india = false
  /\ (determineDiscount (rt := browser) india first_visit).1 = Normal 50%float
  /\ tableCells (document (init (rt := browser) (serves india) first_visit).2)
     = ["Free"; "$9.50/mo"; "$91.20/yr"]
  /\ banners (document (init (rt := browser) (serves india) first_visit).2) = [].
Proof. vm_compute. repeat split; reflexivity. Qed.

(** Had it been called, [showRegionalBanner] would have inserted one. *)
Lemma showRegionalBanner_would_insert :
  b_innerHTML
  <$> banners (document (showRegionalBanner (rt := browser) india
                           (calculatePrices (rt := browser) 50) first_visit).2)
  = ["<span class=" ++ dq ++ "country-flag" ++ dq ++ "></span> "
     ++ "<span class=" ++ dq ++ "discount-text" ++ dq ++ ">50% OFF for India</span>"].
Proof. vm_compute. reflexivity. Qed.

(** ** Structured data *)

(** An offer whose name mentions "Monthly" gets the integer part of the
    monthly price as its price, also when the name mentions "Yearly" as
    well; an offer whose name mentions "Yearly" only gets the integer part
    of the annual price. *)
Lemma patchOffer_writes_integer_part_monthly_first
  {rt : Runtime} (prices : PriceQuote) (fields : list (string * value)) (name : string) :
  fields_get "name" fields = Some (VStr name) ->
  (includes "Monthly" name = true ->
   patchOffer prices (VObj fields) =
   Some (VObj (fields_set "price" (VStr (Number_toString (monthly prices))) fields),
         true))
  /\ (includes "Monthly" name = false -> includes "Yearly" name = true ->
      patchOffer prices (VObj fields) =
      Some (VObj (fields_set "price" (VStr (Number_toString (annual prices))) fields),
            true))
  /\ (includes "Monthly" name = false -> includes "Yearly" name = false ->
      patchOffer prices (VObj fields) = Some (VObj fields, false)).
Proof.
  intros Hname.
  assert (Hinc : forall c needle, name_includes (VStr name) (String c needle)
                                 = Some (includes (String c needle) name)).
  { intros c needle. unfold name_includes, truthy. by destruct name. }
  unfold patchOffer. cbn [get_prop mbind option_bind]. rewrite Hname. cbn [default]. unfold id.
  split; [|split].
  - intros Hm. rewrite (Hinc "M"%char "onthly"), Hm. reflexivity.
  - intros Hm Hy. rewrite (Hinc "M"%char "onthly"), Hm. cbn [mbind option_bind].
    rewrite (Hinc "Y"%char "early"), Hy. reflexivity.
  - intros Hm Hy. rewrite (Hinc "M"%char "onthly"), Hm. cbn [mbind option_bind].
    rewrite (Hinc "Y"%char "early"), Hy. reflexivity.
Qed.

Section SchemaPrices.
Context {rt : Runtime}.

(** The loop over offers with text names: each becomes its priced offer,
    and the block counts as modified when one is named after a billing
    period. *)
Lemma patchOffers_textNamed (prices : PriceQuote) (items : list value) :
  Forall textNamed items ->
  patchOffers prices items
  = Some (map (fun offer => match offer with
                            | VObj fields => pricedOffer prices fields
                            | _ => offer
                            end) items,
          existsb billed items).
Proof.
  induction 1 as [|offer rest Hoffer _ IH]; [reflexivity|].
  cbn [patchOffers map existsb]. rewrite IH. clear IH.
  destruct offer as [| | | | | |fields]; try done.
  unfold textNamed in Hoffer.
  destruct (fields_get "name" fields) as [name|] eqn:Hname.
  - destruct name as [| | | |name| |]; try done.
    assert (Hbilled : billed (VObj fields)
                      = includes "Monthly" name || includes "Yearly" name)
      by (unfold billed; by rewrite Hname).
    assert (Hpriced : pricedOffer prices fields
              = if includes "Monthly" name
                then VObj (fields_set "price"
                             (VStr (Number_toString (monthly prices))) fields)
                else if includes "Yearly" name
                then VObj (fields_set "price"
                             (VStr (Number_toString (annual prices))) fields)
                else VObj fields)
      by (unfold pricedOffer; by rewrite Hname).
    rewrite Hbilled, Hpriced.
    destruct (patchOffer_writes_integer_part_monthly_first prices fields name Hname)
      as (Hmonthly & Hyearly & Hneither).
    destruct (includes "Monthly" name).
    + rewrite (Hmonthly eq_refl). reflexivity.
    + destruct (includes "Yearly" name).
      * rewrite (Hyearly eq_refl eq_refl). reflexivity.
      * rewrite (Hneither eq_refl eq_refl). reflexivity.
  - assert (Hbilled : billed (VObj fields) = false)
      by (unfold billed; by rewrite Hname).
    assert (Hpriced : pricedOffer prices fields = VObj fields)
      by (unfold pricedOffer; by rewrite Hname).
    rewrite Hbilled, Hpriced.
    unfold patchOffer. cbn [get_prop mbind option_bind]. rewrite Hname. reflexivity.
Qed.

(** The price written depends on the integer parts of the quote only. *)
Lemma patchOffers_ignores_cents (prices prices' : PriceQuote) (items : list value) :
  monthly prices' = monthly prices -> annual prices' = annual prices ->
  patchOffers prices' items = patchOffers prices items.
Proof.
  intros Hm Hy. induction items as [|offer rest IH]; [reflexivity|].
  cbn [patchOffers]. rewrite IH. unfold patchOffer. by rewrite Hm, Hy.
Qed.

(** C9: when [updateSchemaOrg] patches a block whose offers include one
    named after a billing period, it writes the block again, from the
    parsed schema, with a price in each such offer: the integer part of
    the monthly price ([prices.monthly] as a string) for a name that
    mentions "Monthly", whether or not it also mentions "Yearly", and the
    integer part of the annual price for a name that mentions "Yearly"
    only.  The cents of the quote are written nowhere: quotes with the same
    integer parts give the same page. *)
Theorem updateSchemaOrg_writes_integer_part_monthly_first
  (prices : PriceQuote) (d : Document) (i : nat) (text : string)
  (fields : list (string * value)) (items : list value) :
  schemaScripts d !! i = Some text ->
  JSON_parse text = Some (VObj fields) ->
  fields_get "offers" fields = Some (VArr items) ->
  Forall textNamed items ->
  (exists offer, offer ∈ items /\ billed offer = true) ->
  (exists items',
     schemaScripts (updateSchemaOrg prices d) !! i
     = Some (JSON_stringify (VObj (fields_set "offers" (VArr items') fields)))
     /\ length items' = length items
     /\ forall j offerFields,
          items !! j = Some (VObj offerFields) ->
          items' !! j =
          Some match fields_get "name" offerFields with
               | Some (VStr name) =>
                   if includes "Monthly" name
                   then VObj (fields_set "price"
                                (VStr (Number_toString (monthly prices))) offerFields)
                   else if includes "Yearly" name
                   then VObj (fields_set "price"
                                (VStr (Number_toString (annual prices))) offerFields)
                   else VObj offerFields
               | _ => VObj offerFields
               end)
  /\ (forall prices',
        monthly prices' = monthly prices -> annual prices' = annual prices ->
        updateSchemaOrg prices' d = updateSchemaOrg prices d).
Proof.
  intros Hscript Hparse Hoffers Hnamed (offer & Hin & Hbilled). split.
  - exists (map (fun offer => match offer with
                              | VObj offerFields => pricedOffer prices offerFields
                              | _ => offer
                              end) items).
    split; [|split].
    + unfold updateSchemaOrg. cbn [schemaScripts set_schemaScripts].
      rewrite list_lookup_fmap, Hscript. cbn. f_equal.
      unfold patchSchemaText. rewrite Hparse. cbn [mbind option_bind get_prop].
      rewrite Hoffers. cbn [default mbind option_bind]. unfold id.
      rewrite (patchOffers_textNamed prices items Hnamed). cbn [mbind option_bind].
      replace (existsb billed items) with true; [reflexivity|].
      symmetry. apply existsb_exists. exists offer.
      split; [by apply list_elem_of_In|exact Hbilled].
    + apply length_map.
    + intros j offerFields Hj. by rewrite list_lookup_fmap, Hj.
  - intros prices' Hm Hy. unfold updateSchemaOrg. f_equal.
    apply map_ext. intros block. f_equal. unfold patchSchemaText.
    destruct (JSON_parse block) as [schema|]; [|reflexivity]. cbn [mbind option_bind].
    destruct (get_prop schema "offers") as [offers|]; [|reflexivity].
    cbn [mbind option_bind].
    destruct schema; try reflexivity. destruct offers; try reflexivity.
    by rewrite (patchOffers_ignores_cents prices prices' _ Hm Hy).
Qed.
End SchemaPrices.

(** With the quote of a 50% discount (9.50 and 91.20) the block of the
    pricing page, whose offer is named PLUS Monthly or Yearly, is written
    again with the price 9: not 9.50, and not 91. *)
Lemma updateSchemaOrg_both_names_example :
  schemaScripts (updateSchemaOrg (rt := browser) (calculatePrices (rt := browser) 50)
                   pricing_page) !! 0%nat
  = Some (sample_stringify
            (VObj [("@type", VStr "Product");
                   ("offers",
                    VArr [VObj [("@type", VStr "Offer");
                                ("name", VStr "PLUS Monthly or Yearly");
                                ("price", VStr "9")]])])).
Proof.
  destruct (updateSchemaOrg_writes_integer_part_monthly_first (rt := browser)
              (calculatePrices (rt := browser) 50) pricing_page 0
              (sample_stringify product_schema)
              [("@type", VStr "Product"); ("offers", VArr [both_offer])]
              [both_offer])
    as ((items' & Hblock & Hlength & Hprice) & _).
  - reflexivity.
  - vm_compute. reflexivity.
  - reflexivity.
  - constructor; [exact I|constructor].
  - exists both_offer. split; [apply list_elem_of_here|reflexivity].
  - rewrite Hblock. destruct items' as [|offer' [|? ?]]; try discriminate Hlength.
    specialize (Hprice 0%nat _ eq_refl). cbn in Hprice. injection Hprice as ->.
    vm_compute. reflexivity.
Defined.

(** * Further properties of the pricing script *)

(** ** Price calculator *)

(** For instance at 37 percent: 11.97 a month and 114.91 a year. *)
Lemma calculatePrices_whole_percent_37 :
  (0 <= 37 <= 100)%Z /\ quote_matches_exact (H := browser) 37.
Proof.
  split; [lia|]. apply (calculatePrices_whole_percent (rt := browser) 37). lia.
Defined.

Lemma length_append (a b : string) :
  String.length (a ++ b) = (String.length a + String.length b)%nat.
Proof. induction a as [|c a IH]; [reflexivity|]. rewrite append_cons. simpl. by rewrite IH. Qed.

Lemma length_take_string (n : nat) (s : string) :
  String.length (take_string n s) = Nat.min n (String.length s).
Proof.
  revert s. induction n as [|n IH]; intros s; [reflexivity|].
  destruct s as [|c s]; [reflexivity|]. simpl. by rewrite IH.
Qed.

Lemma length_repeat_string (fill : string) (count : nat) :
  String.length (repeat_string fill count) = (count * String.length fill)%nat.
Proof.
  induction count as [|k IH]; [reflexivity|]. simpl. rewrite length_append, IH. lia.
Qed.

(** [padStart] fills up to the target length and never shortens. *)
Lemma length_padStart (n : nat) (fill s : string) :
  nonempty fill = true ->
  String.length (padStart n fill s) = Nat.max n (String.length s).
Proof.
  intros Hfill. unfold padStart, nonempty in *.
  destruct (String.eqb fill "") eqn:Hempty; [discriminate Hfill|].
  rewrite length_append, length_take_string, length_repeat_string.
  destruct fill as [|c fill]; [discriminate Hempty|]. simpl. nia.
Qed.

(** Whatever the percentage (fractional, negative, above 100, not a
    number), each cents string of the quote has at least two characters:
    the calculator pads short cents and lets long ones through. *)
Theorem calculatePrices_cents_at_least_two_chars {rt : Runtime} (pct : float) :
  (2 <= String.length (monthlyCents (calculatePrices pct)))%nat
  /\ (2 <= String.length (annualCents (calculatePrices pct)))%nat.
Proof.
  unfold calculatePrices. cbn [monthlyCents annualCents].
  rewrite !length_padStart by reflexivity. lia.
Qed.

(** Over the whole percentages from 0 to 100 a larger discount never gives
    a dearer monthly or annual price, and no price exceeds the base prices
    19.00 and 182.40 or falls below zero. *)
Theorem calculatePrices_monotone {rt : Runtime} (p q : Z) :
  (0 <= p)%Z -> (p <= q)%Z -> (q <= 100)%Z ->
  let a := calculatePrices (float_of_Z p) in
  let b := calculatePrices (float_of_Z q) in
  exists ma mb ya yb : Z,
    price_in_cents (monthly a) (monthlyCents a) = Some ma
    /\ price_in_cents (monthly b) (monthlyCents b) = Some mb
    /\ price_in_cents (annual a) (annualCents a) = Some ya
    /\ price_in_cents (annual b) (annualCents b) = Some yb
    /\ (0 <= mb <= ma)%Z /\ (ma <= 1900)%Z
    /\ (0 <= yb <= ya)%Z /\ (ya <= 18240)%Z.
Proof.
  intros Hp Hpq Hq.
  assert (Hall : forallb (fun i => forallb (fun j =>
                    not_dearer (Z.of_nat i) (Z.of_nat (i + j)))
                    (seq 0 (101 - i))) (seq 0 101) = true)
    by (vm_compute; reflexivity).
  rewrite forallb_forall in Hall.
  specialize (Hall (Z.to_nat p)). rewrite forallb_forall in Hall.
  specialize (Hall ltac:(apply in_seq; lia) (Z.to_nat (q - p))
                ltac:(apply in_seq; lia)).
  replace (Z.of_nat (Z.to_nat p + Z.to_nat (q - p))) with q in Hall by lia.
  rewrite Z2Nat.id in Hall by lia.
  unfold not_dearer in Hall. cbv zeta.
  destruct (price_in_cents (monthly _) _) as [ma|]; [|discriminate Hall].
  destruct (price_in_cents (monthly _) _) as [mb|]; [|discriminate Hall].
  destruct (price_in_cents (annual _) _) as [ya|]; [|discriminate Hall].
  destruct (price_in_cents (annual _) _) as [yb|]; [|discriminate Hall].
  exists ma, mb, ya, yb. repeat (split; [reflexivity|]).
  repeat (apply andb_prop in Hall as [Hall ?]). lia.
Qed.

(** From 10 to 50 percent: 17.10 and 164.16 come down to 9.50 and 91.20. *)
Lemma calculatePrices_monotone_10_50 :
  exists ma mb ya yb : Z,
    price_in_cents (monthly (calculatePrices (rt := browser) (float_of_Z 10)))
      (monthlyCents (calculatePrices (rt := browser) (float_of_Z 10))) = Some ma
    /\ price_in_cents (monthly (calculatePrices (rt := browser) (float_of_Z 50)))
         (monthlyCents (calculatePrices (rt := browser) (float_of_Z 50))) = Some mb
    /\ price_in_cents (annual (calculatePrices (rt := browser) (float_of_Z 10)))
         (annualCents (calculatePrices (rt := browser) (float_of_Z 10))) = Some ya
    /\ price_in_cents (annual (calculatePrices (rt := browser) (float_of_Z 50)))
         (annualCents (calculatePrices (rt := browser) (float_of_Z 50))) = Some yb
    /\ (0 <= mb <= ma)%Z /\ (ma <= 1900)%Z
    /\ (0 <= yb <= ya)%Z /\ (ya <= 18240)%Z.
Proof.
  apply (calculatePrices_monotone (rt := browser) 10 50); lia.
Defined.

(** ** Visibility *)

(** Hiding then showing always ends with the revealing rule in the style
    element, whether the element was on the page before or not; hiding
    keeps an element that is already there and so is idempotent; showing
    without the element does nothing. *)
Theorem hide_show_compose (d : Document) :
  showPrices (hidePrices d) = set_hideStyle (Some VISIBLE_RULE) d
  /\ hidePrices (hidePrices d) = hidePrices d
  /\ showPrices (showPrices d) = showPrices d
  /\ (is_Some (hideStyle d) -> hidePrices d = d)
  /\ (hideStyle d = None -> showPrices d = d).
Proof.
  unfold showPrices, hidePrices.
  destruct (hideStyle d) as [t|] eqn:H; simpl; rewrite ?H; simpl;
    repeat split; try reflexivity; try done.
Qed.

(** On the pricing page as served (no style element yet) showing alone
    changes nothing, and once hidden, hiding again changes nothing. *)
Lemma hide_show_compose_pricing_page :
  showPrices pricing_page = pricing_page
  /\ hidePrices (hidePrices pricing_page) = hidePrices pricing_page.
Proof.
  destruct (hide_show_compose pricing_page) as (_ & _ & _ & _ & Hshow).
  destruct (hide_show_compose (hidePrices pricing_page)) as (_ & _ & _ & Hhide & _).
  split; [exact (Hshow eq_refl)|]. apply Hhide. eexists. reflexivity.
Defined.

(** ** Cache and page load *)

Section CacheAndLoad.
Context {rt : Runtime}.

(** What resolving the discount data does, case by case. *)
Lemma resolveDiscountData_cases (net : Network) (w : World) :
  exists c,
    getCachedDiscountData w = (Normal c, w)
    /\ (truthy c = true -> resolveDiscountData net w = (Normal c, w))
    /\ (truthy c = false ->
        exists v w1,
          fetchParityDealsDiscount net w = (Normal v, w1)
          /\ resolveDiscountData net w =
             (Normal v, if truthy v then (cacheDiscountData v w1).2 else w1)).
Proof.
  destruct (getCachedDiscountData_run w) as [c Hc]. exists c.
  split; [exact Hc|]. unfold resolveDiscountData.
  rewrite (bind_normal _ _ _ _ _ Hc). split; intros Ht; rewrite Ht; cbn [negb].
  - reflexivity.
  - destruct (fetchParityDealsDiscount_run net w) as (v & w1 & Hf & _).
    exists v, w1. split; [exact Hf|].
    rewrite (bind_normal _ _ _ _ _ Hf). destruct (truthy v); [|reflexivity].
    destruct (cacheDiscountData_run v w1) as (w2 & Hw & _).
    rewrite (bind_normal _ _ _ _ _ Hw), Hw. reflexivity.
Qed.

(** After the data is resolved, a page load leaves storage alone. *)
Lemma init_storage_after_resolve (net : Network) (w : World) :
  hasPricingContent (document w) = true ->
  exists data w1,
    resolveDiscountData net (hidden w) = (Normal data, w1)
    /\ sessionStorage (init net w).2 = sessionStorage w1.
Proof.
  intros Hc.
  destruct (init_run net w Hc) as (data & w1 & w' & Hr & Hinit & _ & Hs & _).
  exists data, w1. split; [exact Hr|]. by rewrite Hinit.
Qed.

(** With session storage disabled nothing is cached and nothing is read
    from the cache, and neither fails.  Every load of a pricing page then
    sends one request, works from the response it fetched, and ends as a
    load with that response ends: normally, unless the percentage of the
    response cannot be converted. *)
Theorem storage_disabled_always_fetches (net : Network) (data : value) (w : World) :
  sessionStorage w = None ->
  cacheDiscountData data w = (Normal tt, w)
  /\ getCachedDiscountData w = (Normal VNull, w)
  /\ (hasPricingContent (document w) = true ->
      requests (init net w).2 = PARITY_DEALS_API :: requests w
      /\ sessionStorage (init net w).2 = None
      /\ exists fetched,
           (fetchParityDealsDiscount net (hidden w)).1 = Normal fetched
           /\ (init net w).1 = loadCompletion fetched
           /\ document (init net w).2 = loadedPage fetched (document w)).
Proof.
  intros Hs.
  assert (Hcache : forall w', sessionStorage w' = None ->
                   cacheDiscountData data w' = (Normal tt, w')).
  { intros w' Hs'. unfold cacheDiscountData, try_catch, mbind, M_bind, setItem.
    by rewrite Hs'. }
  assert (Hread : forall w', sessionStorage w' = None ->
                  getCachedDiscountData w' = (Normal VNull, w')).
  { intros w' Hs'. unfold getCachedDiscountData, try_catch, mbind, M_bind, getItem.
    by rewrite Hs'. }
  split; [by apply Hcache|]. split; [by apply Hread|].
  intros Hc.
  destruct (init_run net w Hc) as (v & w1 & w' & Hres & Hinit & Hreq & Hsto & Hdoc).
  destruct (resolveDiscountData_cases net (hidden w)) as (c & Hget & _ & Hmiss).
  rewrite (Hread (hidden w) Hs) in Hget. injection Hget as <-.
  destruct (Hmiss eq_refl) as (f & wf & Hf & Hres2).
  rewrite Hres in Hres2. injection Hres2 as -> ->.
  destruct (fetchParityDealsDiscount_run net (hidden w))
    as (f' & wf' & Hf' & _ & Hsf & Hrf & _).
  rewrite Hf in Hf'. injection Hf' as <- <-.
  rewrite Hinit. cbn [fst snd]. rewrite Hreq, Hsto.
  assert (Hafter : requests (if truthy f then (cacheDiscountData f wf).2 else wf)
                   = PARITY_DEALS_API :: requests w
                   /\ sessionStorage (if truthy f then (cacheDiscountData f wf).2 else wf)
                      = None).
  { destruct (truthy f).
    - destruct (cacheDiscountData_run f wf) as (w2 & Hw & _ & Hr2 & _ & Hs2).
      rewrite Hw. cbn [snd]. rewrite Hr2, Hs2, Hrf, Hsf. simpl. by rewrite Hs.
    - rewrite Hrf, Hsf. simpl. by rewrite Hs. }
  destruct Hafter as [-> ->]. split; [reflexivity|]. split; [reflexivity|].
  exists f. by rewrite Hf.
Qed.
End CacheAndLoad.

(** A private-mode visit that is served the 50% response: one request,
    nothing stored, and the discounted prices on the page. *)
Lemma storage_disabled_private_visit :
  requests (init (rt := browser) (serves india) private_visit).2 = [PARITY_DEALS_API]
  /\ sessionStorage (init (rt := browser) (serves india) private_visit).2 = None
  /\ (init (rt := browser) (serves india) private_visit).1 = Normal tt
  /\ tableCells (document (init (rt := browser) (serves india) private_visit).2)
     = ["Free"; "$9.50/mo"; "$91.20/yr"].
Proof.
  destruct (proj2 (proj2 (storage_disabled_always_fetches (rt := browser)
                            (serves india) india private_visit eq_refl)) eq_refl)
    as (Hreq & Hsto & fetched & Hfetched & Hend & Hpage).
  split; [exact Hreq|]. split; [exact Hsto|].
  assert (Hdata : fetched = india).
  { assert (Hrun : (fetchParityDealsDiscount (rt := browser) (serves india)
                      (hidden private_visit)).1 = Normal india)
      by (vm_compute; reflexivity).
    rewrite Hrun in Hfetched. by injection Hfetched. }
  rewrite Hend, Hpage, Hdata. split; vm_compute; reflexivity.
Defined.

Section CacheEdges.
Context {rt : Runtime}.

(** The value of a cache read depends on the storage and the clock only. *)
Lemma getCachedDiscountData_same_read (w1 w2 : World) :
  sessionStorage w1 = sessionStorage w2 -> now w1 = now w2 ->
  (getCachedDiscountData w1).1 = (getCachedDiscountData w2).1.
Proof.
  intros Hs Hn.
  unfold getCachedDiscountData, try_catch, mbind, M_bind, getItem, Date_now, gets,
    throw, mret, M_ret.
  rewrite Hs. destruct (sessionStorage w2) as [store|] eqn:Hs2; simpl; [|reflexivity].
  rewrite ?Hs, ?Hs2.
  destruct (store !! "parity_deals_discount") as [text|]; simpl; rewrite ?Hs, ?Hs2;
    destruct (store !! "parity_deals_timestamp") as [stamp|]; simpl; try reflexivity.
  destruct (nonempty text && nonempty stamp); simpl; [|reflexivity].
  rewrite Hn. destruct (parseInt stamp) as [t0|]; simpl; [|reflexivity].
  destruct (now w2 - t0 <? CACHE_DURATION_MS)%Z; simpl; [|reflexivity].
  by destruct (JSON_parse text).
Qed.

(** A cache read gives null, without failing and without touching
    anything, when either entry is missing or empty, when the time stamp
    does not start with a number, or when the stored response is not
    well-formed JSON. *)
Theorem getCachedDiscountData_null_on_bad_entry
  (w : World) (store : gmap string string) :
  sessionStorage w = Some store ->
  (store !! "parity_deals_discount" = None
   \/ store !! "parity_deals_timestamp" = None
   \/ store !! "parity_deals_discount" = Some ""
   \/ store !! "parity_deals_timestamp" = Some ""
   \/ (exists stamp, store !! "parity_deals_timestamp" = Some stamp
                     /\ parseInt stamp = None)
   \/ (exists text, store !! "parity_deals_discount" = Some text
                    /\ JSON_parse text = None)) ->
  getCachedDiscountData w = (Normal VNull, w).
Proof.
  intros Hs Hbad.
  unfold getCachedDiscountData, try_catch, mbind, M_bind, getItem, Date_now, gets,
    throw, mret, M_ret.
  rewrite Hs. simpl. rewrite ?Hs.
  destruct (store !! "parity_deals_discount") as [text|] eqn:Hd; simpl; rewrite ?Hs;
    destruct (store !! "parity_deals_timestamp") as [stamp|] eqn:Ht; simpl;
    try reflexivity.
  destruct (nonempty text && nonempty stamp) eqn:Hne; simpl; [|reflexivity].
  apply andb_prop in Hne as [Hne1 Hne2].
  destruct (parseInt stamp) as [t0|] eqn:Hp; simpl; [|reflexivity].
  destruct (now w - t0 <? CACHE_DURATION_MS)%Z; simpl; [|reflexivity].
  destruct (JSON_parse text) eqn:Hj; simpl; [|reflexivity].
  destruct Hbad as [H|[H|[H|[H|[(s & H & H')|(s & H & H')]]]]];
    try discriminate H; injection H as H; subst;
    try discriminate Hne1; try discriminate Hne2; congruence.
Qed.

(** Writing the cache sets exactly its two entries: the response text,
    and a time stamp that [parseInt] reads back as the time of writing;
    every other key of the storage is left as it was. *)
Theorem cacheDiscountData_entry_round_trip
  (data : value) (w : World) (store : gmap string string) :
  sessionStorage w = Some store ->
  exists store',
    sessionStorage (cacheDiscountData data w).2 = Some store'
    /\ store' !! "parity_deals_discount" = Some (JSON_stringify data)
    /\ (store' !! "parity_deals_timestamp") ≫= parseInt = Some (now w)
    /\ (forall key, key <> "parity_deals_discount" ->
                    key <> "parity_deals_timestamp" ->
                    store' !! key = store !! key).
Proof.
  intros Hs.
  destruct (cacheDiscountData_run data w) as (w' & Hrun & _ & _ & _ & Hsto).
  rewrite Hrun. cbn [snd]. rewrite Hsto, Hs. eexists. split; [reflexivity|].
  split; [|split].
  - rewrite lookup_insert_ne by done. by rewrite lookup_insert_eq.
  - rewrite lookup_insert_eq. simpl. apply parseInt_Z_toString.
  - intros key H1 H2. by rewrite !lookup_insert_ne.
Qed.

(** A response without a percentage, or with a falsy one (0, the empty
    string, null), and without flags gives the percentage [parseFloat]
    reads from the text 0. *)
Theorem determineDiscount_default_percentage (data : value) (w : World) :
  truthy data = true ->
  flagged data = false ->
  truthy (default VUndefined (get_prop data "discountPercentage")) = false ->
  (determineDiscount data w).1 = Normal (parseFloat_string "0").
Proof.
  intros Hd Hf Hp. unfold determineDiscount.
  rewrite (bind_normal _ _ _ _ _ (proj1 (prop_truthy data "isVpn" w Hd))).
  rewrite (bind_normal _ _ _ _ _ (proj1 (prop_truthy data "isProxy" w Hd))).
  rewrite (bind_normal _ _ _ _ _ (proj1 (prop_truthy data "isTor" w Hd))).
  unfold flagged in Hf. rewrite Hf.
  rewrite (bind_normal _ _ _ _ _ (proj1 (prop_truthy data "discountPercentage" w Hd))).
  unfold js_or. rewrite Hp.
  change (parseFloat (VNum 0)) with (Some (parseFloat_string "0")).
  rewrite (bind_normal _ _ w w (parseFloat_string "0")) by reflexivity.
  by destruct (PrimFloat.eqb (parseFloat_string "0") 0).
Qed.

(** A page load sends at most one request, and on a page without pricing
    content it does nothing at all.  On a page with pricing content it
    ends normally or with the [TypeError] of a conversion, and with the
    latter exactly when the response it resolved is truthy, carries no
    flag, and has a percentage that cannot be converted to a string. *)
Theorem init_at_most_one_request (net : Network) (w : World) :
  (requests (init net w).2 = requests w
   \/ requests (init net w).2 = PARITY_DEALS_API :: requests w)
  /\ (hasPricingContent (document w) = false -> init net w = (Normal tt, w))
  /\ (hasPricingContent (document w) = true ->
      exists data,
        (resolveDiscountData net (hidden w)).1 = Normal data
        /\ ((init net w).1 = Normal tt \/ (init net w).1 = Throw CANNOT_CONVERT)
        /\ ((init net w).1 = Throw CANNOT_CONVERT <->
            truthy data = true /\ flagged data = false
            /\ parseFloat (js_or (default VUndefined
                                     (get_prop data "discountPercentage"))
                                  (VNum 0)) = None)).
Proof.
  destruct (hasPricingContent (document w)) eqn:Hc.
  - destruct (init_run net w Hc) as (v & w1 & w' & Hres & Hinit & Hreq & _).
    rewrite Hinit. cbn [fst snd]. split; [|split; [discriminate|]].
    + rewrite Hreq.
      destruct (resolveDiscountData_run net (hidden w))
        as (v' & w1' & Hres' & _ & Hcases).
      rewrite Hres in Hres'. injection Hres' as <- <-.
      destruct (getCachedDiscountData_run (hidden w)) as [c Hget].
      specialize (Hcases c Hget). destruct (truthy c).
      * destruct Hcases as [_ ->]. by left.
      * right. exact Hcases.
    + intros _. exists v. rewrite Hres. split; [reflexivity|].
      unfold loadCompletion, discountOf.
      destruct (truthy v); [|split; [by left|]; split; [discriminate|by intros [? _]]].
      destruct (flagged v);
        [split; [by left|]; split; [discriminate|by intros (_ & ? & _)]|].
      destruct (parseFloat _).
      * split; [by left|]. split; [discriminate|by intros (_ & _ & ?)].
      * split; [by right|]. done.
  - unfold init.
    rewrite (bind_normal _ _ w w (hasPricingContent (document w))) by reflexivity.
    rewrite Hc. cbn. split; [by left|]. split; [reflexivity|discriminate].
Qed.

(** A page load writes to storage only after a fetch that gave a truthy
    response.  A cache hit sends no request and leaves the stored entry
    and its time stamp as they are, so the hour counts from the fetch, not
    from the last use; a fetch that gave nothing is not cached. *)
Theorem init_storage_unchanged_unless_fetched (net : Network) (w : World) (c : value) :
  hasPricingContent (document w) = true ->
  getCachedDiscountData w = (Normal c, w) ->
  (truthy c = true ->
     sessionStorage (init net w).2 = sessionStorage w
     /\ requests (init net w).2 = requests w)
  /\ (truthy c = false ->
      forall v w1, fetchParityDealsDiscount net (hidden w) = (Normal v, w1) ->
                   truthy v = false ->
                   sessionStorage (init net w).2 = sessionStorage w).
Proof.
  intros Hc Hget.
  assert (Hget' : getCachedDiscountData (hidden w) = (Normal c, hidden w)).
  { destruct (getCachedDiscountData_run (hidden w)) as [c' Hc'].
    pose proof (getCachedDiscountData_same_read (hidden w) w eq_refl eq_refl) as Hsame.
    rewrite Hc', Hget in Hsame. simpl in Hsame. by injection Hsame as ->. }
  destruct (init_run net w Hc) as (v & w1 & w' & Hres & Hinit & Hreq & Hsto & _).
  rewrite Hinit. cbn [snd]. rewrite Hsto, Hreq.
  destruct (resolveDiscountData_cases net (hidden w)) as (c' & Hget2 & Hhit & Hmiss).
  rewrite Hget' in Hget2. injection Hget2 as <-.
  split; intros Ht.
  - rewrite (Hhit Ht) in Hres. injection Hres as <- <-. done.
  - intros f wf Hf Hfalsy. destruct (Hmiss Ht) as (f' & wf' & Hf' & Hres2).
    rewrite Hf in Hf'. injection Hf' as <- <-.
    rewrite Hres in Hres2. injection Hres2 as -> ->. rewrite Hfalsy.
    destruct (fetchParityDealsDiscount_run net (hidden w)) as (f' & wf' & Hf' & _ & Hsf & _).
    rewrite Hf in Hf'. injection Hf' as <- <-. exact Hsf.
Qed.
End CacheEdges.

(** A stored time stamp that is not a number makes the cache read give
    null although a response is stored. *)
Lemma getCachedDiscountData_tampered_stamp :
  getCachedDiscountData (rt := browser) tampered_visit = (Normal VNull, tampered_visit).
Proof.
  refine (getCachedDiscountData_null_on_bad_entry (rt := browser) tampered_visit _
            eq_refl _).
  right; right; right; right; left. exists "yesterday". split; reflexivity.
Defined.

(** On the first visit the two entries are written and the stamp reads
    back as the time of the visit. *)
Lemma cacheDiscountData_first_visit :
  exists store',
    sessionStorage (cacheDiscountData (rt := browser) india first_visit).2 = Some store'
    /\ store' !! "parity_deals_discount" = Some (sample_stringify india)
    /\ (store' !! "parity_deals_timestamp") ≫= parseInt = Some 1700000000000%Z
    /\ (forall key, key <> "parity_deals_discount" ->
                    key <> "parity_deals_timestamp" ->
                    store' !! key = (∅ : gmap string string) !! key).
Proof.
  exact (cacheDiscountData_entry_round_trip (rt := browser) india first_visit ∅ eq_refl).
Defined.

(** A response that names a country only gives the percentage 0. *)
Lemma determineDiscount_no_percentage :
  (determineDiscount (rt := browser) no_percentage first_visit).1 = Normal 0%float.
Proof.
  exact (determineDiscount_default_percentage (rt := browser) no_percentage first_visit
           eq_refl eq_refl eq_refl).
Defined.

(** A return visit within the hour keeps the stored entry and sends
    nothing. *)
Lemma init_return_visit_keeps_storage :
  sessionStorage (init (rt := browser) offline (return_visit 1000)).2
  = sessionStorage (return_visit 1000)
  /\ requests (init (rt := browser) offline (return_visit 1000)).2 = [].
Proof.
  refine (proj1 (init_storage_unchanged_unless_fetched (rt := browser) offline
                   (return_visit 1000) india eq_refl _) eq_refl).
  vm_compute. reflexivity.
Defined.

Section TwoLoads.
Context {rt : Runtime}.

(** Two page loads in a row: when the first finds no cached response and
    its fetch succeeds with a truthy response, a second load that starts
    less than one hour after that fetch settled resolves the same response
    from the cache and sends no request. *)
Theorem init_second_load_reuses_fetched
  (net1 net2 : Network) (w w2 : World) (c data : value) (st : Z) (text : string) :
  hasPricingContent (document w) = true ->
  is_Some (sessionStorage w) ->
  getCachedDiscountData w = (Normal c, w) ->
  truthy c = false ->
  outcome net1 = FetchResponse st (Some text) ->
  (200 <= st <= 299)%Z ->
  JSON_parse text = Some data ->
  truthy data = true ->
  JSON_parse (JSON_stringify data) = Some data ->
  nonempty (JSON_stringify data) = true ->
  sessionStorage w2 = sessionStorage (init net1 w).2 ->
  hasPricingContent (document w2) = true ->
  (now w2 - (now w + latency net1) < CACHE_DURATION_MS)%Z ->
  (resolveDiscountData net2 (hidden w2)).1 = Normal data
  /\ requests (init net2 w2).2 = requests w2.
Proof.
  intros Hc [store Hs] Hget Hmiss Hout Hst Hparse Htruthy Hrt Hne Hs2 Hc2 Hage.
  (* the first load *)
  destruct (init_storage_after_resolve net1 w Hc) as (v & w1 & Hres & Hsto).
  destruct (resolveDiscountData_cases net1 (hidden w)) as (c' & Hget' & _ & Hfetch).
  pose proof (getCachedDiscountData_same_read (hidden w) w eq_refl eq_refl) as Hsame.
  rewrite Hget', Hget in Hsame. simpl in Hsame. injection Hsame as ->.
  destruct (Hfetch Hmiss) as (f & wf & Hf & Hres').
  rewrite Hres in Hres'. injection Hres' as -> ->.
  destruct (fetchParityDealsDiscount_run net1 (hidden w))
    as (f' & wf' & Hf' & Hnow & Hsf & _ & _ & Hval).
  rewrite Hf in Hf'. injection Hf' as <- <-.
  rewrite Hout in Hval.
  replace ((200 <=? st)%Z && (st <=? 299)%Z) with true in Hval
    by (symmetry; apply andb_true_intro; split; apply Z.leb_le; lia).
  rewrite Hparse in Hval. simpl in Hval. subst f. rewrite Htruthy in Hsto.
  destruct (cacheDiscountData_run data wf) as (w3 & Hw & _ & _ & _ & Hstored).
  rewrite Hw in Hsto. cbn [snd] in Hsto.
  rewrite Hsto, Hstored, Hsf in Hs2. change (sessionStorage (hidden w)) with
    (sessionStorage w) in Hs2. rewrite Hs in Hs2. simpl in Hs2.
  change (now (hidden w)) with (now w) in Hnow.
  (* the second load *)
  assert (Hread : getCachedDiscountData (hidden w2) = (Normal data, hidden w2)).
  { rewrite (getCachedDiscountData_stored (hidden w2) _ (JSON_stringify data) (now wf) Hs2).
    - change (now (hidden w2)) with (now w2). rewrite Hnow.
      apply Z.ltb_lt in Hage. by rewrite Hage, Hrt.
    - rewrite lookup_insert_ne by done. by rewrite lookup_insert_eq.
    - by rewrite lookup_insert_eq.
    - exact Hne. }
  destruct (resolveDiscountData_cases net2 (hidden w2)) as (c2 & Hget2 & Hhit & _).
  rewrite Hread in Hget2. injection Hget2 as <-.
  specialize (Hhit Htruthy).
  destruct (init_run net2 w2 Hc2) as (v2 & w4 & w' & Hres2 & Hinit & Hreq & _).
  rewrite Hhit in Hres2. injection Hres2 as <- <-.
  rewrite Hhit, Hinit. cbn [fst snd]. by rewrite Hreq.
Qed.
End TwoLoads.

(** The first visit fetches the 50% response; a second visit one second
    later, even offline, resolves it from the cache without a request. *)
Lemma init_second_visit_offline :
  (resolveDiscountData (rt := browser) offline (hidden (second_visit 1000))).1
  = Normal india
  /\ requests (init (rt := browser) offline (second_visit 1000)).2 = [].
Proof.
  refine (init_second_load_reuses_fetched (rt := browser) (serves india) offline
            first_visit (second_visit 1000) VNull india 200 (sample_stringify india)
            eq_refl _ _ eq_refl eq_refl _ _ eq_refl _ eq_refl eq_refl eq_refl _).
  - eexists. reflexivity.
  - vm_compute. reflexivity.
  - lia.
  - vm_compute. reflexivity.
  - vm_compute. reflexivity.
  - vm_compute. reflexivity.
Defined.

(** ** Display updater *)

Section Display.
Context {rt : Runtime}.

(** The display update rewrites what is on the page and nothing else: it
    neither adds nor removes a card, a price element, a table cell or a
    script block, leaves styles and banners alone, does not look at the
    response it is given, and leaves a table cell without a dollar amount
    of 19 or 182 as it is. *)
Theorem updatePriceDisplay_keeps_page_shape
  (prices : PriceQuote) (data data' : value) (d : Document) :
  let d' := updatePriceDisplay prices data d in
  updatePriceDisplay prices data' d = d'
  /\ (is_Some (plusCard d') <-> is_Some (plusCard d))
  /\ (is_Some (plusAmount d') <-> is_Some (plusAmount d))
  /\ (is_Some (plusAnnualStrong d') <-> is_Some (plusAnnualStrong d))
  /\ (is_Some (homePlusCard d') <-> is_Some (homePlusCard d))
  /\ (is_Some (homeAmount d') <-> is_Some (homeAmount d))
  /\ (is_Some (homeAnnualSpan d') <-> is_Some (homeAnnualSpan d))
  /\ length (tableCells d') = length (tableCells d)
  /\ length (schemaScripts d') = length (schemaScripts d)
  /\ hideStyle d' = hideStyle d /\ keyframesStyle d' = keyframesStyle d
  /\ banners d' = banners d
  /\ hasPricingContent d' = hasPricingContent d
  /\ (forall i text, tableCells d !! i = Some text ->
        includes "$19" text = false -> includes "$182" text = false ->
        tableCells d' !! i = Some text).
Proof.
  cbv zeta. split; [reflexivity|].
  unfold updatePriceDisplay, updateSchemaOrg, hasPricingContent,
    plusAmount, plusAnnualStrong, homeAmount, homeAnnualSpan. cbn.
  rewrite !length_map.
  destruct (plusCard d) as [[amount strong]|]; cbn;
    destruct (homePlusCard d) as [[amount' span]|]; cbn;
    try destruct amount; try destruct strong; try destruct amount';
    try destruct span as [[?|]|]; cbn;
    (repeat split; try reflexivity; try done;
     try (intros [? ?]; done); try (intros _; by eexists)).
  all: intros i text Hi H19 H182; rewrite list_lookup_fmap, Hi; cbn;
    unfold updateCell; by rewrite H19, H182.
Qed.
End Display.

(** On the pricing page the cell without an amount stays as it is. *)
Lemma updatePriceDisplay_free_cell :
  tableCells (updatePriceDisplay (rt := browser) (calculatePrices (rt := browser) 50)
                india pricing_page) !! 0%nat = Some "Free".
Proof.
  destruct (updatePriceDisplay_keeps_page_shape (rt := browser)
              (calculatePrices (rt := browser) 50) india india pricing_page)
    as (_ & _ & _ & _ & _ & _ & _ & _ & _ & _ & _ & _ & _ & Hcell).
  exact (Hcell 0%nat "Free" eq_refl eq_refl eq_refl).
Defined.

(** ** Structured data: what is left alone *)

Lemma fields_get_set_other (k k' : string) (v : value) (fields : list (string * value)) :
  k <> k' -> fields_get k (fields_set k' v fields) = fields_get k fields.
Proof.
  intros Hne. induction fields as [|[k0 v0] rest IH]; simpl.
  - by rewrite (proj2 (String.eqb_neq k k') Hne).
  - destruct (String.eqb k' k0) eqn:Hk'; simpl.
    + apply String.eqb_eq in Hk' as <-.
      by rewrite (proj2 (String.eqb_neq k k') Hne).
    + destruct (String.eqb k k0); [reflexivity|exact IH].
Qed.


Section SchemaEdges.
Context {rt : Runtime}.

Lemma patchOffer_passed_over (prices : PriceQuote) (offer : value) :
  passed_over offer -> patchOffer prices offer = Some (offer, false).
Proof.
  destruct offer as [| | | | | |fields]; try done. unfold passed_over, patchOffer.
  cbn [get_prop mbind option_bind].
  destruct (fields_get "name" fields) as [name|]; cbn [default]; unfold id.
  - destruct name as [| |b|n|s|l|f]; intros H.
    + reflexivity.
    + reflexivity.
    + simpl in H. subst b. reflexivity.
    + unfold name_includes. rewrite H. reflexivity.
    + destruct H as [Hm Hy].
      assert (Hinc : forall c needle, name_includes (VStr s) (String c needle)
                                     = Some (includes (String c needle) s)).
      { intros c needle. unfold name_includes, truthy. by destruct s. }
      rewrite (Hinc "M"%char "onthly"), Hm. cbn [mbind option_bind].
      rewrite (Hinc "Y"%char "early"), Hy. reflexivity.
    + discriminate H.
    + discriminate H.
  - intros _. reflexivity.
Qed.

Lemma patchOffers_passed_over (prices : PriceQuote) (offers : list value) :
  Forall passed_over offers -> patchOffers prices offers = Some (offers, false).
Proof.
  induction 1 as [|offer rest Hoffer _ IH]; [reflexivity|].
  cbn [patchOffers]. rewrite (patchOffer_passed_over _ _ Hoffer). cbn.
  rewrite IH. reflexivity.
Qed.

Lemma patchOffers_null (prices : PriceQuote) (offers : list value) :
  VNull ∈ offers -> patchOffers prices offers = None.
Proof.
  induction offers as [|offer rest IH]; intros Hin.
  - by apply elem_of_nil in Hin.
  - apply elem_of_cons in Hin as [<-|Hin]; [reflexivity|].
    cbn [patchOffers]. destruct (patchOffer prices offer) as [[o m]|]; [|reflexivity].
    cbn. by rewrite (IH Hin).
Qed.

(** A script block stays exactly as it is, character for character, when
    its text is not well-formed JSON, when it has no array of offers, when
    none of its offers is named after a billing period, and also when one
    of its offers is null: the error that raises discards the prices
    already put into the other offers of the block. *)
Theorem updateSchemaOrg_leaves_block (prices : PriceQuote) (text : string) :
  (JSON_parse text = None
   \/ (exists schema, JSON_parse text = Some schema
                      /\ forall items, get_prop schema "offers" <> Some (VArr items))
   \/ (exists fields items,
         JSON_parse text = Some (VObj fields)
         /\ fields_get "offers" fields = Some (VArr items)
         /\ (VNull ∈ items \/ Forall passed_over items))) ->
  forall d i, schemaScripts d !! i = Some text ->
              schemaScripts (updateSchemaOrg prices d) !! i = Some text.
Proof.
  intros Hcase d i Hd. unfold updateSchemaOrg. cbn.
  rewrite list_lookup_fmap, Hd. cbn. f_equal.
  unfold patchSchemaText.
  destruct Hcase as [Hbad|[(schema & Hp & Hno)|(fields & items & Hp & Hoff & Hitems)]].
  - by rewrite Hbad.
  - rewrite Hp. cbn. destruct (get_prop schema "offers") as [offers|] eqn:Hg; cbn;
      [|reflexivity].
    destruct schema; try reflexivity. destruct offers; try reflexivity.
    by destruct (Hno items).
  - rewrite Hp. cbn. rewrite Hoff. cbn. destruct Hitems as [Hnull|Hpass].
    + by rewrite (patchOffers_null _ _ Hnull).
    + by rewrite (patchOffers_passed_over _ _ Hpass).
Qed.

(** Patching the offers of a block keeps their number and order, and in
    every offer every property other than the price; when nothing was
    modified the offers are the same. *)
Theorem patchOffers_keeps_other_properties
  (prices : PriceQuote) (offers offers' : list value) (modified : bool) :
  patchOffers prices offers = Some (offers', modified) ->
  length offers' = length offers
  /\ (forall i offer offer' key,
        offers !! i = Some offer -> offers' !! i = Some offer' ->
        key <> "price" -> get_prop offer' key = get_prop offer key)
  /\ (modified = false -> offers' = offers).
Proof.
  assert (Hone : forall offer offer' m,
            patchOffer prices offer = Some (offer', m) ->
            (forall key, key <> "price" -> get_prop offer' key = get_prop offer key)
            /\ (m = false -> offer' = offer)).
  { intros offer offer' m. unfold patchOffer.
    destruct (get_prop offer "name") as [name|]; cbn; [|discriminate].
    assert (Hset : forall t o, set_price offer t = Some o ->
                   forall key, key <> "price" -> get_prop o key = get_prop offer key).
    { intros t o Hs key Hk. destruct offer; try discriminate Hs;
        injection Hs as <-; [reflexivity|].
      cbn. by rewrite fields_get_set_other. }
    destruct (name_includes name "Monthly") as [[|]|]; cbn; [| |discriminate].
    - destruct (set_price offer _) as [o|] eqn:Hs; cbn; [|discriminate].
      intros [= <- <-]. split; [by eapply Hset|discriminate].
    - destruct (name_includes name "Yearly") as [[|]|]; cbn; [| |discriminate].
      + destruct (set_price offer _) as [o|] eqn:Hs; cbn; [|discriminate].
        intros [= <- <-]. split; [by eapply Hset|discriminate].
      + intros [= <- <-]. done. }
  revert offers' modified. induction offers as [|offer rest IH]; intros offers' modified.
  - intros [= <- <-]. repeat split; done.
  - cbn [patchOffers].
    destruct (patchOffer prices offer) as [[o m1]|] eqn:H1; cbn; [|discriminate].
    destruct (patchOffers prices rest) as [[rest' m2]|] eqn:H2; cbn; [|discriminate].
    intros [= <- <-]. destruct (IH _ _ eq_refl) as (Hlen & Hkeep & Hsame).
    destruct (Hone _ _ _ H1) as [Hk1 Hs1].
    split; [cbn; by rewrite Hlen|]. split.
    + intros [|i] a b key; cbn.
      * intros [= <-] [= <-]. apply Hk1.
      * apply Hkeep.
    + intros Hm. apply orb_false_iff in Hm as [-> ->].
      by rewrite Hs1, Hsame.
Qed.
End SchemaEdges.

(** A block whose second offer is null is left alone although its first
    offer is a monthly one. *)
Lemma updateSchemaOrg_null_offer_example :
  schemaScripts
    (updateSchemaOrg (rt := browser2) (calculatePrices (rt := browser2) 50)
       (set_schemaScripts [sample_stringify broken_schema] pricing_page)) !! 0%nat
  = Some (sample_stringify broken_schema).
Proof.
  refine (updateSchemaOrg_leaves_block (rt := browser2) _ _ _
            (set_schemaScripts [sample_stringify broken_schema] pricing_page)
            0%nat eq_refl).
  right; right. eexists _, _. split; [vm_compute; reflexivity|].
  split; [reflexivity|]. left. apply list_elem_of_In. simpl. tauto.
Defined.

(** In the sample product the patched offer keeps its type and name. *)
Lemma patchOffers_sample_keeps_name :
  get_prop (VObj [("@type", VStr "Offer"); ("name", VStr "PLUS Monthly or Yearly");
                  ("price", VStr "9")]) "name"
  = get_prop both_offer "name".
Proof.
  refine (proj1 (proj2 (patchOffers_keeps_other_properties (rt := browser)
            (calculatePrices (rt := browser) 50) [both_offer]
            [VObj [("@type", VStr "Offer"); ("name", VStr "PLUS Monthly or Yearly");
                   ("price", VStr "9")]] true _))
            0%nat _ _ "name" eq_refl eq_refl _).
  - vm_compute. reflexivity.
  - discriminate.
Defined.

(** ** Banner *)

Section BannerProps.
Context {rt : Runtime}.

(** [showRegionalBanner] returns at once, changing nothing, for a response
    whose percentage is missing or falsy, or can be converted to a string
    that reads as the number 0. *)
Theorem showRegionalBanner_nothing_without_discount
  (data : value) (prices : PriceQuote) (w : World) :
  truthy data = true ->
  (truthy (default VUndefined (get_prop data "discountPercentage")) = false
   \/ exists x,
        parseFloat (default VUndefined (get_prop data "discountPercentage")) = Some x
        /\ PrimFloat.eqb x 0 = true) ->
  showRegionalBanner data prices w = (Normal tt, w).
Proof.
  intros Hd Hzero. unfold showRegionalBanner.
  rewrite (bind_normal _ _ _ _ _ (proj1 (prop_truthy data "discountPercentage" w Hd))).
  destruct (truthy (default VUndefined (get_prop data "discountPercentage")));
    [|reflexivity].
  destruct Hzero as [?|(x & Hx & Hz)]; [done|]. cbn [negb].
  rewrite Hx. rewrite (bind_normal _ _ w w x) by reflexivity. by rewrite Hz.
Qed.

(** For a response with a percentage other than 0 whose texts can all be
    converted, [showRegionalBanner] completes normally and puts exactly one
    banner, with the markup of lines 204-205, on a page with pricing
    content: after the pricing hero when there is one and else first in
    the pricing section; on a page without pricing content no banner is
    inserted.  The animation style is installed unless one is there, and
    prices, table cells, scripts and the hiding style are not touched.
    When the percentage, or a text of the banner, cannot be converted, the
    call ends with the [TypeError] and nothing is changed. *)
Theorem showRegionalBanner_inserts_one
  (data : value) (prices : PriceQuote) (w : World) :
  truthy data = true ->
  truthy (default VUndefined (get_prop data "discountPercentage")) = true ->
  let percentage := default VUndefined (get_prop data "discountPercentage") in
  let w' := (showRegionalBanner data prices w).2 in
  let d := document w in
  let d' := document w' in
  (forall x html,
     parseFloat percentage = Some x -> PrimFloat.eqb x 0 = false ->
     bannerHtml data = Some html ->
     (showRegionalBanner data prices w).1 = Normal tt
     /\ (exists banner,
           banners d' = ((if hasPricingContent d then [banner] else []) ++ banners d)%list
           /\ b_className banner = "regional-pricing-banner"
           /\ b_innerHTML banner = html
           /\ b_place banner =
              (if pricingHero d then AfterPricingHero else FirstInPricingSection))
     /\ keyframesStyle d' = Some (default KEYFRAMES (keyframesStyle d))
     /\ plusCard d' = plusCard d /\ homePlusCard d' = homePlusCard d
     /\ tableCells d' = tableCells d /\ schemaScripts d' = schemaScripts d
     /\ hideStyle d' = hideStyle d
     /\ sessionStorage w' = sessionStorage w /\ requests w' = requests w)
  /\ ((parseFloat percentage = None
       \/ exists x, parseFloat percentage = Some x /\ PrimFloat.eqb x 0 = false
                    /\ bannerHtml data = None) ->
      showRegionalBanner data prices w = (Throw CANNOT_CONVERT, w)).
Proof.
  intros Hd Hp. cbv zeta. unfold showRegionalBanner.
  rewrite (bind_normal _ _ _ _ _ (proj1 (prop_truthy data "discountPercentage" w Hd))).
  rewrite Hp. cbn [negb]. split.
  - intros x html Hx Hnz Hhtml.
    rewrite Hx. rewrite (bind_normal _ _ w w x) by reflexivity. rewrite Hnz, Hhtml.
    rewrite (bind_normal _ _ w w html) by reflexivity.
    unfold with_document, modify. cbn [fst snd document sessionStorage requests].
    split; [reflexivity|].
    set (d1 := match keyframesStyle (document w) with
               | Some _ => document w
               | None => set_keyframesStyle (Some KEYFRAMES) (document w)
               end).
    assert (Hd1 : d1 = set_keyframesStyle
                         (Some (default KEYFRAMES (keyframesStyle (document w))))
                         (document w)).
    { subst d1. destruct (document w) as [? ? ? ? ? ? ? k ?]. by destruct k. }
    rewrite Hd1. clear Hd1 d1.
    change (hasPricingContent (set_keyframesStyle ?k ?d)) with (hasPricingContent d).
    change (pricingHero (set_keyframesStyle ?k ?d)) with (pricingHero d).
    destruct (pricingHero (document w)) eqn:Hh.
    + assert (Hc : hasPricingContent (document w) = true).
      { unfold hasPricingContent. rewrite Hh. by rewrite !orb_true_r. }
      rewrite Hc. split; [eexists; split; [reflexivity|]; repeat split; reflexivity|].
      repeat split; reflexivity.
    + destruct (hasPricingContent (document w)).
      * split; [eexists; split; [reflexivity|]; repeat split; reflexivity|].
        repeat split; reflexivity.
      * split; [exists {| b_place := FirstInPricingSection;
                          b_className := "regional-pricing-banner";
                          b_innerHTML := html |}; split; [reflexivity|];
                repeat split; reflexivity|].
        repeat split; reflexivity.
  - intros [Hx|(x & Hx & Hnz & Hhtml)]; rewrite Hx; [reflexivity|].
    rewrite (bind_normal _ _ w w x) by reflexivity. by rewrite Hnz, Hhtml.
Qed.

(** The banner does not look at the VPN, proxy and Tor flags: two
    responses that agree on percentage, message, flag emoji and country
    get the same banner. *)
Theorem showRegionalBanner_ignores_flags
  (data data' : value) (prices prices' : PriceQuote) (w : World) :
  truthy data = true -> truthy data' = true ->
  (forall key, key ∈ ["discountPercentage"; "countryFlag"; "messageText"; "country"] ->
               get_prop data key = get_prop data' key) ->
  showRegionalBanner data prices w = showRegionalBanner data' prices' w.
Proof.
  intros Hd Hd' Hsame. unfold showRegionalBanner.
  rewrite (bind_normal _ _ _ _ _ (proj1 (prop_truthy data "discountPercentage" w Hd))).
  rewrite (bind_normal _ _ _ _ _ (proj1 (prop_truthy data' "discountPercentage" w Hd'))).
  assert (Hhtml : bannerHtml data = bannerHtml data').
  { unfold bannerHtml.
    by rewrite (Hsame "discountPercentage"), (Hsame "countryFlag"),
      (Hsame "messageText"), (Hsame "country") by set_solver. }
  rewrite (Hsame "discountPercentage"), Hhtml by set_solver. reflexivity.
Qed.
End BannerProps.

(** A response that names a country only gets no banner. *)
Lemma showRegionalBanner_no_percentage :
  showRegionalBanner (rt := browser) no_percentage
    (calculatePrices (rt := browser) 0) first_visit = (Normal tt, first_visit).
Proof.
  refine (showRegionalBanner_nothing_without_discount (rt := browser) no_percentage
            _ first_visit eq_refl _).
  left. reflexivity.
Defined.

(** The 50% response gets one banner after the pricing hero. *)
Lemma showRegionalBanner_india :
  exists banner,
    banners (document (showRegionalBanner (rt := browser) india
                         (calculatePrices (rt := browser) 50) first_visit).2)
    = [banner]
    /\ b_className banner = "regional-pricing-banner"
    /\ b_innerHTML banner
       = "<span class=" ++ dq ++ "country-flag" ++ dq ++ "></span> "
         ++ "<span class=" ++ dq ++ "discount-text" ++ dq ++ ">50% OFF for India</span>"
    /\ b_place banner = AfterPricingHero.
Proof.
  refine (proj1 (proj2 (proj1 (showRegionalBanner_inserts_one (rt := browser) india
                                 (calculatePrices (rt := browser) 50) first_visit
                                 eq_refl eq_refl) 50%float _ _ eq_refl _))).
  - vm_compute. reflexivity.
  - vm_compute. reflexivity.
Defined.

(** With and without the three flags set the banner is the same. *)
Lemma showRegionalBanner_flagged_same :
  showRegionalBanner (rt := browser) india_flagged_message
    (calculatePrices (rt := browser) 0) first_visit
  = showRegionalBanner (rt := browser) india_message
      (calculatePrices (rt := browser) 50) first_visit.
Proof.
  refine (showRegionalBanner_ignores_flags (rt := browser) india_flagged_message
            india_message _ _ first_visit eq_refl eq_refl _).
  intros key Hkey. apply list_elem_of_In in Hkey. simpl in Hkey.
  destruct Hkey as [<-|[<-|[<-|[<-|[]]]]]; reflexivity.
Defined.

(** * Properties of the schema patcher *)

(** ** Texts *)

Lemma take_drop_string (n : nat) (s : string) :
  take_string n s ++ drop_string n s = s.
Proof.
  revert s. induction n as [|n IH]; intros [|c s]; try reflexivity.
  cbn [take_string drop_string]. rewrite append_cons. by rewrite IH.
Qed.

Lemma length_drop_string (n : nat) (s : string) :
  String.length (drop_string n s) = (String.length s - n)%nat.
Proof.
  revert s. induction n as [|n IH]; intros [|c s]; try reflexivity. simpl. apply IH.
Qed.

Lemma drop_drop_string (n m : nat) (s : string) :
  drop_string m (drop_string n s) = drop_string (n + m) s.
Proof.
  revert s. induction n as [|n IH]; intros s; [reflexivity|].
  destruct s as [|c s]; [by destruct m|]. simpl. apply IH.
Qed.

Lemma take_add_string (n m : nat) (s : string) :
  take_string (n + m) s = take_string n s ++ take_string m (drop_string n s).
Proof.
  revert s. induction n as [|n IH]; intros s; [reflexivity|].
  destruct s as [|c s]; [by destruct m|].
  cbn [Nat.add take_string drop_string]. rewrite append_cons. by rewrite IH.
Qed.

Lemma take_app_string (a b : string) (n : nat) :
  take_string (String.length a + n) (a ++ b) = a ++ take_string n b.
Proof.
  induction a as [|c a IH]; [reflexivity|].
  rewrite !append_cons. cbn [String.length Nat.add take_string]. by rewrite IH.
Qed.

Lemma drop_app_string (a b : string) (n : nat) :
  drop_string (String.length a + n) (a ++ b) = drop_string n b.
Proof.
  induction a as [|c a IH]; [reflexivity|].
  rewrite append_cons. cbn [String.length Nat.add drop_string]. exact IH.
Qed.

Lemma take_all_string (n : nat) (s : string) :
  (String.length s <= n)%nat -> take_string n s = s.
Proof.
  revert s. induction n as [|n IH]; intros [|c s] H; try reflexivity.
  - simpl in H. lia.
  - simpl in *. rewrite IH; [reflexivity|lia].
Qed.

Lemma append_empty_r (s : string) : s ++ "" = s.
Proof. induction s as [|c s IH]; [reflexivity|]. rewrite append_cons. by rewrite IH. Qed.

Lemma take_app_exact (a b : string) : take_string (String.length a) (a ++ b) = a.
Proof.
  rewrite <- (Nat.add_0_r (String.length a)), take_app_string.
  cbn [take_string]. by destruct b; rewrite append_empty_r.
Qed.

Lemma drop_app_exact (a b : string) : drop_string (String.length a) (a ++ b) = b.
Proof.
  rewrite <- (Nat.add_0_r (String.length a)), drop_app_string. reflexivity.
Qed.

Lemma startsWith_split (p s : string) :
  startsWith p s = true -> s = p ++ drop_string (String.length p) s.
Proof.
  revert s. induction p as [|a p IH]; intros s H; [reflexivity|].
  destruct s as [|b s]; [discriminate H|]. simpl in H.
  destruct (Ascii.eqb a b) eqn:Hab; [|discriminate H].
  apply Ascii.eqb_eq in Hab as <-. rewrite append_cons. simpl. f_equal. by apply IH.
Qed.

(** The first occurrence of [p] in [s] splits [s] around it. *)
Lemma index_of_split (p s : string) (i : nat) :
  index_of p s = Some i ->
  s = take_string i s ++ p ++ drop_string (i + String.length p) s
  /\ String.length (take_string i s) = i.
Proof.
  revert i. induction s as [|c s IH]; intros i; simpl.
  - destruct (startsWith p "") eqn:Hp; [|discriminate].
    intros [= <-]. split; [|reflexivity]. by apply startsWith_split in Hp.
  - destruct (startsWith p (String c s)) eqn:Hp.
    + intros [= <-]. split; [|reflexivity]. by apply startsWith_split in Hp.
    + destruct (index_of p s) as [k|]; [|discriminate]. intros [= <-].
      destruct (IH k eq_refl) as [Hs Hlen]. simpl. rewrite Hlen.
      split; [|reflexivity]. rewrite append_cons. by rewrite <- Hs.
Qed.

(** Before its first occurrence in [s] the text [p] does not occur. *)
Lemma includes_before_index_of (p s : string) (i : nat) :
  nonempty p = true -> index_of p s = Some i -> includes p (take_string i s) = false.
Proof.
  intros Hp. assert (Hprefix : forall n t, startsWith p (take_string n t) = true ->
                                            startsWith p t = true).
  { clear. induction p as [|a p IH]; intros n t H; [reflexivity|].
    destruct n as [|n]; [discriminate H|]. destruct t as [|b t]; [discriminate H|].
    simpl in *. destruct (Ascii.eqb a b); [by eapply IH|discriminate H]. }
  revert i. induction s as [|c s IH]; intros i; simpl.
  - destruct p; [discriminate Hp|]. discriminate.
  - destruct (startsWith p (String c s)) eqn:Hs.
    + intros [= <-]. simpl. by destruct p.
    + destruct (index_of p s) as [k|]; [|discriminate]. intros [= <-].
      cbn [take_string includes]. rewrite (IH k eq_refl), orb_false_r.
      destruct (startsWith p (String c (take_string k s))) eqn:Hk; [|reflexivity].
      apply (Hprefix (S k) (String c s)) in Hk. congruence.
Qed.

(** ** Blocks *)

(** One round of the extraction loop, spelled out: where the text splits. *)
Lemma exec_round (rest : string) (i j : nat) :
  index_of OPEN_TAG rest = Some i ->
  index_of CLOSE_TAG (drop_string (i + String.length OPEN_TAG) rest) = Some j ->
  let inner := drop_string (i + String.length OPEN_TAG) rest in
  let text := take_string j inner in
  drop_string i rest
  = (OPEN_TAG ++ text ++ CLOSE_TAG)
    ++ drop_string (j + String.length CLOSE_TAG) inner
  /\ String.length (OPEN_TAG ++ text ++ CLOSE_TAG)
     = (String.length OPEN_TAG + j + String.length CLOSE_TAG)%nat
  /\ String.length (take_string i rest) = i.
Proof.
  intros Hi Hj. cbv zeta.
  destruct (index_of_split _ _ _ Hi) as [Hrest Hleni].
  destruct (index_of_split _ _ _ Hj) as [Hinner Hlenj].
  set (inner := drop_string (i + String.length OPEN_TAG) rest) in *.
  split; [|split; [|exact Hleni]].
  - rewrite Hrest at 1. rewrite <- (Nat.add_0_r (String.length (take_string i rest))) in Hleni.
    rewrite <- Hleni at 1. rewrite drop_app_string. cbn [drop_string].
    rewrite !append_assoc. f_equal. rewrite <- !append_assoc.
    rewrite append_assoc. exact Hinner.
  - rewrite !length_append, Hlenj. lia.
Qed.

Lemma exec_loop_laid_out (fuel : nat) (rest : string) (lastIndex : nat) :
  laid_out rest lastIndex (exec_loop fuel rest lastIndex).
Proof.
  revert rest lastIndex. induction fuel as [|fuel IH]; intros rest lastIndex; [exact I|].
  cbn [exec_loop].
  destruct (index_of OPEN_TAG rest) as [i|] eqn:Hi; [|exact I].
  destruct (index_of CLOSE_TAG _) as [j|] eqn:Hj; [|exact I].
  destruct (exec_round rest i j Hi Hj) as (Hsplit & Hlen & Hleni).
  cbn [laid_out index fullMatch]. cbv zeta.
  replace (lastIndex + i - lastIndex)%nat with i by lia.
  split; [lia|]. split; [|split].
  - apply (f_equal String.length) in Hsplit.
    rewrite length_drop_string, length_append in Hsplit.
    rewrite length_take_string in Hleni. lia.
  - rewrite Hsplit.
    rewrite <- (Nat.add_0_r (String.length _)). rewrite take_app_string.
    cbn [take_string]. by destruct (drop_string _ _); rewrite append_empty_r.
  - rewrite <- drop_drop_string, Hsplit.
    rewrite <- (Nat.add_0_r (String.length _)). rewrite drop_app_string.
    cbn [drop_string]. rewrite Nat.add_0_r, Hlen.
    replace (lastIndex + i + (String.length OPEN_TAG + j + String.length CLOSE_TAG))%nat
      with (lastIndex + i + String.length OPEN_TAG + j + String.length CLOSE_TAG)%nat
      by lia.
    apply IH.
Qed.

Lemma rebuild_laid_out (s : string) (offset : nat) (blocks : list Block) :
  laid_out s offset blocks -> rebuild s offset blocks fullMatch = s.
Proof.
  revert s offset. induction blocks as [|block later IH]; intros s offset H; [reflexivity|].
  destruct H as (_ & _ & Htext & Hlater). cbn [rebuild]. cbv zeta.
  rewrite (IH _ _ Hlater). rewrite <- Htext at 1.
  rewrite <- drop_drop_string, take_drop_string. apply take_drop_string.
Qed.

Lemma exec_loop_blocks (fuel : nat) (rest : string) (lastIndex : nat) :
  Forall (fun block =>
            fullMatch block = OPEN_TAG ++ content block ++ CLOSE_TAG
            /\ includes CLOSE_TAG (content block) = false
            /\ (lastIndex <= index block)%nat)
         (exec_loop fuel rest lastIndex).
Proof.
  revert rest lastIndex. induction fuel as [|fuel IH]; intros rest lastIndex;
    [constructor|].
  cbn [exec_loop].
  destruct (index_of OPEN_TAG rest) as [i|] eqn:Hi; [|constructor].
  destruct (index_of CLOSE_TAG _) as [j|] eqn:Hj; [|constructor].
  constructor.
  - cbn. split; [reflexivity|]. split; [|lia].
    by apply includes_before_index_of.
  - eapply Forall_impl; [apply IH|]. cbn. intros block (? & ? & ?).
    repeat split; try done. lia.
Qed.

(** [extractJsonLdBlocks] finds its blocks in the order of the page, each
    at its index with its full text there, one after the end of the other;
    each is the opening tag, the content and the closing tag, and the
    content holds no closing tag.  Putting the blocks back between the
    text around them gives the page again. *)
Theorem extractJsonLdBlocks_layout (html : string) :
  laid_out html 0 (extractJsonLdBlocks html)
  /\ rebuild html 0 (extractJsonLdBlocks html) fullMatch = html
  /\ Forall (fun block =>
               fullMatch block = OPEN_TAG ++ content block ++ CLOSE_TAG
               /\ includes CLOSE_TAG (content block) = false)
            (extractJsonLdBlocks html).
Proof.
  unfold extractJsonLdBlocks.
  pose proof (exec_loop_laid_out (String.length html) html 0) as Hlaid.
  split; [exact Hlaid|]. split; [by apply rebuild_laid_out|].
  eapply Forall_impl; [apply exec_loop_blocks|]. cbn. tauto.
Qed.

(** More rounds than the page has characters find nothing more. *)
Lemma exec_loop_enough_fuel (fuel : nat) (rest : string) (lastIndex : nat) :
  (String.length rest <= fuel)%nat ->
  exec_loop (S fuel) rest lastIndex = exec_loop fuel rest lastIndex.
Proof.
  revert rest lastIndex. induction fuel as [|fuel IH]; intros rest lastIndex Hlen.
  - destruct rest; [reflexivity|simpl in Hlen; lia].
  - cbn [exec_loop].
    destruct (index_of OPEN_TAG rest) as [i|] eqn:Hi; [|reflexivity].
    destruct (index_of CLOSE_TAG _) as [j|] eqn:Hj; [|reflexivity].
    f_equal. apply IH.
    rewrite drop_drop_string, length_drop_string.
    change (String.length CLOSE_TAG) with 9%nat. lia.
Qed.

(** The number of rounds allowed does not cut the extraction short: any
    larger number gives the same blocks. *)
Theorem extractJsonLdBlocks_fuel (html : string) (extra : nat) :
  exec_loop (String.length html + extra) html 0 = extractJsonLdBlocks html.
Proof.
  unfold extractJsonLdBlocks. induction extra as [|extra IH].
  - by rewrite Nat.add_0_r.
  - rewrite Nat.add_succ_r, exec_loop_enough_fuel; [exact IH|lia].
Qed.

(** ** Patching a page *)

Section PatchProps.
Context {rt : Runtime}.
Variable pretty : value -> string.
Variables (graphSchema : option value) (schemaMap : SchemaMap).

Local Abbreviation loop := (patchLoop pretty graphSchema schemaMap).
Local Abbreviation text_of := (blockText pretty graphSchema schemaMap).
Local Abbreviation replaced := (blockReplaced pretty graphSchema schemaMap).
Local Abbreviation fails := (blockFails pretty graphSchema schemaMap).

Lemma patchLoop_app (l1 l2 : list Block) (html : string) (patched : bool) :
  loop (l1 ++ l2)%list html patched =
  match loop l1 html patched with
  | Some (html', patched') => loop l2 html' patched'
  | None => None
  end.
Proof.
  revert html patched. induction l1 as [|block l1 IH]; intros html patched; [reflexivity|].
  cbn [app patchLoop].
  destruct (blockOutcome pretty graphSchema schemaMap block) as [[newBlock|]|];
    cbn; [apply IH|apply IH|reflexivity].
Qed.

Lemma patchLoop_fails (l : list Block) (html : string) (patched : bool) :
  existsb fails l = true -> loop l html patched = None.
Proof.
  revert html patched. induction l as [|block l IH]; intros html patched H;
    [discriminate H|].
  cbn [existsb] in H. cbn [patchLoop]. unfold blockFails in H at 1.
  destruct (blockOutcome pretty graphSchema schemaMap block) as [[newBlock|]|];
    cbn in *; [by apply IH|by apply IH|reflexivity].
Qed.

(** Going through the blocks from the last to the first and splicing at
    the indices found in the page as it was gives the same text as one
    pass from left to right. *)
Lemma patchLoop_rebuild (blocks : list Block) (pre s : string) (patched : bool) :
  laid_out s (String.length pre) blocks ->
  existsb fails blocks = false ->
  loop (rev blocks) (pre ++ s) patched =
  Some (pre ++ rebuild s (String.length pre) blocks text_of,
        patched || existsb replaced blocks).
Proof.
  revert pre s patched.
  induction blocks as [|block later IH]; intros pre s patched Hlaid Hok.
  - cbn. by rewrite orb_false_r.
  - destruct Hlaid as (Hoffset & Hbound & Htext & Hlater).
    cbn [existsb] in Hok. apply orb_false_iff in Hok as [Hblock Hok].
    set (gap := (index block - String.length pre)%nat) in *.
    set (len := String.length (fullMatch block)) in *.
    set (before := take_string gap s).
    assert (Hbefore : String.length before = gap).
    { unfold before. rewrite length_take_string. lia. }
    assert (Hcut : take_string (gap + len) s = before ++ fullMatch block).
    { by rewrite take_add_string, Htext. }
    set (pre' := pre ++ before ++ fullMatch block).
    assert (Hpre' : String.length pre' = (index block + len)%nat).
    { unfold pre'. rewrite !length_append, Hbefore. fold len. lia. }
    assert (Hsplit : pre ++ s = pre' ++ drop_string (gap + len) s).
    { unfold pre'. rewrite <- Hcut. by rewrite append_assoc, take_drop_string. }
    cbn [rev]. rewrite patchLoop_app, Hsplit.
    rewrite <- Hpre' in Hlater. rewrite (IH _ _ patched Hlater Hok).
    cbn [patchLoop rebuild existsb]. fold gap len before.
    unfold blockFails in Hblock. rewrite Hpre'.
    set (after := rebuild (drop_string (gap + len) s) (index block + len) later text_of).
    destruct (blockOutcome pretty graphSchema schemaMap block) as [[newBlock|]|]
      eqn:Hout; [| |discriminate Hblock]; cbn; unfold blockText, blockReplaced;
      rewrite Hout.
    + f_equal. f_equal; [|by rewrite orb_true_r].
      unfold splice. fold len.
      assert (Hhead : take_string (index block) (pre' ++ after) = pre ++ before).
      { replace (index block) with (String.length (pre ++ before))
          by (rewrite length_append, Hbefore; lia).
        unfold pre'. rewrite <- !append_assoc. rewrite (append_assoc (pre ++ before)).
        apply take_app_exact. }
      assert (Htail : drop_string (index block + len) (pre' ++ after) = after).
      { rewrite <- Hpre'. apply drop_app_exact. }
      rewrite Hhead, Htail. by rewrite !append_assoc.
    + f_equal. f_equal. unfold pre'. by rewrite !append_assoc.
Qed.
End PatchProps.

Lemma existsb_reverse {A : Type} (f : A -> bool) (l : list A) :
  existsb f (rev l) = existsb f l.
Proof.
  induction l as [|a l IH]; [reflexivity|].
  cbn [rev existsb]. rewrite existsb_app, IH. cbn. by rewrite orb_false_r, orb_comm.
Qed.

Section PatchPage.
Context {rt : Runtime}.
Variable pretty : value -> string.

Lemma rebuild_same_text (s : string) (offset : nat) (blocks : list Block)
  (out1 out2 : Block -> string) :
  Forall (fun block => out1 block = out2 block) blocks ->
  rebuild s offset blocks out1 = rebuild s offset blocks out2.
Proof.
  intros H. revert s offset. induction H as [|block later Hb _ IH]; intros s offset;
    [reflexivity|].
  cbn [rebuild]. cbv zeta. by rewrite Hb, IH.
Qed.

(** What [patchHtml] gives once the schemas are sorted into the maps. *)
Lemma patchHtml_run (html : string) (schemas : list value)
  (graphSchema : option value) (schemaMap : SchemaMap) :
  buildMaps schemas None {| own := []; proto := None |} = Some (graphSchema, schemaMap) ->
  patchHtml pretty html schemas =
  if existsb (blockFails pretty graphSchema schemaMap) (extractJsonLdBlocks html)
  then None
  else Some (rebuild html 0 (extractJsonLdBlocks html)
               (blockText pretty graphSchema schemaMap),
             existsb (blockReplaced pretty graphSchema schemaMap)
               (extractJsonLdBlocks html)).
Proof.
  intros Hmaps. unfold patchHtml. rewrite Hmaps. cbn.
  destruct (existsb _ (extractJsonLdBlocks html)) eqn:Hfail.
  - apply patchLoop_fails. by rewrite existsb_reverse.
  - apply (patchLoop_rebuild pretty graphSchema schemaMap
             (extractJsonLdBlocks html) "" html false); [|exact Hfail].
    apply exec_loop_laid_out.
Qed.

(** Replacing from the last block to the first, at the indices found in
    the page as it was read, gives the page in which every matched block is
    replaced by its new text and every other character is as it was; when
    no block was replaced the text is the same. *)
Theorem patchHtml_left_to_right
  (html : string) (schemas : list value) (html' : string) (patched : bool) :
  patchHtml pretty html schemas = Some (html', patched) ->
  exists graphSchema schemaMap,
    buildMaps schemas None {| own := []; proto := None |} = Some (graphSchema, schemaMap)
    /\ html' = rebuild html 0 (extractJsonLdBlocks html)
                 (blockText pretty graphSchema schemaMap)
    /\ patched = existsb (blockReplaced pretty graphSchema schemaMap)
                   (extractJsonLdBlocks html)
    /\ (patched = false -> html' = html).
Proof.
  intros Hrun.
  destruct (buildMaps schemas None {| own := []; proto := None |})
    as [[graphSchema schemaMap]|] eqn:Hmaps;
    [|unfold patchHtml in Hrun; rewrite Hmaps in Hrun; discriminate Hrun].
  rewrite (patchHtml_run _ _ _ _ Hmaps) in Hrun.
  destruct (existsb (blockFails _ _ _) _); [discriminate Hrun|].
  injection Hrun as <- <-. exists graphSchema, schemaMap.
  split; [reflexivity|]. split; [reflexivity|]. split; [reflexivity|].
  intros Hnone.
  rewrite (rebuild_same_text _ _ _ _ fullMatch).
  - apply rebuild_laid_out, exec_loop_laid_out.
  - apply Forall_forall. intros block Hin.
    assert (Hb : blockReplaced pretty graphSchema schemaMap block = false).
    { destruct (blockReplaced pretty graphSchema schemaMap block) eqn:Hb; [|reflexivity].
      rewrite <- Hnone. symmetry. apply existsb_exists. exists block.
      split; [by apply list_elem_of_In|exact Hb]. }
    unfold blockReplaced in Hb. unfold blockText.
    by destruct (blockOutcome pretty graphSchema schemaMap block) as [[?|]|].
Qed.

(** A block whose content is the JSON text null stops [patchFile] with an
    exception, whatever the schemas and the other blocks are: the page is
    not patched at all. *)
Theorem patchHtml_null_block_throws
  (html : string) (schemas : list value) (block : Block) :
  block ∈ extractJsonLdBlocks html ->
  JSON_parse (content block) = Some VNull ->
  patchHtml pretty html schemas = None.
Proof.
  intros Hin Hnull.
  destruct (buildMaps schemas None {| own := []; proto := None |})
    as [[graphSchema schemaMap]|] eqn:Hmaps;
    [|unfold patchHtml; by rewrite Hmaps].
  rewrite (patchHtml_run _ _ _ _ Hmaps).
  replace (existsb _ _) with true; [reflexivity|].
  symmetry. apply existsb_exists. exists block. split; [by apply list_elem_of_In|].
  unfold blockFails, blockOutcome, replacementFor. by rewrite Hnull.
Qed.

(** [patchFile] returns false and changes nothing when the page does not
    exist.  When the page is there and no block makes it throw, it returns
    whether some block was replaced, and in that case, and in no other, it
    writes the rebuilt page at the path it was given.  Whenever it returns,
    every other file is as it was. *)
Theorem patchFile_writes_only_its_page
  (htmlPath : string) (schemas : list value) (files : gmap string FsEntry) :
  (files !! htmlPath = None ->
   patchFile pretty htmlPath schemas files = Some (false, files))
  /\ (forall html graphSchema schemaMap,
        files !! htmlPath = Some (RegularFile html) ->
        buildMaps schemas None {| own := []; proto := None |}
        = Some (graphSchema, schemaMap) ->
        existsb (blockFails pretty graphSchema schemaMap) (extractJsonLdBlocks html)
        = false ->
        patchFile pretty htmlPath schemas files
        = Some (if existsb (blockReplaced pretty graphSchema schemaMap)
                     (extractJsonLdBlocks html)
                then (true,
                      <[htmlPath :=
                          RegularFile
                            (rebuild html 0 (extractJsonLdBlocks html)
                               (blockText pretty graphSchema schemaMap))]> files)
                else (false, files)))
  /\ (forall patched files',
        patchFile pretty htmlPath schemas files = Some (patched, files') ->
        (forall other, other <> htmlPath -> files' !! other = files !! other)
        /\ (patched = false -> files' = files)
        /\ (patched = true ->
            exists html html',
              files !! htmlPath = Some (RegularFile html)
              /\ patchHtml pretty html schemas = Some (html', true)
              /\ files' !! htmlPath = Some (RegularFile html'))).
Proof.
  unfold patchFile. split; [by intros ->|]. split.
  - intros html graphSchema schemaMap -> Hmaps Hfails.
    rewrite (patchHtml_run _ _ _ _ Hmaps), Hfails. cbn.
    destruct (existsb (blockReplaced pretty graphSchema schemaMap)
                (extractJsonLdBlocks html)); reflexivity.
  - intros patched files'.
    destruct (files !! htmlPath) as [[html|]|] eqn:Hfile; [| discriminate |].
    + destruct (patchHtml pretty html schemas) as [[html' p]|] eqn:Hrun; [|discriminate].
      cbn. intros [= <- <-]. destruct p.
      * split; [intros other Hne; by rewrite lookup_insert_ne|].
        split; [discriminate|]. intros _.
        exists html, html'. split; [reflexivity|]. split; [exact Hrun|].
        by rewrite lookup_insert_eq.
      * repeat split; try done.
    + intros [= <- <-]. repeat split; try done.
Qed.
End PatchPage.

(** The French page: the product block is replaced by the French schema,
    the block that is not JSON stays. *)
Lemma patchHtml_page_fr :
  exists graphSchema schemaMap,
    buildMaps (rt := builder) [product_fr] None {| own := []; proto := None |}
    = Some (graphSchema, schemaMap)
    /\ page_fr_patched
       = rebuild page_fr 0 (extractJsonLdBlocks page_fr)
           (blockText (H := builder) sample_pretty graphSchema schemaMap)
    /\ true = existsb (blockReplaced (H := builder) sample_pretty graphSchema schemaMap)
                (extractJsonLdBlocks page_fr)
    /\ (true = false -> page_fr_patched = page_fr).
Proof.
  apply (patchHtml_left_to_right (rt := builder) sample_pretty page_fr [product_fr]).
  vm_compute. reflexivity.
Defined.

(** A page with a block that holds null is not patched. *)
Lemma patchHtml_page_null :
  patchHtml (rt := builder) sample_pretty page_null [product_fr] = None.
Proof.
  refine (patchHtml_null_block_throws (rt := builder) sample_pretty page_null
            [product_fr] {| fullMatch := OPEN_TAG ++ "null" ++ CLOSE_TAG;
                            content := "null"; index := 6 |} _ _).
  - apply list_elem_of_In. vm_compute. left. reflexivity.
  - vm_compute. reflexivity.
Defined.

(** Patching the French page of the build writes the patched page there
    and nothing else; for a page that is not in the build nothing is
    written. *)
Lemma patchFile_dist_fr :
  patchFile (rt := builder) sample_pretty "dist/fr/index.html" [product_fr] dist_files
  = Some (true, <["dist/fr/index.html" := RegularFile page_fr_patched]> dist_files)
  /\ patchFile (rt := builder) sample_pretty "dist/fr/about.html" [product_fr] dist_files
     = Some (false, dist_files).
Proof.
  destruct (patchFile_writes_only_its_page (rt := builder) sample_pretty
              "dist/fr/index.html" [product_fr] dist_files) as (_ & Hwrites & _).
  destruct (patchFile_writes_only_its_page (rt := builder) sample_pretty
              "dist/fr/about.html" [product_fr] dist_files) as (Hmissing & _ & _).
  split; [|apply Hmissing; reflexivity].
  rewrite (Hwrites page_fr None
             {| own := [("Product", product_fr)]; proto := None |});
    [|reflexivity|vm_compute; reflexivity|vm_compute; reflexivity].
  replace (existsb _ _) with true by (vm_compute; reflexivity).
  do 4 f_equal; vm_compute; reflexivity.
Defined.

(** ** Schema files *)

Lemma endsWith_split (suffix s : string) :
  endsWith suffix s = true ->
  s = take_string (String.length s - String.length suffix) s ++ suffix.
Proof.
  unfold endsWith. intros H. apply String.eqb_eq in H.
  set (n := (String.length s - String.length suffix)%nat) in *.
  transitivity (take_string n s ++ drop_string n s);
    [symmetry; apply take_drop_string|by rewrite H].
Qed.

Lemma endsWith_app (suffix a : string) : endsWith suffix (a ++ suffix) = true.
Proof.
  unfold endsWith. rewrite length_append.
  replace (String.length a + String.length suffix - String.length suffix)%nat
    with (String.length a) by lia.
  rewrite drop_app_exact. apply String.eqb_refl.
Qed.

Lemma endsWith_prefixed (suffix a s : string) :
  endsWith suffix s = true -> endsWith suffix (a ++ s) = true.
Proof.
  intros H. rewrite (endsWith_split _ _ H), <- append_assoc. apply endsWith_app.
Qed.

Lemma htmlRelOf_stem (stem : string) : htmlRelOf (stem ++ ".json") = stem ++ ".html".
Proof.
  unfold htmlRelOf. rewrite endsWith_app, length_append.
  replace (String.length stem + String.length ".json" - 5)%nat
    with (String.length stem) by (simpl; lia).
  by rewrite take_app_exact.
Qed.

Lemma relPathOf_ends (prefix entry : string) :
  exists before, relPathOf prefix entry = before ++ entry.
Proof.
  unfold relPathOf. destruct (nonempty prefix).
  - exists (prefix ++ "/"). by rewrite append_assoc.
  - by exists "".
Qed.

Lemma schemaFilesAt_json (node : FsNode) :
  forall entry relPath,
    (exists before, relPath = before ++ entry) ->
    Forall (fun path => endsWith ".json" path = true) (schemaFilesAt node entry relPath).
Proof.
  revert node. fix IH 1. intros [|sub] entry relPath [before ->]; cbn [schemaFilesAt].
  - destruct (endsWith ".json" entry) eqn:He; constructor; [|constructor].
    by apply endsWith_prefixed.
  - induction sub as [|[e n] rest IHrest]; [constructor|].
    apply Forall_app. split; [|exact IHrest].
    apply IH, relPathOf_ends.
Qed.

(** Every path that [getSchemaFiles] lists ends in [.json], whatever the
    directory tree, and the page path derived from it in [main] is the
    same path with [.html] in the place of [.json]. *)
Theorem getSchemaFiles_json_to_html (entries : list (string * FsNode)) (prefix : string) :
  Forall (fun path =>
            exists stem, path = stem ++ ".json" /\ htmlRelOf path = stem ++ ".html")
         (getSchemaFiles entries prefix).
Proof.
  unfold getSchemaFiles. apply Forall_flat_map, Forall_forall.
  intros [e n] _. eapply Forall_impl; [apply schemaFilesAt_json, relPathOf_ends|].
  cbn. intros path Hpath. exists (take_string (String.length path - 5) path).
  apply endsWith_split in Hpath. cbn [String.length] in Hpath.
  split; [exact Hpath|]. rewrite Hpath at 1. apply htmlRelOf_stem.
Qed.

(** In a directory without sub-directories the files are listed in the
    order of the directory, those that end in [.json] and no others; the
    prefix is put before each name when there is one. *)
Theorem getSchemaFiles_flat (names : list string) (prefix : string) :
  getSchemaFiles (map (fun name => (name, FsFile)) names) prefix
  = map (relPathOf prefix) (filter (fun name => endsWith ".json" name = true) names).
Proof.
  unfold getSchemaFiles. induction names as [|name names IH]; [reflexivity|].
  cbn [map flat_map schemaFilesAt]. rewrite IH, filter_cons.
  destruct (endsWith ".json" name) eqn:He.
  - rewrite decide_True by done. reflexivity.
  - rewrite decide_False by done. reflexivity.
Qed.

(** On the privacy page, which has no pricing content, a page load sends
    nothing and changes nothing. *)
Lemma init_privacy_page :
  init (rt := browser) (serves india) privacy_visit = (Normal tt, privacy_visit).
Proof.
  destruct (init_at_most_one_request (rt := browser) (serves india) privacy_visit)
    as (_ & Hnothing & _).
  exact (Hnothing eq_refl).
Defined.

(** ** Sorting the schemas *)

Section BuildMaps.
Context {rt : Runtime}.





End BuildMaps.


(** ** Price texts *)

(** On every whole percentage from 0 to 100 the texts put on the page are
    the exact prices in dollars and cents: units, then the two-digit cents
    after a point (plain text) or in the superscript markup (large price),
    with cents of 00 left out. *)
Theorem formatPrice_whole_percent {rt : Runtime} (pct : Z) :
  (0 <= pct <= 100)%Z -> texts_match_exact pct.
Proof.
  intros Hpct.
  assert (Hall : forallb (fun n => bool_decide (texts_match_exact (Z.of_nat n)))
                   (seq 0 101) = true) by (vm_compute; reflexivity).
  rewrite forallb_forall in Hall.
  specialize (Hall (Z.to_nat pct)).
  rewrite Z2Nat.id in Hall by lia.
  apply (bool_decide_eq_true_1 (texts_match_exact pct)), Hall, in_seq. lia.
Qed.

(** At 37 percent the page shows 11.97 a month and 114.91 a year. *)
Lemma formatPrice_37 :
  formatPriceText (rt := browser)
    (monthly (calculatePrices (rt := browser) (float_of_Z 37)))
    (monthlyCents (calculatePrices (rt := browser) (float_of_Z 37))) = "$11.97"
  /\ formatPriceText (rt := browser)
       (annual (calculatePrices (rt := browser) (float_of_Z 37)))
       (annualCents (calculatePrices (rt := browser) (float_of_Z 37))) = "$114.91".
Proof.
  destruct (formatPrice_whole_percent (rt := browser) 37 ltac:(lia)) as (Hm & Hy & _).
  split; [rewrite Hm|rewrite Hy]; vm_compute; reflexivity.
Defined.
